(** * Swarming task scheduling handlers and the bot main loop

    A shallow embedding of the request handlers of the Swarming server
    ([services/swarming/handlers_frontend.py],
    [appengine/swarming/handlers_api.py]) and of the bot's main loop
    ([appengine/swarming/swarming_bot/bot_code/bot_main.py]), with the
    properties of the task lifecycle, of the poll protocol and of the bot's
    quarantine that are checked against them.

    Python dictionaries are finite maps ([gmap]) from strings, the datastore is
    a record of finite maps from keys to entities and is threaded explicitly,
    and a handler returns the datastore it leaves together with the HTTP
    response it sends. *)

From stdpp Require Import gmap strings list fin_maps pretty.
From Stdlib Require Import ZArith Lia Ascii.

Local Open Scope Z_scope.
Set Warnings "-register-all".

(** ** Python values

    The values a handler receives after [json.loads], or builds itself. The
    numbers are the integers. *)

Inductive pyval : Type :=
| PyNone
| PyBool (b : bool)
| PyInt (z : Z)
| PyStr (s : string)
| PyList (l : list pyval)
| PyDict (d : gmap string pyval).

(** [bool(v)]: [None], [False], [0], the empty string, the empty list and the
    empty dictionary are the false values. *)
Definition truthy (v : pyval) : bool :=
  match v with
  | PyNone => false
  | PyBool b => b
  | PyInt z => negb (z =? 0)
  | PyStr s => negb (bool_decide (s = ""%string))
  | PyList l => match l with [] => false | _ :: _ => true end
  | PyDict d => negb (bool_decide (d = ∅))
  end.

(** [v < n] for an integer [n], as Python 2 orders values of different types:
    [None] is below everything, a boolean is the integer 0 or 1, and a number is
    below every string, list and dictionary. *)
Definition py_lt_int (v : pyval) (n : Z) : bool :=
  match v with
  | PyNone => true
  | PyBool b => (if b then 1 else 0) <? n
  | PyInt z => z <? n
  | PyStr _ => false
  | PyList _ => false
  | PyDict _ => false
  end.

(** [v != s] for a string [s]. *)
Definition py_ne_str (v : pyval) (s : string) : bool :=
  match v with
  | PyStr s' => negb (bool_decide (s' = s))
  | _ => true
  end.

(** [isinstance(v, unicode)]: [json.loads] decodes every string as unicode. *)
Definition is_unicode (v : pyval) : bool :=
  match v with PyStr _ => true | _ => false end.

(** [hash(v)] is defined: a list and a dictionary cannot be hashed. *)
Definition hashable (v : pyval) : bool :=
  match v with
  | PyList _ | PyDict _ => false
  | _ => true
  end.

(** The characters of a string, each a string of its own. *)
Fixpoint characters (s : string) : list string :=
  match s with
  | EmptyString => []
  | String c s' => String c EmptyString :: characters s'
  end.

(** The strings among the members of [frozenset(v)], which are all that a set
    of strings is compared with: the keys of a dictionary, the items of a
    list and the characters of a string. [None] is the [TypeError] of a value
    that cannot be iterated, or of a list with an item that cannot be
    hashed. *)
Definition frozenset (v : pyval) : option (gset string) :=
  match v with
  | PyDict d => Some (dom d)
  | PyList l =>
    if forallb hashable l then
      Some (list_to_set
              (omap (fun x => match x with PyStr s => Some s | _ => None end)
                 l))
    else None
  | PyStr s => Some (list_to_set (characters s))
  | PyNone | PyBool _ | PyInt _ => None
  end.

(** [v[0]]: the first item of a list, the first character of a string; the
    exception is the one Python raises on a value that has none. *)
Definition item0 (v : pyval) : string + pyval :=
  match v with
  | PyList (x :: _) => inr x
  | PyStr (String c _) => inr (PyStr (String c EmptyString))
  | PyList [] | PyStr EmptyString => inl "IndexError"%string
  | PyDict _ => inl "KeyError"%string
  | PyNone | PyBool _ | PyInt _ => inl "TypeError"%string
  end.

(** The line feed, ['\n']. *)
Definition nl : string := String (Ascii.ascii_of_nat 10) EmptyString.

(** What a handler sends: a response body with status 200, or an abort with an
    HTTP error status. An exception no handler catches ends the request with
    status 500. *)
Inductive http (A : Type) : Type :=
| Send (body : A)
| Abort (status : Z) (message : string).
Arguments Send {A} body.
Arguments Abort {A} status message.

Definition is_error {A} (r : http A) : bool :=
  match r with Send _ => false | Abort _ _ => true end.

(** ** The task lifecycle *)

(** Modelled from the spec: [task_result.State] is declared outside the files
    at hand; these are the seven states of the specification's data model. *)
Inductive State : Type :=
| PENDING | RUNNING | COMPLETED | TIMED_OUT | BOT_DIED | EXPIRED | CANCELED.

#[global] Instance State_eq_dec : EqDecision State.
Proof. solve_decision. Defined.

Definition is_terminal (s : State) : bool :=
  match s with
  | PENDING | RUNNING => false
  | COMPLETED | TIMED_OUT | BOT_DIED | EXPIRED | CANCELED => true
  end.

(** * handlers_frontend.py *)

Module Frontend.

(** Modelled from the spec: the entities are declared in [task_request],
    [task_to_run] and [task_result], outside the files at hand. The fields are
    those of the specification's data model that the handlers read or write. A
    request owns one [TaskToRun] and one [TaskResultSummary], and the summary
    one [TaskRunResult]; the four keys of one request are modelled by the
    request's id. *)
Record TaskRequest : Type := mkTaskRequest {
  req_name : string;
  req_user : string;
  req_priority : Z;
}.

Record TaskToRun : Type := mkTaskToRun {
  queue_number : Z;
  reaped_ts : option Z;
}.

Record TaskResultSummary : Type := mkTaskResultSummary {
  state : State;
  failure : bool;
  bot_id : option string;
  completed_ts : option Z;
  abandoned_ts : option Z;
  exit_codes : list Z;
}.

Record TaskRunResult : Type := mkTaskRunResult {
  run_state : State;
  run_bot_id : string;
  run_exit_codes : list Z;
  run_outputs : list Z;
}.

Record datastore : Type := mkDatastore {
  requests : gmap Z TaskRequest;
  to_runs : gmap Z TaskToRun;
  summaries : gmap Z TaskResultSummary;
  run_results : gmap Z TaskRunResult;
  results : list string;
}.

Definition put_to_run (k : Z) (t : TaskToRun) (ds : datastore) : datastore :=
  mkDatastore (requests ds) (<[k := t]> (to_runs ds)) (summaries ds)
    (run_results ds) (results ds).

Definition put_summary (k : Z) (s : TaskResultSummary) (ds : datastore)
  : datastore :=
  mkDatastore (requests ds) (to_runs ds) (<[k := s]> (summaries ds))
    (run_results ds) (results ds).

(** Modelled from the spec: [task_to_run.abort_task_to_run] is outside the files
    at hand; the specification's [abort] sets [reaped_ts] to the current time
    without claiming, and is idempotent. *)
Definition abort_task_to_run (now : Z) (k : Z) (t : TaskToRun) (ds : datastore)
  : datastore :=
  put_to_run k (mkTaskToRun (queue_number t) (Some now)) ds.

Section Handlers.

(** [task_scheduler.unpack_result_summary_key] and [unpack_run_result_key]:
    [None] stands for the [ValueError] they raise on a malformed id. *)
Variable unpack_result_summary_key : string -> option Z.
Variable unpack_run_result_key : string -> option Z.

(** [CancelHandler.post]. [r] is the request's [r] parameter and [now] the
    clock's [utcnow()]. Each [get()] that finds no entity gives [None], and the
    attribute access that follows raises. *)
Definition CancelHandler_post (now : Z) (r : string) (ds : datastore)
  : datastore * http string :=
  match unpack_result_summary_key r with
  | None => (ds, Abort 400 "Unable to cancel runner")
  | Some key =>
    match requests ds !! key with
    | None => (ds, Abort 500 "AttributeError")
    | Some _ =>
      match to_runs ds !! key with
      | None => (ds, Abort 500 "AttributeError")
      | Some task =>
        let ds1 := abort_task_to_run now key task ds in
        match summaries ds1 !! key with
        | None => (ds1, Abort 500 "AttributeError")
        | Some result_summary =>
          let result_summary' :=
            mkTaskResultSummary CANCELED (failure result_summary)
              (bot_id result_summary) (completed_ts result_summary)
              (Some now) (exit_codes result_summary) in
          (put_summary key result_summary' ds1, Send "Runner canceled."%string)
        end
      end
    end
  end.

(** [ResultHandler.post]: the legacy path by which a bot posts the results of
    the task it ran. [r] and [id] are the request's parameters (the id already
    unquoted), [x] the exit codes of parameter [x] as [map(int, ...)] reads them
    ([None] when it raises) and [result_string] the output.
    [task_scheduler.bot_update_task] is outside this file: [None] stands for the
    [ValueError] it raises, which this handler does not catch. *)
Variable bot_update_task :
  Z -> list Z -> list Z -> string -> datastore -> option datastore.

Definition StoreResults (result_string : string) (ds : datastore)
  : Z * datastore :=
  (Z.of_nat (length (results ds)),
   mkDatastore (requests ds) (to_runs ds) (summaries ds) (run_results ds)
     (results ds ++ [result_string])).

Definition ResultHandler_post (r id : string) (x : option (list Z))
    (result_string : string) (ds : datastore) : datastore * http string :=
  match unpack_run_result_key r with
  | None => (ds, Abort 500 "ValueError")
  | Some run_result_key =>
    match run_results ds !! run_result_key with
    | None => (ds, Abort 500 "AttributeError")
    | Some run_result =>
      if negb (bool_decide (id = run_bot_id run_result)) then
        (ds, Abort 404
               ("Expected bot id " +:+ run_bot_id run_result +:+ ", got " +:+ id))
      else
        let '(results_key, ds1) := StoreResults result_string ds in
        match x with
        | None => (ds1, Abort 500 "ValueError")
        | Some exit_codes =>
          match bot_update_task run_result_key exit_codes [results_key] id ds1
          with
          | None => (ds1, Abort 500 "ValueError")
          | Some ds2 =>
            (ds2, Send "Successfully update the runner results."%string)
          end
        end
    end
  end.

(** [convert_test_case]. [test_request_message.TestCase] is outside this file:
    a parsed test case is a record of the attributes the function reads, with
    the time-outs already rounded to integers. *)
Record TestObject : Type := mkTestObject {
  action : list string;
  hard_time_out : Z;
  io_time_out : Z;
}.

Record TestConfiguration : Type := mkTestConfiguration {
  config_dimensions : gmap string string;
  config_priority : Z;
  deadline_to_run : Z;
}.

Record TestCase : Type := mkTestCase {
  test_case_name : string;
  requestor : string;
  configurations : list TestConfiguration;
  tests : list TestObject;
  test_data : list string;
  env_vars : gmap string string;
}.

Record TaskProperties : Type := mkTaskProperties {
  commands : list (list string);
  data : list string;
  dimensions : gmap string string;
  env : gmap string string;
  execution_timeout_secs : Z;
  io_timeout_secs : Z;
}.

(** The dictionary [convert_test_case] returns and [make_request] takes. *)
Record request_properties : Type := mkRequestProperties {
  name : string;
  user : string;
  properties : TaskProperties;
  priority : Z;
  scheduling_expiration_secs : Z;
}.

Definition set_priority (p : Z) (rp : request_properties)
  : request_properties :=
  mkRequestProperties (name rp) (user rp) (properties rp) p
    (scheduling_expiration_secs rp).

(** [None] is the [AssertionError] of a test case that has not exactly one
    configuration. *)
Definition convert_test_case (test_case : TestCase)
  : option request_properties :=
  match configurations test_case with
  | [config] =>
    let '(execution_timeout, io_timeout) :=
      match tests test_case with
      | t :: _ => (hard_time_out t, io_time_out t)
      | [] => (2 * 60 * 60, 60 * 60)
      end in
    Some (mkRequestProperties (test_case_name test_case) (requestor test_case)
            (mkTaskProperties (action <$> tests test_case)
               (test_data test_case) (config_dimensions config)
               (env_vars test_case) execution_timeout io_timeout)
            (config_priority config) (deadline_to_run config))
  | _ => None
  end.

(** [test_request_message.TestCase.FromJSON]: [None] is the
    [test_request_message.Error] of a request it refuses. *)
Variable TestCase_FromJSON : string -> option TestCase.

(** [task_scheduler.make_request] stores the request and gives back the key of
    its result summary; [task_common.pack_result_summary_key] packs the key. *)
Variable make_request : request_properties -> datastore -> Z * datastore.
Variable pack_result_summary_key : Z -> string.

(** The body [TestRequestHandler.post] answers with. *)
Record test_request_out : Type := mkTestRequestOut {
  out_priority : Z;
  out_test_case_name : string;
  out_test_key : string;
}.

(** [TestRequestHandler.post]. [request] is the [request] parameter and
    [is_bot_or_admin] what [acl.is_bot_or_admin()] answers for the caller. *)
Definition TestRequestHandler_post (is_bot_or_admin : bool) (request : string)
    (ds : datastore) : datastore * http test_request_out :=
  if bool_decide (request = ""%string) then
    (ds, Abort 400 "No request parameter found.")
  else
    match TestCase_FromJSON request with
    | None => (ds, Abort 400 "test_request_message.Error")
    | Some test_case =>
      match convert_test_case test_case with
      | None => (ds, Abort 500 "AssertionError")
      | Some request_properties0 =>
        let request_properties1 :=
          if (priority request_properties0 <? 100) && negb is_bot_or_admin
          then set_priority 100 request_properties0
          else request_properties0 in
        let '(result_summary_key, ds1) :=
          make_request request_properties1 ds in
        (ds1,
         Send (mkTestRequestOut (priority request_properties1)
                 (name request_properties1)
                 (pack_result_summary_key result_summary_key)))
      end
    end.

End Handlers.

(** ** The addresses of the IP whitelist *)

(** [s.split(sep)] on a separator of one character. *)
Fixpoint split (sep : ascii) (s : string) : list string :=
  match s with
  | EmptyString => [EmptyString]
  | String c s' =>
    if Ascii.eqb c sep then EmptyString :: split sep s'
    else
      match split sep s' with
      | word :: words => String c word :: words
      | [] => [String c EmptyString]
      end
  end.

(** The strings in which the character [sep] does not occur. *)
Fixpoint free_of (sep : ascii) (s : string) : bool :=
  match s with
  | EmptyString => true
  | String c s' => negb (Ascii.eqb c sep) && free_of sep s'
  end.

Section Whitelist.

(** [int(i)]: [None] is the [ValueError] of a string that is no number. *)
Variable int : string -> option Z.

(** The length up to which [range] builds its list; beyond it, it raises
    ([OverflowError] or [MemoryError], by the platform). *)
Variable range_limit : Z.

Definition range (n : Z) : option (list Z) :=
  if n <=? range_limit then Some (Z.of_nat <$> seq 0 (Z.to_nat n)) else None.

(** [ipv4_to_int]: any number of fields, of any size, is accepted. *)
Definition ipv4_to_int (ip : string) : option Z :=
  values ← mapM int (split "."%char ip);
  Some (foldl (fun value i => value * 256 + i) 0 values).

(** [int_to_ipv4]: the four low bytes of [integer], the highest first. *)
Definition int_to_ipv4 (integer : Z) : string :=
  let '(values, _) :=
    foldl (fun '(values, integer) _ =>
             (values ++ [integer `mod` 256], integer `div` 256))
      ([], integer) (seq 0 4) in
  String.concat "." (pretty <$> reverse values).

(** [expand_subnet]. [None] is the [ValueError] of a shift by a negative count
    or of an address that does not parse, or the error of [range]. *)
Definition expand_subnet (ip : string) (mask : Z) : option (list string) :=
  if mask =? 32 then Some [ip]
  else if 32 - mask <? 0 then None
  else
    rs ← range (Z.shiftl 1 (32 - mask));
    mapM (fun r => n ← ipv4_to_int ip; Some (int_to_ipv4 (n + r))) rs.

End Whitelist.

(** ** [TasksHandler] *)





Section TasksPage.

(** [datastore_query.Cursor(urlsafe=s)], of App Engine: [None] is the
    [BadValueError] of a string that is no cursor. *)
Variable cursor : Type.
Variable Cursor : string -> option cursor.
(** [int(s)]: [None] is the [ValueError] of a string that is no number. *)
Variable int : string -> option Z.


End TasksPage.

End Frontend.

(** * handlers_api.py *)

Module Api.

(** What the handler reads of the HTTP request besides its body. *)
Record http_request : Type := mkHttpRequest {
  host_url : string;
  remote_addr : string;
}.

(** Modelled from the spec: [TaskRequest.properties] is declared in
    [task_request], outside the files at hand; these are the attributes the
    manifest copies. *)
Record TaskProperties : Type := mkTaskProperties {
  commands : list (list string);
  data : list (string * string);
  env : gmap string string;
  execution_timeout_secs : Z;
  io_timeout_secs : Z;
}.

Record manifest : Type := mkManifest {
  m_bot_id : pyval;
  m_commands : list (list string);
  m_data : list (string * string);
  m_env : gmap string string;
  m_host : string;
  m_hard_timeout : Z;
  m_io_timeout : Z;
  m_task_id : string;
}.

(** The arguments of [bot_management.tag_bot_seen]. *)
Record bot_seen : Type := mkBotSeen {
  seen_bot_id : pyval;
  seen_hostname : pyval;
  seen_ip : pyval;
  seen_remote_addr : string;
  seen_dimensions : gmap string pyval;
  seen_version : pyval;
  seen_quarantined : pyval;
  seen_state : gmap string pyval;
}.

(** What [task_scheduler.bot_reap_task] does: it raises
    [runtime.DeadlineExceededError], or returns a request with the key of its
    run result, or no request. *)
Inductive reaped : Type :=
| DeadlineExceededError
| Reaped (task : option (TaskProperties * Z)).

Section Poll.

(** The duration [task_scheduler.exponential_backoff] computes. *)
Variable duration : Type.

(** The commands a poll is answered with: the value of the body's [cmd] entry
    and the entries that come with it. *)
Inductive poll_cmd : Type :=
| CmdRun (m : manifest)
| CmdSleep (d : duration) (quarantined : pyval)
| CmdUpdate (version : string)
| CmdRestart (message : string).

Definition cmd (c : poll_cmd) : string :=
  match c with
  | CmdRun _ => "run"
  | CmdSleep _ _ => "sleep"
  | CmdUpdate _ => "update"
  | CmdRestart _ => "restart"
  end.

(** The server's state, and the collaborators of the handler that are outside
    this file, each a function of that state. The body of a request is the
    dictionary [parse_body] gives. *)
Variable world : Type.
Variable ereporter2_log_request : string -> string -> world -> world.
Variable get_bot_version : string -> string.
Variable dimensions_powerset_count : gmap string pyval -> Z.
Variable MAX_DIMENSIONS : Z.
Variable stats_add_entry : pyval -> gmap string pyval -> world -> world.
Variable tag_bot_seen : bot_seen -> world -> world.
Variable should_restart_bot :
  pyval -> gmap string pyval -> gmap string pyval -> world -> bool * string.
Variable bot_reap_task :
  gmap string pyval -> pyval -> pyval -> world -> reaped * world.
Variable exponential_backoff : pyval -> duration.
Variable get_versioned_hosturl : string.
Variable pack_run_result_key : Z -> string.
(** How ['%s' % sorted(keys)] prints a set of keys. *)
Variable show_keys : gset string -> string.

(** [log_unexpected_subset_keys]: the message when a key is superfluous or
    missing, which is also logged, and [None] otherwise. [actual_keys] is the
    set [frozenset(actual_keys)] of the function. *)
Definition log_unexpected_subset_keys (expected_keys minimum_keys : gset string)
    (actual_keys : gset string) (source name : string) (w : world)
  : option string * world :=
  let superfluous := actual_keys ∖ expected_keys in
  let missing := minimum_keys ∖ actual_keys in
  if bool_decide (superfluous ≠ ∅) || bool_decide (missing ≠ ∅) then
    let msg_missing :=
      if bool_decide (missing ≠ ∅) then " missing: " +:+ show_keys missing
      else ""%string in
    let msg_superfluous :=
      if bool_decide (superfluous ≠ ∅)
      then " superfluous: " +:+ show_keys superfluous
      else ""%string in
    let message :=
      "Unexpected " +:+ name +:+ msg_missing +:+ msg_superfluous
        +:+ "; did you make a typo?" in
    (Some message, ereporter2_log_request source message w)
  else (None, w).

Definition log_unexpected_keys (expected_keys actual_keys : gset string)
    (source name : string) (w : world) : option string * world :=
  log_unexpected_subset_keys expected_keys expected_keys actual_keys source
    name w.

(** [log_missing_keys]. *)
Definition log_missing_keys (minimum_keys actual_keys : gset string)
    (source name : string) (w : world) : option string * world :=
  let missing := minimum_keys ∖ actual_keys in
  if bool_decide (missing ≠ ∅) then
    let message :=
      "Unexpected " +:+ name +:+ " missing: " +:+ show_keys missing
        +:+ "; did you make a typo?" in
    (Some message, ereporter2_log_request source message w)
  else (None, w).

(** [if msg:] on what the logging functions return. *)
Definition msg_set (msg : option string) : bool :=
  match msg with
  | None => false
  | Some m => truthy (PyStr m)
  end.

(** *** [BotPollHandler] *)

Definition ACCEPTED_KEYS : gset string :=
  {[ "attributes"; "dimensions"; "state"; "version" ]}%string.
Definition EXPECTED_KEYS : gset string :=
  {[ "dimensions"; "state"; "version" ]}%string.
Definition REQUIRED_STATE_KEYS : gset string :=
  {[ "running_time"; "sleep_streak" ]}%string.

(** [(dimensions.get('id') or ['unknown'])[0]]: an entry that is absent or
    false gives way to the default, and the exception is the one of [[0]] on
    an entry that is true and has no first item. *)
Definition get_bot_id (dimensions : gmap string pyval) : string + pyval :=
  let id := default PyNone (dimensions !! "id"%string) in
  item0 (if truthy id then id else PyList [PyStr "unknown"]).

(** [dimensions.get('quarantined', False)]. *)
Definition get_quarantined (dimensions : gmap string pyval) : pyval :=
  default (PyBool false) (dimensions !! "quarantined"%string).

(** The test on the advertised dimensions: every key is unicode, as a key that
    [json.loads] decoded is, every value a list, and every element of every
    list unicode. *)
Definition dimensions_are_valid (dimensions : gmap string pyval) : bool :=
  forallb
    (fun kv =>
       match kv.2 with
       | PyList values => forallb is_unicode values
       | _ => false
       end)
    (map_to_list dimensions).

(** The [hostname] handed to [tag_bot_seen]: the element of a list of one, the
    entry itself otherwise, [None] when it is absent. *)
Definition get_hostname (dimensions : gmap string pyval) : pyval :=
  match dimensions !! "hostname"%string with
  | Some (PyList [hostname]) => hostname
  | Some hostnames => hostnames
  | None => PyNone
  end.

Definition _cmd_run (request : TaskProperties) (run_result_key : Z)
    (bot_id : pyval) : poll_cmd :=
  CmdRun (mkManifest bot_id (commands request) (data request) (env request)
            get_versioned_hosturl (execution_timeout_secs request)
            (io_timeout_secs request) (pack_run_result_key run_result_key)).

Definition _cmd_sleep (sleep_streak quarantined : pyval) : poll_cmd :=
  CmdSleep (exponential_backoff sleep_streak) quarantined.

Definition _cmd_update (expected_version : string) : poll_cmd :=
  CmdUpdate expected_version.

Definition _cmd_restart (message : string) : poll_cmd :=
  CmdRestart message.

(** The two tests that quarantine a bot which did not quarantine itself. *)
Definition check_dimensions (dimensions : gmap string pyval)
    (quarantined : pyval) (w : world) : pyval * world :=
  if negb (truthy quarantined) then
    if negb (dimensions_are_valid dimensions) then
      (PyBool true,
       ereporter2_log_request "bot" "Invalid dimensions on bot" w)
    else
      let dimensions_count := dimensions_powerset_count dimensions in
      if MAX_DIMENSIONS <? dimensions_count then
        (PyBool true,
         ereporter2_log_request "bot"
           ("Too many dimensions (" +:+ pretty dimensions_count +:+ ") on bot")
           w)
      else (quarantined, w)
  else (quarantined, w).

(** [request.get('state', {})], [request.get('dimensions', {})],
    [request.get('version')] and [request.get('version', '')]. *)
Definition state_entry (request : gmap string pyval) : pyval :=
  default (PyDict ∅) (request !! "state"%string).
Definition dimensions_entry (request : gmap string pyval) : pyval :=
  default (PyDict ∅) (request !! "dimensions"%string).
Definition version_entry (request : gmap string pyval) : pyval :=
  default PyNone (request !! "version"%string).
Definition version_of (request : gmap string pyval) : pyval :=
  default (PyStr "") (request !! "version"%string).

(** The poll passes the test on the keys and on the version: after it, in the
    handler's words, the bot is running the right version. *)
Definition runs_right_version (self : http_request)
    (request : gmap string pyval) : bool :=
  bool_decide (dom request ⊆ ACCEPTED_KEYS)
  && bool_decide (EXPECTED_KEYS ⊆ dom request)
  && negb (py_ne_str (version_entry request) (get_bot_version (host_url self))).

(** [BotPollHandler.post]. An exception the handler does not catch ends the
    request with status 500; what was logged by then stays logged. *)
Definition BotPollHandler_post (self : http_request)
    (request : gmap string pyval) (w0 : world) : world * http poll_cmd :=
  let '(msg, w1) :=
    log_unexpected_subset_keys ACCEPTED_KEYS EXPECTED_KEYS (dom request)
      "bot" "keys" w0 in
  let state := state_entry request in
  match frozenset state with
  | None => (w1, Abort 500 "TypeError")
  | Some state_keys =>
    let '(_, w2) :=
      log_missing_keys REQUIRED_STATE_KEYS state_keys "bot" "state" w1 in
    match dimensions_entry request with
    | PyDict dimensions =>
      match get_bot_id dimensions with
      | inl e => (w2, Abort 500 e)
      | inr bot_id =>
        let quarantined := get_quarantined dimensions in
        let expected_version := get_bot_version (host_url self) in
        if msg_set msg || py_ne_str (version_entry request) expected_version
        then (w2, Send (_cmd_update expected_version))
        else
          match state with
          | PyDict state =>
            let sleep_streak :=
              default (PyInt 0) (state !! "sleep_streak"%string) in
            if negb (truthy bot_id) then
              (w2, Send (_cmd_sleep sleep_streak (PyBool true)))
            else
              let '(quarantined, w3) :=
                check_dimensions dimensions quarantined w2 in
              let w4 :=
                if negb (truthy quarantined)
                then stats_add_entry bot_id dimensions w3
                else w3 in
              let w5 :=
                tag_bot_seen
                  (mkBotSeen bot_id (get_hostname dimensions)
                     (default PyNone (state !! "ip"%string))
                     (remote_addr self) dimensions (version_of request)
                     quarantined state) w4 in
              if truthy quarantined then
                (w5, Send (_cmd_sleep sleep_streak quarantined))
              else
                let '(needs_restart, restart_message) :=
                  should_restart_bot bot_id request state w5 in
                if needs_restart then (w5, Send (_cmd_restart restart_message))
                else
                  match
                    bot_reap_task dimensions bot_id (version_of request) w5
                  with
                  | (DeadlineExceededError, w6) => (w6, Abort 500 "Deadline")
                  | (Reaped None, w6) =>
                    (w6, Send (_cmd_sleep sleep_streak (PyBool false)))
                  | (Reaped (Some (task, run_result_key)), w6) =>
                    (w6, Send (_cmd_run task run_result_key bot_id))
                  end
          | _ => (w2, Abort 500 "AttributeError")
          end
      end
    | _ => (w2, Abort 500 "AttributeError")
    end
  end.

(** What the handler reads in the body before it tests the version: the keys
    of the state, for the log, then the dimensions and in them the id of the
    bot. The exception is the one the handler ends with when a read raises. *)
Definition reads (request : gmap string pyval)
  : string + gmap string pyval * pyval :=
  match frozenset (state_entry request) with
  | None => inl "TypeError"%string
  | Some _ =>
    match dimensions_entry request with
    | PyDict dimensions =>
      match get_bot_id dimensions with
      | inl e => inl e
      | inr bot_id => inr (dimensions, bot_id)
      end
    | _ => inl "AttributeError"%string
    end
  end.


(** The dimensions and the state of a body in which they are dictionaries, the
    id of the bot when it can be read, and the sleep streak. *)
Definition dimensions_of (request : gmap string pyval) : gmap string pyval :=
  match dimensions_entry request with
  | PyDict dimensions => dimensions
  | _ => ∅
  end.
Definition state_of (request : gmap string pyval) : gmap string pyval :=
  match state_entry request with
  | PyDict state => state
  | _ => ∅
  end.
Definition bot_id_of (request : gmap string pyval) : pyval :=
  match get_bot_id (dimensions_of request) with
  | inr bot_id => bot_id
  | inl _ => PyNone
  end.
Definition sleep_streak_of (request : gmap string pyval) : pyval :=
  default (PyInt 0) (state_of request !! "sleep_streak"%string).

(** The server's state once the test on the keys of the body is logged, and
    once the test on the keys of the state is, when these can be read. *)
Definition logged_keys (request : gmap string pyval) (w : world) : world :=
  (log_unexpected_subset_keys ACCEPTED_KEYS EXPECTED_KEYS (dom request)
     "bot" "keys" w).2.
Definition logged (request : gmap string pyval) (w : world) : world :=
  match frozenset (state_entry request) with
  | Some state_keys =>
    (log_missing_keys REQUIRED_STATE_KEYS state_keys "bot" "state"
       (logged_keys request w)).2
  | None => logged_keys request w
  end.

(** What the handler tells [tag_bot_seen] of a bot with the quarantine [q]. *)
Definition seen (self : http_request) (request : gmap string pyval)
    (q : pyval) : bot_seen :=
  let dimensions := dimensions_of request in
  mkBotSeen (bot_id_of request) (get_hostname dimensions)
    (default PyNone (state_of request !! "ip"%string)) (remote_addr self)
    dimensions (version_of request) q (state_of request).

(** The quarantine the handler settles on, and the server's state once the bot
    is tagged as seen. *)
Definition quarantine_of (request : gmap string pyval) (w : world) : pyval :=
  (check_dimensions (dimensions_of request)
     (get_quarantined (dimensions_of request)) (logged request w)).1.

Definition tagged (self : http_request) (request : gmap string pyval)
    (w : world) : world :=
  let dimensions := dimensions_of request in
  let checked :=
    check_dimensions dimensions (get_quarantined dimensions)
      (logged request w) in
  tag_bot_seen (seen self request checked.1)
    (if negb (truthy checked.1)
     then stats_add_entry (bot_id_of request) dimensions checked.2
     else checked.2).

End Poll.

(** *** The datastore of the task handlers *)

(** Modelled from the spec: the entities are declared in [task_result], outside
    the files at hand, with the attributes of the specification's data model. A
    run result and its summary are keyed by the id of their request, an output
    chunk by the run result's key, the command's index and the chunk's. *)
Record TaskRunResult : Type := mkTaskRunResult {
  run_state : State;
  run_bot_id : string;
  run_exit_codes : list Z;
  last_update_ts : Z;
}.

Record TaskResultSummary : Type := mkTaskResultSummary {
  state : State;
  failure : bool;
  bot_id : option string;
  exit_codes : list Z;
  modified_ts : Z;
}.

Inductive entity : Type :=
| RunResultEntity (key : Z) (e : TaskRunResult)
| ResultSummaryEntity (key : Z) (e : TaskResultSummary)
| OutputChunkEntity (key : Z * Z * Z) (chunk : string).

Record datastore : Type := mkDatastore {
  run_results : gmap Z TaskRunResult;
  summaries : gmap Z TaskResultSummary;
  output_chunks : gmap (Z * Z * Z) string;
}.

(** [entity.put()]. *)
Definition put (e : entity) (ds : datastore) : datastore :=
  match e with
  | RunResultEntity k r =>
    mkDatastore (<[k := r]> (run_results ds)) (summaries ds) (output_chunks ds)
  | ResultSummaryEntity k r =>
    mkDatastore (run_results ds) (<[k := r]> (summaries ds)) (output_chunks ds)
  | OutputChunkEntity k c =>
    mkDatastore (run_results ds) (summaries ds) (<[k := c]> (output_chunks ds))
  end.

(** The key of an entity, with its kind, and [key.get()]. *)
Definition key_of (e : entity) : Z + Z + Z * Z * Z :=
  match e with
  | RunResultEntity k _ => inl (inl k)
  | ResultSummaryEntity k _ => inl (inr k)
  | OutputChunkEntity k _ => inr k
  end.

Definition get (key : Z + Z + Z * Z * Z) (ds : datastore) : option entity :=
  match key with
  | inl (inl k) => RunResultEntity k <$> run_results ds !! k
  | inl (inr k) => ResultSummaryEntity k <$> summaries ds !! k
  | inr k => OutputChunkEntity k <$> output_chunks ds !! k
  end.

(** The datastore once every entity of the list is put, one after the
    other. *)
Definition put_multi (entities : list entity) (ds : datastore) : datastore :=
  foldl (fun d e => put e d) ds entities.

(** What the datastore does to one attempt to write: the put at the position
    [put_fault], when it is set and the list has an entity there, raises a
    datastore error, and the commit of a transaction goes through or meets
    contention. *)
Record attempt : Type := mkAttempt {
  put_fault : option nat;
  commit : bool;
}.

(** [ndb.put_multi(entities)]: one put after the other. A put that raises
    leaves the puts before it done; [false] is that exception. *)
Definition ndb_put_multi (fault : option nat) (entities : list entity)
    (ds : datastore) : datastore * bool :=
  match fault with
  | Some n =>
    if bool_decide (n < length entities)%nat
    then (put_multi (take n entities) ds, false)
    else (put_multi entities ds, true)
  | None => (put_multi entities ds, true)
  end.

(** How [ndb.transaction] ends: it returns, it raises [TransactionFailedError]
    once the retries are spent, or it raises the exception of its callback. *)
Inductive transaction_end : Type :=
| Committed
| TransactionFailedError
| CallbackRaised.

(** [ndb.transaction(callback, retries=n)]. The callback works on the datastore
    as the transaction found it, and its writes reach the datastore when the
    commit goes through. When the callback raises, its writes are rolled back
    and the exception goes on; a commit that meets contention writes nothing,
    and the callback is run again while a retry is left. [attempts] tells what
    the datastore does to each attempt in turn (to one that is not listed,
    nothing: its puts and its commit go through). The result is the datastore
    the call leaves, how it ends and how many times the callback ran. *)
Fixpoint ndb_transaction (callback : option nat -> datastore -> datastore * bool)
    (retries : nat) (attempts : list attempt) (ds : datastore)
  : datastore * transaction_end * nat :=
  let a := default (mkAttempt None true) (head attempts) in
  let '(ds', returned) := callback (put_fault a) ds in
  if negb returned then (ds, CallbackRaised, 1%nat)
  else if commit a then (ds', Committed, 1%nat)
  else
    match retries with
    | O => (ds, TransactionFailedError, 1%nat)
    | S retries' =>
      let '(after, ended, runs) :=
        ndb_transaction callback retries' (tail attempts) ds in
      (after, ended, S runs)
    end.

(** The puts of an attempt at the entities all go through, and what the
    datastore does to the attempt at a position. *)
Definition puts_through (entities : list entity) (a : attempt) : bool :=
  match put_fault a with
  | Some n => negb (bool_decide (n < length entities)%nat)
  | None => true
  end.

Definition attempt_at (attempts : list attempt) (i : nat) : attempt :=
  default (mkAttempt None true) (attempts !! i).

(** The server's state: the datastore, and the reports [ereporter2] keeps, each
    with its source. *)
Record server : Type := mkServer {
  store : datastore;
  reports : list (string * string);
}.

Definition with_store (ds : datastore) (w : server) : server :=
  mkServer ds (reports w).

Definition ereporter2_log (source message : string) (w : server) : server :=
  mkServer (store w) (reports w ++ [(source, message)]).

Section Tasks.

Variable show_keys : gset string -> string.
(** [str(v)] of a value of the body. *)
Variable str : pyval -> string.

(** [task_result.unpack_run_result_key]: [None] is the exception it raises on
    what is not a packed key. *)
Variable unpack_run_result_key : pyval -> option Z.

(** The arguments [BotTaskUpdateHandler.post] hands to
    [task_scheduler.bot_update_task]. *)
Record task_update : Type := mkTaskUpdate {
  u_run_result_key : Z;
  u_bot_id : pyval;
  u_command_index : pyval;
  u_output : option string;
  u_output_chunk_start : option pyval;
  u_exit_code : option pyval;
  u_duration : option pyval;
}.

(** [task_scheduler.bot_update_task], outside this file: on the datastore as it
    is, either the [ValueError] that rejects the update, with its message, or
    the entities to put. *)
Variable bot_update_task : task_update -> datastore -> string + list entity.

(** [task_scheduler.bot_kill_task], outside this file. *)
Variable bot_kill_task : Z -> TaskRunResult -> datastore -> datastore.

(** [output.encode('utf-8', 'replace')] on the body's [output]: [None] when the
    entry is absent or null, and an exception on what is not a string. *)
Variable encode_utf8 : string -> string.

Definition get_output (request : gmap string pyval)
  : option (option string) :=
  match request !! "output"%string with
  | None | Some PyNone => Some None
  | Some (PyStr s) => Some (Some (encode_utf8 s))
  | Some _ => None
  end.

Definition UPDATE_ACCEPTED_KEYS : gset string :=
  {[ "command_index"; "duration"; "exit_code"; "hard_timeout"; "id";
     "io_timeout"; "output"; "output_chunk_start"; "task_id" ]}%string.
Definition UPDATE_REQUIRED_KEYS : gset string :=
  {[ "command_index"; "id"; "task_id" ]}%string.

Definition log_request (source message : string) (w : server) : server :=
  ereporter2_log source message w.

(** [request[key]]: a key that is absent raises [KeyError]. *)
Definition item (request : gmap string pyval) (key : string) : option pyval :=
  request !! key.

(** [BotTaskUpdateHandler.post]. [attempts] is what the datastore does to the
    attempts of the transaction. The body sent is [{'ok': True}]; the
    exceptions of the transaction are not caught, and end the request with
    status 500. *)
Definition BotTaskUpdateHandler_post (attempts : list attempt)
    (request : gmap string pyval) (w0 : server) : server * http bool :=
  let '(msg, w1) :=
    log_unexpected_subset_keys server log_request show_keys
      UPDATE_ACCEPTED_KEYS UPDATE_REQUIRED_KEYS (dom request) "bot" "keys" w0 in
  if msg_set msg then (w1, Abort 400 (default ""%string msg))
  else
    match item request "id", item request "command_index",
          item request "task_id" with
    | Some bot_id, Some command_index, Some task_id =>
      match unpack_run_result_key task_id with
      | None => (w1, Abort 500 "ValueError")
      | Some run_result_key =>
        match get_output request with
        | None => (w1, Abort 500 "AttributeError")
        | Some output =>
          let update :=
            mkTaskUpdate run_result_key bot_id command_index output
              (request !! "output_chunk_start"%string)
              (request !! "exit_code"%string)
              (request !! "duration"%string) in
          match bot_update_task update (store w1) with
          | inl e =>
            (log_request "server" ("Failed to update task: " +:+ e) w1,
             Abort 400 e)
          | inr entities =>
            let '(ds, ended, _) :=
              ndb_transaction (fun fault => ndb_put_multi fault entities) 1
                attempts (store w1) in
            match ended with
            | Committed => (with_store ds w1, Send true)
            | TransactionFailedError =>
              (with_store ds w1, Abort 500 "TransactionFailedError")
            | CallbackRaised => (with_store ds w1, Abort 500 "Error")
            end
          end
        end
      end
    | _, _, _ => (w1, Abort 500 "KeyError")
    end.

Definition ERROR_EXPECTED_KEYS : gset string :=
  {[ "id"; "message"; "task_id" ]}%string.

(** [BotTaskErrorHandler.post]. The body sent is [{}]. *)
Definition BotTaskErrorHandler_post (request : gmap string pyval)
    (w0 : server) : server * http unit :=
  let '(msg, w1) :=
    log_unexpected_keys server log_request show_keys ERROR_EXPECTED_KEYS
      (dom request) "bot" "keys" w0 in
  let w2 :=
    ereporter2_log "bot"
      (str (default (PyStr "unknown") (request !! "message"%string))) w1 in
  if msg_set msg then (w2, Abort 400 (default ""%string msg))
  else
    match item request "id", item request "task_id" with
    | Some bot_id, Some task_id =>
      match unpack_run_result_key task_id with
      | None => (w2, Abort 500 "ValueError")
      | Some key =>
        match run_results (store w2) !! key with
        | None => (w2, Abort 500 "AttributeError")
        | Some run_result =>
          if py_ne_str bot_id (run_bot_id run_result) then
            (w2, Abort 400
                   ("Bot " +:+ str bot_id +:+ " sent task kill for task "
                    +:+ run_bot_id run_result +:+ " owned by bot "
                    +:+ pretty key))
          else
            (with_store (bot_kill_task key run_result (store w2)) w2, Send ())
        end
      end
    | _, _ => (w2, Abort 500 "KeyError")
    end.

(** [task_scheduler.make_request], outside this file: the [BadValueError],
    [TypeError] or [ValueError] it raises, or what it created, of a type of its
    own. *)
Variable created : Type.
Variable make_request :
  gmap string pyval -> datastore -> (string + created) * datastore.

(** The first lines of [ClientRequestHandler.post]: the body as the handler
    hands it to [make_request]. [is_bot_or_admin] is what
    [acl.is_bot_or_admin()] answers for the caller. *)
Definition clamp_priority (is_bot_or_admin : bool)
    (request : gmap string pyval) : gmap string pyval :=
  if py_lt_int (default (PyInt 255) (request !! "priority"%string)) 100
     && negb is_bot_or_admin
  then <["priority"%string := PyInt 100]> request
  else request.

(** [ClientRequestHandler.post]. *)
Definition ClientRequestHandler_post (is_bot_or_admin : bool)
    (request : gmap string pyval) (w : server) : server * http created :=
  let request := clamp_priority is_bot_or_admin request in
  match make_request request (store w) with
  | (inl e, ds) => (with_store ds w, Abort 400 e)
  | (inr data, ds) => (with_store ds w, Send data)
  end.

End Tasks.

(** *** [BotHandshakeHandler] *)

Section Handshake.

Variable world : Type.
Variable ereporter2_log_request : string -> string -> world -> world.
Variable get_bot_version : string -> string.
Variable tag_bot_seen : bot_seen -> world -> world.
Variable show_keys : gset string -> string.
(** [utils.get_app_version()] and [self.generate_xsrf_token()]. *)
Variable get_app_version : string.
Variable generate_xsrf_token : string.

Record handshake_out : Type := mkHandshakeOut {
  out_bot_version : string;
  out_server_version : string;
  out_xsrf_token : string;
}.

Definition HANDSHAKE_ACCEPTED_KEYS : gset string :=
  {[ "attributes"; "dimensions"; "state"; "version" ]}%string.
Definition HANDSHAKE_EXPECTED_KEYS : gset string := ∅.

(** The [hostname] the handshake reads in the state: the element of a list of
    one, the entry itself otherwise. *)
Definition handshake_hostname (state : gmap string pyval) : pyval :=
  match state !! "hostname"%string with
  | Some (PyList [hostname]) => hostname
  | Some hostnames => hostnames
  | None => PyNone
  end.

(** [BotHandshakeHandler.post]. The body has the entries of a poll; an
    exception the handler does not catch ends the request with status 500. *)
Definition BotHandshakeHandler_post (self : http_request)
    (request : gmap string pyval) (w0 : world) : world * http handshake_out :=
  let '(_, w1) :=
    log_unexpected_subset_keys world ereporter2_log_request show_keys
      HANDSHAKE_ACCEPTED_KEYS HANDSHAKE_EXPECTED_KEYS (dom request)
      "bot" "keys" w0 in
  match state_entry request with
  | PyDict state =>
    let hostname := handshake_hostname state in
    match dimensions_entry request with
    | PyDict dimensions =>
      match get_bot_id dimensions with
      | inl e => (w1, Abort 500 e)
      | inr bot_id =>
        let quarantined := get_quarantined dimensions in
        let w2 :=
          if truthy bot_id then
            tag_bot_seen
              (mkBotSeen bot_id hostname
                 (default PyNone (state !! "ip"%string)) (remote_addr self)
                 dimensions (version_of request) quarantined state) w1
          else w1 in
        (w2,
         Send (mkHandshakeOut (get_bot_version (host_url self))
                 get_app_version generate_xsrf_token))
      end
    | _ => (w1, Abort 500 "AttributeError")
    end
  | _ => (w1, Abort 500 "AttributeError")
  end.

End Handshake.

(** *** [ClientApiTasksHandler] *)

Section ClientTasks.

Variable world : Type.
(** [int(s)]: [None] is the [ValueError] of a string that is no number. *)
Variable int : string -> option Z.
(** [sorted(keys)]. *)
Variable sorted : gset string -> list string.
(** [task_result.get_tasks], outside this file, with the page it gives: the
    items, the cursor, the sort and the state. *)
Variable page : Type.
Variable get_tasks :
  string -> list string -> string -> Z -> string -> string -> world
  -> page * world.

Definition TASKS_EXPECTED : gset string :=
  {[ "cursor"; "limit"; "name"; "sort"; "state"; "tag" ]}%string.

(** [request.get_all(name)] and [request.get(name, default)] on the parameters
    of the query string, in the order they come. *)
Definition get_all (GET : list (string * string)) (name : string)
  : list string :=
  (filter (fun kv => kv.1 = name) GET).*2.

Definition request_get (GET : list (string * string)) (name default : string)
  : string :=
  match get_all GET name with
  | value :: _ => value
  | [] => default
  end.

Definition bool_to_int (b : bool) : Z := if b then 1 else 0.

(** [ClientApiTasksHandler.get]. The body sent is the page with the limit. *)
Definition ClientApiTasksHandler_get (GET : list (string * string))
    (w : world) : world * http (page * Z) :=
  let extra : gset string := list_to_set GET.*1 ∖ TASKS_EXPECTED in
  if bool_decide (extra ≠ ∅) then
    (w, Abort 400 ("Extraneous query parameters. Did you make a typo? "
                   +:+ String.concat "," (sorted extra)))
  else
    let name := request_get GET "name" "" in
    let tags := get_all GET "tag" in
    let cursor_str := request_get GET "cursor" "" in
    match
      match get_all GET "limit" with
      | value :: _ => int value
      | [] => Some 100
      end
    with
    | None => (w, Abort 500 "ValueError")
    | Some limit =>
      let sort := request_get GET "sort" "created_ts" in
      let state := request_get GET "state" "all" in
      let uses :=
        bool_to_int (negb (bool_decide (name = ""%string)))
        + bool_to_int (negb (bool_decide (tags = [])))
        + bool_to_int (negb (bool_decide (state = "all"%string))) in
      if 1 <? uses then
        (w, Abort 400 "Only one of name, tag (1 or many) or state can be used")
      else
        let '(data, w') := get_tasks name tags cursor_str limit sort state w in
        (w', Send (data, limit))
    end.

End ClientTasks.

End Api.

(** * swarming_bot/bot_code/bot_main.py *)

Module BotMain.

(** What a hook of [bot_config.py] gives back: a dictionary, a tuple, with the
    [repr] of each of its items, or a value of another type, with its [repr]
    ([None] when the hook is not defined); or the exception it raises, with
    [str(e)] and the end of the traceback. *)
Inductive hook_value : Type :=
| HookDict (d : gmap string pyval)
| HookTuple (items : list string)
| HookOther (repr : string).

(** The text of the [TypeError] of ['... %r' % out] when [out] is a tuple that
    has not exactly one item: a tuple is taken for the arguments of the
    format. *)
Definition format_error (items : list string) : string :=
  match items with
  | [] => "not enough arguments for format string"
  | _ :: _ => "not all arguments converted during string formatting"
  end.

Inductive hook_outcome : Type :=
| HookReturns (v : hook_value)
| HookRaises (e traceback : string).

(** How long [quit_bit.wait] is asked to wait: a number of seconds the bot
    computes, or the duration the server sent with [sleep]. *)
Inductive delay : Type :=
| Seconds (n : Z)
| ServerDuration (value : pyval).

(** The bot process: the module's global [_QUARANTINED] ([None] or a string),
    the messages given to [botobj.post_error], the dimensions and the state
    [botobj] holds, [quit_bit], the waits done so far (the last one first) and,
    for each call of [remote.poll] so far (the last one first), the state it
    sent. *)
Record process : Type := mkProcess {
  _QUARANTINED : pyval;
  posted_errors : list string;
  botobj_dimensions : gmap string pyval;
  botobj_state : gmap string pyval;
  quit_bit : bool;
  waits : list delay;
  polls : list (gmap string pyval);
}.

(** [_set_quarantined]: [_QUARANTINED = _QUARANTINED or reason]. *)
Definition _set_quarantined (reason : string) (p : process) : process :=
  mkProcess
    (if truthy (_QUARANTINED p) then _QUARANTINED p else PyStr reason)
    (posted_errors p) (botobj_dimensions p) (botobj_state p) (quit_bit p)
    (waits p) (polls p).

Definition post_error (message : string) (p : process) : process :=
  mkProcess (_QUARANTINED p) (posted_errors p ++ [message])
    (botobj_dimensions p) (botobj_state p) (quit_bit p) (waits p) (polls p).

(** [_call_hook_safe]: the hook's value, and [None] when it raised. *)
Definition _call_hook_safe (name : string) (hook : hook_outcome) (p : process)
  : hook_value * process :=
  match hook with
  | HookReturns v => (v, p)
  | HookRaises e traceback =>
    let msg := e +:+ nl +:+ traceback in
    (HookOther "None",
     _set_quarantined msg
       (post_error ("Failed to call hook " +:+ name +:+ "(): " +:+ msg) p))
  end.

(** ** The settings *)

(** What a setting is to [_dict_deep_merge]: [None], a dictionary, or a value
    of another type, which the function does not look into. *)
Inductive setting (value : Type) : Type :=
| SettingNone
| SettingValue (v : value)
| SettingDict (d : gmap string (setting value)).
Arguments SettingNone {value}.
Arguments SettingValue {value} v.
Arguments SettingDict {value} d.

Section Settings.

Context {value : Type}.

(** [x.get(k)]. *)
Definition setting_get (x : gmap string (setting value)) (k : string)
  : setting value :=
  default SettingNone (x !! k).

(** [_dict_deep_merge]: [None] is the [AssertionError] of a dictionary that
    meets a value which is neither a dictionary nor [None]. Under a key that
    only one of the two dictionaries has, the other gives [None], and the merge
    is the value the one has. *)
Fixpoint _dict_deep_merge (x y : setting value) {struct x}
  : option (setting value) :=
  match x, y with
  | SettingNone, _ => Some y
  | _, SettingNone => Some x
  | SettingDict dx, SettingDict dy =>
    let merged :=
      merge (fun ox oy =>
               match ox, oy with
               | Some vx, Some vy => Some (_dict_deep_merge vx vy)
               | Some vx, None => Some (Some vx)
               | None, Some vy => Some (Some vy)
               | None, None => None
               end) dx dy in
    if bool_decide (map_Forall (fun _ v => is_Some v) merged)
    then Some (SettingDict (omap id merged))
    else None
  | SettingDict _, SettingValue _ => None
  | SettingValue _, SettingDict _ => None
  | SettingValue _, SettingValue _ => Some y
  end.

(** The numbers of [DEFAULT_SETTINGS]: an integer, and the float that equals an
    integer. *)
Variable int_value float_value : Z -> value.

Definition DEFAULT_SETTINGS : setting value :=
  SettingDict
    {[ "free_partition"%string :=
         SettingDict
           {[ "size"%string := SettingValue (int_value (4 * 1024 * 1024 * 1024));
              "max_percent"%string := SettingValue (float_value 15);
              "min_percent"%string := SettingValue (float_value 7);
              "wiggle"%string := SettingValue (int_value (250 * 1024 * 1024)) ]};
       "caches"%string :=
         SettingDict
           {[ "isolated"%string :=
                SettingDict
                  {[ "size"%string :=
                       SettingValue (int_value (50 * 1024 * 1024 * 1024));
                     "items"%string := SettingValue (int_value (50 * 1024))
                  ]} ]} ]}.

(** [_get_settings], on what [_call_hook_safe] gives for the hook
    [get_settings] ([None] when the hook is not defined or raised). The merge
    raises none of the exceptions the function catches, and its
    [AssertionError] is not one of them: [None] is that error. *)
Definition _get_settings (settings : setting value) : option (setting value) :=
  match settings with
  | SettingDict _ => _dict_deep_merge DEFAULT_SETTINGS settings
  | SettingNone | SettingValue _ => Some DEFAULT_SETTINGS
  end.

(** The setting at the end of a path of keys, [None] where the path leaves the
    dictionaries. *)
Fixpoint setting_at (path : list string) (x : setting value) : setting value :=
  match path with
  | [] => x
  | k :: path' =>
    match x with
    | SettingDict d => setting_at path' (setting_get d k)
    | SettingNone | SettingValue _ => SettingNone
    end
  end.

End Settings.

(** ** The state *)

(** The values of the settings: the floats of [DEFAULT_SETTINGS], each the
    float that equals an integer, and the values the hook gives. *)
Inductive leaf : Type :=
| FloatOf (z : Z)
| Value (v : pyval).

(** What the hook [get_settings] returned, as a setting. *)
Fixpoint to_setting (v : pyval) : setting leaf :=
  match v with
  | PyNone => SettingNone
  | PyDict d => SettingDict (to_setting <$> d)
  | PyBool _ | PyInt _ | PyStr _ | PyList _ => SettingValue (Value v)
  end.

Definition hook_settings (v : hook_value) : setting leaf :=
  match v with
  | HookDict d => SettingDict (to_setting <$> d)
  | HookTuple _ | HookOther _ => SettingNone
  end.

(** What [_get_state] finds around it: the outcome of the hooks [get_state] and
    [get_settings], whether [botobj] is set, whether the base directory is
    acceptable ([_is_base_dir_ok]), [sys.platform] and [botobj.base_dir], and
    what [check_for_quarantine] does with the name and the infos of a
    partition under the settings of [free_partition]: the exception it raises,
    or the message it appends to [s], if any. The arithmetic of
    [_min_free_disk] and of the comparison is on floats, and is not
    modelled. *)
Record surroundings : Type := mkSurroundings {
  get_state_hook : hook_outcome;
  get_settings_hook : hook_outcome;
  has_botobj : bool;
  base_dir_ok : bool;
  platform : string;
  base_dir : string;
  check_for_quarantine :
    string -> pyval -> setting leaf -> string + option string;
}.

Definition get_quarantined (state : gmap string pyval) : pyval :=
  default PyNone (state !! "quarantined"%string).

(** The first block of [_get_state]: a state that is not quarantined takes the
    quarantine of the process, which a bad base directory sets. *)
Definition take_quarantine (around : surroundings) (state : gmap string pyval)
    (p1 : process) : gmap string pyval * process :=
  if negb (truthy (get_quarantined state)) then
    let p2 :=
      if negb (base_dir_ok around)
      then _set_quarantined "Can't run from blacklisted directory" p1
      else p1 in
    (if truthy (_QUARANTINED p2)
     then <["quarantined"%string := _QUARANTINED p2]> state
     else state, p2)
  else (state, p1).

(** [s.lower()], for a name in ASCII. *)
Definition lower_ascii (c : ascii) : ascii :=
  let n := N_of_ascii c in
  if ((65 <=? n) && (n <=? 90))%N then ascii_of_N (n + 32) else c.

Fixpoint lower (s : string) : string :=
  match s with
  | EmptyString => EmptyString
  | String c s' => String (lower_ascii c) (lower s')
  end.

(** [sub in s] on strings. *)
Fixpoint contains (sub s : string) : bool :=
  String.prefix sub s
  || match s with
     | EmptyString => false
     | String _ s' => contains sub s'
     end.

(** [sorted(disks.iteritems(), key=lambda x: -len(x[0]))]: the items by
    decreasing length of the mount, those of one length in the order the
    dictionary gives them, which is taken to be the one of [map_to_list]. *)
Fixpoint insert_mount (x : string * pyval) (l : list (string * pyval))
  : list (string * pyval) :=
  match l with
  | [] => [x]
  | y :: l' =>
    if (String.length y.1 <=? String.length x.1)%nat then x :: l
    else y :: insert_mount x l'
  end.

Definition sorted_mounts (disks : gmap string pyval)
  : list (string * pyval) :=
  foldr insert_mount [] (map_to_list disks).

(** [root], and [case_insensitive]: [sys.platform in ('darwin', 'win32')]. *)
Definition root (around : surroundings) : string :=
  if bool_decide (platform around = "win32"%string) then "c:\"%string
  else "/"%string.

Definition case_insensitive (around : surroundings) : bool :=
  bool_decide (platform around = "darwin"%string)
  || bool_decide (platform around = "win32"%string).

(** [path.startswith(mount.lower() if case_insensitive else mount)], for the
    path of the base directory, in lower case when the case does not count. *)
Definition holds_base_dir (around : surroundings) (mount : string) : bool :=
  String.prefix
    (if case_insensitive around then lower mount else mount)
    (if case_insensitive around then lower (base_dir around)
     else base_dir around).

(** The partitions [_get_state] checks, with the messages of those that are
    short of free space (the list [s] of the function): the root partition,
    when the disks have it, and the partition of the base directory, the one
    with the longest mount the path starts with, when it is not the root. The
    exception is the one that escapes: of [check_for_quarantine], or of disks
    that are no dictionary. *)
Definition check_disks (around : surroundings) (settings : setting leaf)
    (state : gmap string pyval) : string + list string :=
  match default (PyDict ∅) (state !! "disks"%string) with
  | PyDict disks =>
    match
      match disks !! root around with
      | Some infos => check_for_quarantine around (root around) infos settings
      | None => inr None
      end
    with
    | inl e => inl e
    | inr s1 =>
      match
        match
          find (fun m => holds_base_dir around m.1) (sorted_mounts disks)
        with
        | Some (mount, infos) =>
          if negb (bool_decide (mount = root around))
          then check_for_quarantine around mount infos settings
          else inr None
        | None => inr None
        end
      with
      | inl e => inl e
      | inr s2 => inr (option_list s1 ++ option_list s2)
      end
    end
  | PyList l =>
    if existsb (fun x => negb (py_ne_str x (root around))) l
    then inl "TypeError"%string
    else inl "AttributeError"%string
  | PyStr s =>
    if contains (root around) s then inl "TypeError"%string
    else inl "AttributeError"%string
  | PyNone | PyBool _ | PyInt _ => inl "TypeError"%string
  end.

(** The last block of [_get_state]: a state that is not quarantined is, when a
    partition is short of free space. [_get_settings] calls the hook
    [get_settings], and the [AssertionError] of its merge escapes; the merged
    settings have an entry [free_partition], a [KeyError] otherwise. *)
Definition check_free_space (around : surroundings)
    (state : gmap string pyval) (p2 : process)
  : (string + gmap string pyval) * process :=
  if negb (truthy (get_quarantined state)) && has_botobj around then
    let '(settings, p3) :=
      _call_hook_safe "get_settings" (get_settings_hook around) p2 in
    match
      _get_settings (fun z => Value (PyInt z)) FloatOf (hook_settings settings)
    with
    | None => (inl "AssertionError"%string, p3)
    | Some (SettingDict merged) =>
      match merged !! "free_partition"%string with
      | None => (inl "KeyError"%string, p3)
      | Some settings =>
        match check_disks around settings state with
        | inl e => (inl e, p3)
        | inr [] => (inr state, p3)
        | inr s =>
          (inr (<["quarantined"%string := PyStr (String.concat nl s)]> state),
           p3)
        end
      end
    | Some (SettingNone | SettingValue _) => (inl "TypeError"%string, p3)
    end
  else (inr state, p2).

(** [_get_state]: the dictionary reported to the server with a poll, or the
    exception that escapes: the [TypeError] of the format of a tuple that has
    not exactly one item, the [AttributeError] of [state.get] on what is not a
    dictionary, or the one of the check of the free space. *)
Definition _get_state (around : surroundings) (sleep_streak : Z) (p0 : process)
  : (string + gmap string pyval) * process :=
  let '(state, p1) := _call_hook_safe "get_state" (get_state_hook around) p0 in
  match state with
  | HookDict state =>
    let '(state, p2) := take_quarantine around state p1 in
    let state := <["sleep_streak"%string := PyInt sleep_streak]> state in
    check_free_space around state p2
  | HookTuple [repr] | HookOther repr =>
    (inl "AttributeError"%string,
     _set_quarantined ("get_state(): expected a dict, got " +:+ repr) p1)
  | HookTuple _ => (inl "TypeError"%string, p1)
  end.

(** What [_get_dimensions] finds around it: the outcome of the hook
    [get_dimensions], of [os_utilities.get_dimensions()] and of
    [os_utilities.get_hostname_short()], each of the two its value or the
    exception it raises, and the end of the traceback of the [TypeError] that
    the format of a tuple raises. *)
Record dimension_sources : Type := mkDimensionSources {
  get_dimensions_hook : hook_outcome;
  os_dimensions : string * string + gmap string pyval;
  hostname_short : string + string;
  format_traceback : string;
}.

(** The dictionary of the [except] block of [_get_dimensions]. *)
Definition error_dimensions (sources : dimension_sources)
    (e traceback : string) : gmap string pyval :=
  let botid :=
    match hostname_short sources with
    | inr botid => botid
    | inl e2 => ("error_" +:+ e2)%string
    end in
  <["id"%string := PyList [PyStr botid]]>
    (<["error"%string := PyList [PyStr (e +:+ nl +:+ traceback)]]>
       (<["quarantined"%string := PyList [PyStr "1"]]> ∅)).

(** [_get_dimensions]. *)
Definition _get_dimensions (sources : dimension_sources) (p0 : process)
  : gmap string pyval * process :=
  let '(out, p1) :=
    _call_hook_safe "get_dimensions" (get_dimensions_hook sources) p0 in
  match out with
  | HookDict out => (out, p1)
  | HookTuple [repr] | HookOther repr =>
    let p2 :=
      _set_quarantined ("get_dimensions(): expected a dict, got " +:+ repr)
        p1 in
    match os_dimensions sources with
    | inr out2 => (<["quarantined"%string := PyList [PyStr "1"]]> out2, p2)
    | inl (e, traceback) => (error_dimensions sources e traceback, p2)
    end
  | HookTuple items =>
    (error_dimensions sources (format_error items) (format_traceback sources),
     p1)
  end.

(** How a call ends: it returns, it raises an exception that [except Exception]
    catches, or the process exits ([sys.exit]). *)
Inductive ending (A : Type) : Type :=
| Returns (a : A)
| Raises (e traceback : string)
| Exits (code : Z).
Arguments Returns {A} a.
Arguments Raises {A} e traceback.
Arguments Exits {A} code.

(** What [botobj.remote.poll] does: it raises [PollError], or returns the
    server's command with its value. *)
Inductive poll_outcome : Type :=
| PollError (e : string)
| Polled (cmd : string) (value : pyval).

(** How the call that carries out a command ends ([post_task_update],
    [_run_manifest], [_update_bot] or [host_reboot]); [InternalError] is
    [remote_client_errors.InternalError]. *)
Inductive action_outcome : Type :=
| ActionReturns (succeeded : bool)
| InternalError
| ActionRaises (e traceback : string)
| ActionExits (code : Z).

Definition wait (d : delay) (p : process) : process :=
  mkProcess (_QUARANTINED p) (posted_errors p) (botobj_dimensions p)
    (botobj_state p) (quit_bit p) (d :: waits p) (polls p).

Definition set_quit_bit (p : process) : process :=
  mkProcess (_QUARANTINED p) (posted_errors p) (botobj_dimensions p)
    (botobj_state p) true (waits p) (polls p).

(** [botobj._update_dimensions(dims)] and [botobj._update_state(states)]. *)
Definition update_attributes (dims states : gmap string pyval) (p : process)
  : process :=
  mkProcess (_QUARANTINED p) (posted_errors p) dims states (quit_bit p)
    (waits p) (polls p).

(** The call of [botobj.remote.poll(botobj._attributes)] is noted with the
    state it sends. *)
Definition note_poll (p : process) : process :=
  mkProcess (_QUARANTINED p) (posted_errors p) (botobj_dimensions p)
    (botobj_state p) (quit_bit p) (waits p) (botobj_state p :: polls p).

(** [max(1, min(60, botobj.state.get('sleep_streak', 10) * 2))], as Python 2
    computes it: a string or a list doubled is above every number, and [None]
    or a dictionary cannot be doubled ([TypeError]). *)
Definition poll_error_delay (state : gmap string pyval) : option Z :=
  match default (PyInt 10) (state !! "sleep_streak"%string) with
  | PyInt n => Some (Z.max 1 (Z.min 60 (n * 2)))
  | PyBool b => Some (Z.max 1 (Z.min 60 ((if b then 1 else 0) * 2)))
  | PyStr _ | PyList _ => Some (Z.max 1 60)
  | PyNone | PyDict _ => None
  end.

(** [_poll_server]: [True] when an action was carried out, [False] when the bot
    slept. *)
Definition _poll_server (poll : poll_outcome) (on_bot_idle : hook_outcome)
    (action : action_outcome) (p0 : process) : ending bool * process :=
  let p1 := note_poll p0 in
  match poll with
  | PollError e =>
    match poll_error_delay (botobj_state p1) with
    | Some delay => (Returns false, wait (Seconds delay) p1)
    | None => (Raises "TypeError" "", p1)
    end
  | Polled cmd value =>
    if bool_decide (cmd = "sleep"%string) then
      let '(_, p2) := _call_hook_safe "on_bot_idle" on_bot_idle p1 in
      (Returns false, wait (ServerDuration value) p2)
    else if bool_decide (cmd = "terminate"%string) then
      let p2 := set_quit_bit p1 in
      match action with
      | ActionReturns _ | InternalError => (Returns false, p2)
      | ActionRaises e traceback => (Raises e traceback, p2)
      | ActionExits code => (Exits code, p2)
      end
    else if bool_decide (cmd = "run"%string) then
      if negb (truthy value) then (Raises "Empty manifest" "", p1)
      else
        match action with
        | ActionReturns _ => (Returns true, p1)
        | InternalError => (Raises "InternalError" "", p1)
        | ActionRaises e traceback => (Raises e traceback, p1)
        | ActionExits code => (Exits code, p1)
        end
    else if bool_decide (cmd = "update"%string)
            || bool_decide (cmd = "host_reboot"%string)
            || bool_decide (cmd = "restart"%string) then
      match action with
      | ActionReturns _ => (Returns true, p1)
      | InternalError => (Raises "InternalError" "", p1)
      | ActionRaises e traceback => (Raises e traceback, p1)
      | ActionExits code => (Exits code, p1)
      end
    else (Raises ("Unexpected command: " +:+ cmd) "", p1)
  end.

(** What one turn of the loop of [_run_bot] meets: the surroundings of
    [_get_dimensions] and [_get_state], the outcome of the poll, of the hook
    [on_bot_idle] and of the command's action, the clock when the turn ends,
    and whether a stop signal arrives during the turn. *)
Record turn : Type := mkTurn {
  dimension_sources_of : dimension_sources;
  surroundings_of : surroundings;
  poll_of : poll_outcome;
  on_bot_idle_of : hook_outcome;
  action_of : action_outcome;
  time_of : Z;
  signal_of : bool;
}.

(** The local variables of [_run_bot]. *)
Record locals : Type := mkLocals {
  consecutive_sleeps : Z;
  last_action : Z;
}.

(** The [try] block of the loop. *)
Definition loop_try (t : turn) (consecutive_sleeps : Z) (p0 : process)
  : ending bool * process :=
  let '(dims, p1) := _get_dimensions (dimension_sources_of t) p0 in
  match _get_state (surroundings_of t) consecutive_sleeps p1 with
  | (inl e, p2) => (Raises e "", p2)
  | (inr states, p2) =>
    _poll_server (poll_of t) (on_bot_idle_of t) (action_of t)
      (update_attributes dims states p2)
  end.

(** A stop signal sets [quit_bit]. *)
Definition deliver (signal : bool) (p : process) : process :=
  if signal then set_quit_bit p else p.

(** One turn of the loop, [try] and [except]: the exit code when the process
    exits in it. *)
Definition loop_turn (t : turn) (v : locals) (p0 : process)
  : option Z * locals * process :=
  match loop_try t (consecutive_sleeps v) p0 with
  | (Returns did_something, p1) =>
    (None,
     if did_something then mkLocals 0 (time_of t)
     else mkLocals (consecutive_sleeps v + 1) (last_action v),
     deliver (signal_of t) p1)
  | (Raises e traceback, p1) =>
    let msg := e +:+ nl +:+ traceback in
    (None, mkLocals 0 (last_action v),
     deliver (signal_of t) (wait (Seconds 10) (post_error msg p1)))
  | (Exits code, p1) => (Some code, v, p1)
  end.

(** Where the loop [while not quit_bit.is_set()] stands after the turns given:
    still polling, left because [quit_bit] is set, or the process exited. *)
Inductive standing : Type :=
| Polling
| Quitting
| Exited (code : Z).

Fixpoint main_loop (turns : list turn) (v : locals) (p : process)
  : standing * locals * process :=
  if quit_bit p then (Quitting, v, p)
  else
    match turns with
    | [] => (Polling, v, p)
    | t :: turns' =>
      match loop_turn t v p with
      | (None, v', p') => main_loop turns' v' p'
      | (Some code, v', p') => (Exited code, v', p')
      end
    end.

(** A turn in which the poll fails, or which raises an exception it does not
    expect, whatever the process was: the hook [get_state] gives no dictionary,
    the server's command is unknown, the manifest is empty, or the action of
    [run], [update] or [restart] raises. *)
Definition known_cmds : list string :=
  [ "sleep"; "terminate"; "run"; "update"; "host_reboot"; "restart" ]%string.

Definition action_raises (a : action_outcome) : bool :=
  match a with
  | InternalError | ActionRaises _ _ => true
  | ActionReturns _ | ActionExits _ => false
  end.

Definition turn_fails (t : turn) : bool :=
  match get_state_hook (surroundings_of t) with
  | HookReturns (HookDict _) =>
    match poll_of t with
    | PollError _ => true
    | Polled cmd value =>
      if bool_decide (cmd = "sleep"%string)
         || bool_decide (cmd = "terminate"%string) then false
      else if bool_decide (cmd = "run"%string) then
        negb (truthy value) || action_raises (action_of t)
      else if bool_decide (cmd ∈ known_cmds) then action_raises (action_of t)
      else true
    end
  | HookReturns (HookTuple _ | HookOther _) | HookRaises _ _ => true
  end.

(** The operations of the process that call [_set_quarantined]. *)
Inductive operation : Type :=
| SetQuarantined (reason : string)
| CallHookSafe (name : string) (hook : hook_outcome)
| GetDimensions (sources : dimension_sources)
| GetState (around : surroundings) (sleep_streak : Z)
| LoopTurn (t : turn) (v : locals).

Definition run (p : process) (o : operation) : process :=
  match o with
  | SetQuarantined reason => _set_quarantined reason p
  | CallHookSafe name hook => (_call_hook_safe name hook p).2
  | GetDimensions sources => (_get_dimensions sources p).2
  | GetState around sleep_streak => (_get_state around sleep_streak p).2
  | LoopTurn t v => (loop_turn t v p).2
  end.

(** What no function of the bot but [wait], [set_quit_bit] and the poll
    changes: [quit_bit], the waits and the polls. *)
Definition same_loop (p p' : process) : Prop :=
  quit_bit p' = quit_bit p /\ waits p' = waits p /\ polls p' = polls p.

(** A quarantine that is set stays what it is. *)
Definition keeps_quarantine (p p' : process) : Prop :=
  truthy (_QUARANTINED p) = true -> _QUARANTINED p' = _QUARANTINED p.

(** ** The bot's directory *)

Definition PASSLIST : list string :=
  [ "*-cacert.pem"; "c"; "cipd_cache"; "isolated_cache"; "logs"; "README";
    "README.md"; "swarming.lck"; "swarming_bot.1.zip"; "swarming_bot.2.zip";
    "swarming_bot.zip" ]%string.

(** [fnmatch.fnmatch(name, pat)] where the case of file names matters, for a
    pattern made of [*], [?] and characters that stand for themselves, as the
    patterns of [PASSLIST] are. *)
Fixpoint fnmatch (name pat : string) {struct pat} : bool :=
  match pat with
  | EmptyString =>
    match name with EmptyString => true | String _ _ => false end
  | String c pat' =>
    if Ascii.eqb c "*" then
      (fix star (name : string) : bool :=
         fnmatch name pat'
         || match name with
            | EmptyString => false
            | String _ name' => star name'
            end) name
    else
      match name with
      | EmptyString => false
      | String d name' =>
        (Ascii.eqb c "?" || Ascii.eqb c d) && fnmatch name' pat'
      end
  end.

Definition passlisted (i : string) : bool :=
  existsb (fun w => fnmatch i w) PASSLIST.

(** A pattern in which every character stands for itself. *)
Fixpoint literal (pat : string) : bool :=
  match pat with
  | EmptyString => true
  | String c pat' =>
    negb (Ascii.eqb c "*") && negb (Ascii.eqb c "?") && literal pat'
  end.

(** What happens to an entry of the directory that is to be removed: it is
    removed, the removal raises [IOError] or [OSError], or another exception
    is raised on the way. *)
Inductive removal : Type :=
| Removed
| RemovalFails (e : string)
| RemovalRaises (e traceback : string).

(** The loop of [_cleanup_bot_directory] over the entries [os.listdir] gives,
    each with what its removal meets: the entries removed, in their order. *)
Fixpoint _cleanup_entries (entries : list (string * removal)) (p : process)
  : list string * ending unit * process :=
  match entries with
  | [] => ([], Returns (), p)
  | (i, r) :: entries' =>
    if passlisted i then _cleanup_entries entries' p
    else
      match r with
      | Removed =>
        let '(removed, e, p') := _cleanup_entries entries' p in
        (i :: removed, e, p')
      | RemovalFails e =>
        _cleanup_entries entries'
          (post_error
             ("Failed to remove " +:+ i +:+ " from bot's directory: " +:+ e) p)
      | RemovalRaises e traceback => ([], Raises e traceback, p)
      end
  end.

(** [_cleanup_bot_directory]; [base_dir_ok] is what [_is_base_dir_ok]
    answers. *)
Definition _cleanup_bot_directory (base_dir_ok : bool)
    (entries : list (string * removal)) (p : process)
  : list string * ending unit * process :=
  if negb base_dir_ok then ([], Returns (), p)
  else _cleanup_entries entries p.

(** ** The handshake *)

Section Handshake.

(** The per-bot configuration the server sends, which the bot stores as it
    is. *)
Variable bot_group_cfg : Type.

(** The entries of the response that [_do_handshake] reads, each [None] when
    absent. *)
Record handshake_response : Type := mkHandshakeResponse {
  resp_bot_version : pyval;
  resp_cfg_version : pyval;
  resp_cfg : option bot_group_cfg;
  resp_bot_config : pyval;
}.

(** What [_register_extra_bot_config] meets: the content compiles and runs, it
    raises [SyntaxError] or [TypeError], or it raises another exception. *)
Inductive registration : Type :=
| Registers
| Invalid (e : string)
| RegistrationRaises (e traceback : string).

Definition _register_extra_bot_config (r : registration) (p : process)
  : ending unit * process :=
  match r with
  | Registers => (Returns (), p)
  | Invalid e =>
    (Returns (),
     _set_quarantined ("handshake returned invalid bot_config: " +:+ e) p)
  | RegistrationRaises e traceback => (Raises e traceback, p)
  end.

(** Where [_do_handshake] stands after the attempts given: it is to try again
    after a wait that is done, [quit_bit] made it leave, or it is connected,
    with the configuration handed to [botobj._update_bot_group_cfg] and how
    the function ends. *)
Inductive handshake_standing : Type :=
| Retrying (sleep_time : Z)
| Interrupted
| Connected (cfg : option (pyval * option bot_group_cfg)) (e : ending unit).

(** The loop of [_do_handshake]. An attempt is what [remote.do_handshake]
    returns ([None] for a response that is [None] or empty) and whether a stop
    signal arrives during the wait that follows a failure. [r] is what the
    registration of the server's [bot_config] meets. *)
Fixpoint _do_handshake_loop (r : registration)
    (attempts : list (option handshake_response * bool)) (sleep_time : Z)
    (p : process) : handshake_standing * process :=
  if quit_bit p then (Interrupted, p)
  else
    match attempts with
    | [] => (Retrying sleep_time, p)
    | (Some resp, _) :: _ =>
      let cfg :=
        if truthy (resp_cfg_version resp)
        then Some (resp_cfg_version resp, resp_cfg resp)
        else None in
      if truthy (resp_bot_config resp) then
        let '(e, p') := _register_extra_bot_config r p in
        (Connected cfg e, p')
      else (Connected cfg (Returns ()), p)
    | (None, signal) :: attempts' =>
      _do_handshake_loop r attempts' (Z.min 300 (sleep_time * 2))
        (deliver signal (wait (Seconds sleep_time) p))
    end.

Definition _do_handshake (r : registration)
    (attempts : list (option handshake_response * bool)) (p : process)
  : handshake_standing * process :=
  _do_handshake_loop r attempts 5 p.

End Handshake.

(** The wait before the retry that follows failure [i] of the handshake,
    counted from 0: 5 seconds doubled [i] times, and 300 at most. *)
Definition sleep_time_after (i : nat) : Z := Z.min 300 (5 * 2 ^ Z.of_nat i).

(** The process once it has done the waits given, the last one first. *)
Definition waited (delays : list delay) (p : process) : process :=
  mkProcess (_QUARANTINED p) (posted_errors p) (botobj_dimensions p)
    (botobj_state p) (quit_bit p) (delays ++ waits p) (polls p).

(** ** The update of the bot's code *)

(** What [_update_bot] finds around it: the base name of [THIS_FILE], the
    message of the [BotCodeError] when the download fails, the exit code and
    the output of the new code run with [is_fine], and what
    [common.exec_python] returns. *)
Record update_surroundings : Type := mkUpdateSurroundings {
  this_file : string;
  get_bot_code : option string;
  is_fine : Z * string;
  exec_python : Z;
}.

(** What [_update_bot] does to the files and the process, in order. *)
Inductive update_step : Type :=
| Download (new_zip : string) (version : pyval)
| Sleep (seconds : Z)
| RunIsFine (new_zip : string)
| ReleaseSingleton
| ExecPython (new_zip : string).

(** [_update_bot]; [new_zip] is given by its base name, the file is in the
    bot's base directory. *)
Definition _update_bot (around : update_surroundings) (version : pyval)
    (p : process) : ending unit * list update_step * process :=
  let new_zip :=
    if bool_decide (this_file around = "swarming_bot.1.zip"%string)
    then "swarming_bot.2.zip"%string else "swarming_bot.1.zip"%string in
  match get_bot_code around with
  | Some e => (Returns (), [Download new_zip version; Sleep 2], post_error e p)
  | None =>
    let '(returncode, output) := is_fine around in
    if negb (returncode =? 0) then
      (Returns (), [Download new_zip version; RunIsFine new_zip; Sleep 2],
       post_error
         ("New bot code is bad: proc exit = " +:+ pretty returncode
          +:+ ". stdout:" +:+ nl +:+ output) p)
    else
      let steps :=
        [Download new_zip version; RunIsFine new_zip; ReleaseSingleton;
         ExecPython new_zip] in
      let ret := exec_python around in
      if bool_decide (ret ∈ [1073807364; -1073741510]) then
        (Exits 0, steps, p)
      else if negb (ret =? 0) then
        (Exits ret, steps,
         post_error ("Bot failed to respawn after update: " +:+ pretty ret) p)
      else (Exits ret, steps, p)
  end.

(** The archive a step of an update names. *)
Definition step_zip (s : update_step) : option string :=
  match s with
  | Download new_zip _ | RunIsFine new_zip | ExecPython new_zip => Some new_zip
  | Sleep _ | ReleaseSingleton => None
  end.

(** What [os.stat] gives of a file: its size, and the time it was modified, in
    ticks of the clock of the file system. *)
Record stat : Type := mkStat {
  st_size : Z;
  st_mtime : Z;
}.

(** What [_update_lkgbc] finds around it: whether [THIS_FILE] is a file, with
    its name and [os.stat]; the [os.stat] of [swarming_bot.zip] when it is a
    file; and the exception [shutil.copy] raises, if any. *)
Record lkgbc_surroundings : Type := mkLkgbcSurroundings {
  this_file_path : string;
  this_file_is_file : bool;
  cur : stat;
  golden : option stat;
  copy_fails : option string;
}.

(** [_update_lkgbc]: whether [THIS_FILE] was copied over [swarming_bot.zip]. *)
Definition _update_lkgbc (around : lkgbc_surroundings) (p : process)
  : bool * process :=
  if negb (this_file_is_file around) then
    (false,
     post_error ("Missing file " +:+ this_file_path around +:+ " for LKGBC") p)
  else
    let is_current :=
      match golden around with
      | Some org =>
        (st_size org =? st_size org) && (st_mtime (cur around) <=? st_mtime org)
      | None => false
      end in
    if is_current then (false, p)
    else
      match copy_fails around with
      | None => (true, p)
      | Some e => (false, post_error ("Failed to update LKGBC: " +:+ e) p)
      end.

(** ** The task *)

(** [manifest[key]]: the [KeyError] of a dictionary that has no such entry, and
    the [TypeError] of a value that is no dictionary. *)
Definition manifest_entry (manifest : pyval) (key : string) : string + pyval :=
  match manifest with
  | PyDict d =>
    match d !! key with
    | Some v => inr v
    | None => inl "KeyError"%string
    end
  | PyNone | PyBool _ | PyInt _ | PyStr _ | PyList _ => inl "TypeError"%string
  end.

(** [v or d]. *)
Definition py_or (v d : pyval) : pyval := if truthy v then v else d.

(** [3 * v]: a number is multiplied, a string or a list repeated, and [None]
    or a dictionary raises [TypeError]. *)
Definition times3 (v : pyval) : string + pyval :=
  match v with
  | PyInt n => inr (PyInt (3 * n))
  | PyBool b => inr (PyInt (3 * (if b then 1 else 0)))
  | PyStr s => inr (PyStr (s +:+ s +:+ s))
  | PyList l => inr (PyList (l ++ l ++ l))
  | PyNone | PyDict _ => inl "TypeError"%string
  end.

(** [a += b]: numbers are added, a string is extended by a string, a list by
    the items of a list, the characters of a string or the keys of a
    dictionary, and the rest raises [TypeError]. *)
Definition iadd (a b : pyval) : string + pyval :=
  match a with
  | PyInt n =>
    match b with
    | PyInt m => inr (PyInt (n + m))
    | PyBool c => inr (PyInt (n + (if c then 1 else 0)))
    | PyNone | PyStr _ | PyList _ | PyDict _ => inl "TypeError"%string
    end
  | PyBool a =>
    match b with
    | PyInt m => inr (PyInt ((if a then 1 else 0) + m))
    | PyBool c => inr (PyInt ((if a then 1 else 0) + (if c then 1 else 0)))
    | PyNone | PyStr _ | PyList _ | PyDict _ => inl "TypeError"%string
    end
  | PyStr s =>
    match b with
    | PyStr t => inr (PyStr (s +:+ t))
    | PyNone | PyBool _ | PyInt _ | PyList _ | PyDict _ =>
      inl "TypeError"%string
    end
  | PyList l =>
    match b with
    | PyList m => inr (PyList (l ++ m))
    | PyStr t => inr (PyList (l ++ (PyStr <$> characters t)))
    | PyDict d => inr (PyList (l ++ (PyStr <$> (map_to_list d).*1)))
    | PyNone | PyBool _ | PyInt _ => inl "TypeError"%string
    end
  | PyNone | PyDict _ => inl "TypeError"%string
  end.

(** What the first lines of [_run_manifest] keep of the manifest: the id of
    the task, the time [proc.wait] is given, [None] for no limit, the grace
    period that follows a time-out, and the dimensions of the task. *)
Record task_manifest : Type := mkTaskManifest {
  manifest_task_id : pyval;
  manifest_hard_timeout : pyval;
  manifest_grace_period : pyval;
  manifest_dimensions : pyval;
}.

(** An exception ends the reading. *)
Definition and_then {A B : Type} (x : string + A) (f : A -> string + B)
  : string + B :=
  match x with
  | inl e => inl e
  | inr a => f a
  end.

(** The first lines of [_run_manifest], on a manifest that is not empty, with
    the exception they raise. [botobj.remote.is_grpc()] is taken to
    return. *)
Definition read_manifest (manifest : pyval) : string + task_manifest :=
  and_then (manifest_entry manifest "task_id") (fun task_id =>
  and_then (manifest_entry manifest "hard_timeout") (fun hard =>
  let hard_timeout := py_or hard PyNone in
  and_then (manifest_entry manifest "grace_period") (fun grace =>
  let grace_period := py_or grace (PyInt 30) in
  and_then
    (if truthy hard then
       and_then (times3 grace) (fun tripled =>
       and_then (iadd hard_timeout tripled) (fun hard_timeout =>
       and_then (manifest_entry manifest "command") (fun command =>
       if negb (truthy command) then
         and_then (manifest_entry manifest "io_timeout") (fun io_timeout =>
         iadd hard_timeout (py_or io_timeout (PyInt 600)))
       else inr hard_timeout)))
     else inr hard_timeout) (fun hard_timeout =>
  and_then (manifest_entry manifest "dimensions") (fun task_dimensions =>
  inr (mkTaskManifest task_id hard_timeout grace_period task_dimensions)))))).

(** How [task_runner] ends: [proc.wait(hard_timeout)] times out, or the process
    exits. *)
Inductive task_runner_end : Type :=
| RunnerTimedOut
| RunnerExited (returncode : Z).

(** The file [task_runner_out.json] once [task_runner] has exited: it is not
    there, [json.load] raises, or it holds a dictionary or another value. *)
Inductive result_file : Type :=
| NoFile
| Unreadable (e traceback : string)
| Loaded (task_result : gmap string pyval)
| LoadedOther (task_result : pyval).

(** What [_run_manifest] finds around it: the exception raised while the work
    directory and the files are prepared, if any; the outcome of the hook
    [on_before_task]; the exception raised from there to the start of
    [task_runner], if any; how [task_runner] ends and what it leaves; the text
    and the traceback of the exception that reading an entry of the task
    result raises, when it does; the outcome of the hook [on_after_task]; and
    the work directory, with whether it is there at the end and the exception
    its removal raises, if any. *)
Record task_surroundings : Type := mkTaskSurroundings {
  prepare_fails : option (string * string);
  on_before_task : hook_outcome;
  start_fails : option (string * string);
  task_runner : task_runner_end;
  task_result_file : result_file;
  lookup_error : string * string;
  on_after_task : hook_outcome;
  work_dir : string;
  work_dir_removal : option (option string);
}.

(** The local variables of [_run_manifest] when it reaches [finally], with the
    value it returns ([None] after an exception). *)
Record verdict : Type := mkVerdict {
  returns : option bool;
  failure : bool;
  internal_failure : bool;
  msg : option string;
}.

(** The [except Exception] block. *)
Definition raised (e : string * string) : verdict :=
  mkVerdict None false true
    (Some ("Internal exception occured: " +:+ e.1 +:+ nl +:+ e.2)).

Section Task.

(** ['%s' % v] of a value of the task result. *)
Variable str : pyval -> string.

(** The lines that follow the exit of [task_runner], on its exit code and on
    the task result, a dictionary or another value. *)
Definition judge (lookup_error : string * string) (returncode : Z)
    (task_result : gmap string pyval + pyval) : verdict :=
  let result_truthy :=
    match task_result with
    | inl d => negb (bool_decide (d = ∅))
    | inr v => truthy v
    end in
  let conclude (internal_failure : bool) (msg : option string) : verdict :=
    match task_result with
    | inl d =>
      let failure :=
        if result_truthy
        then truthy (default PyNone (d !! "exit_code"%string)) else false in
      mkVerdict (Some (negb internal_failure && negb failure)) failure
        internal_failure msg
    | inr _ =>
      if result_truthy then raised lookup_error
      else mkVerdict (Some (negb internal_failure)) false internal_failure msg
    end in
  if negb (returncode =? 0) then
    conclude true
      (Some ("Execution failed: internal error (" +:+ pretty returncode
             +:+ ")."))
  else if negb result_truthy then
    conclude true (Some "Execution failed: internal error (no metadata)."%string)
  else
    match task_result with
    | inl d =>
      match d !! "must_signal_internal_failure"%string with
      | None => raised lookup_error
      | Some v =>
        if truthy v then conclude true (Some ("Execution failed: " +:+ str v))
        else conclude false None
      end
    | inr _ => raised lookup_error
    end.

(** The [try] block of [_run_manifest]. *)
Definition run_task (around : task_surroundings) (p0 : process)
  : verdict * process :=
  match prepare_fails around with
  | Some e => (raised e, p0)
  | None =>
    let '(_, p1) :=
      _call_hook_safe "on_before_task" (on_before_task around) p0 in
    match start_fails around with
    | Some e => (raised e, p1)
    | None =>
      match task_runner around with
      | RunnerTimedOut =>
        (mkVerdict (Some false) false true (Some "task_runner hung"%string),
         p1)
      | RunnerExited returncode =>
        match task_result_file around with
        | Unreadable e traceback => (raised (e, traceback), p1)
        | NoFile => (judge (lookup_error around) returncode (inl ∅), p1)
        | Loaded d => (judge (lookup_error around) returncode (inl d), p1)
        | LoadedOther v => (judge (lookup_error around) returncode (inr v), p1)
        end
      end
    end
  end.

(** [_run_manifest]: how it ends, with the errors it posts for the task
    through [_post_error_task], each with the id of the task. The thread that
    refreshes the authentication file is left out, and [post_task_error] is
    taken to return. *)
Definition _run_manifest (around : task_surroundings) (manifest : pyval)
    (p0 : process)
  : ending (option bool) * list (pyval * string) * process :=
  if negb (truthy manifest) then (Raises "Empty manifest" "", [], p0)
  else
    match read_manifest manifest with
    | inl e => (Raises e "", [], p0)
    | inr read =>
      let '(v, p1) := run_task around p0 in
      let task_errors :=
        if internal_failure v
        then [(manifest_task_id read, default ""%string (msg v))]
        else [] in
      let '(_, p2) :=
        _call_hook_safe "on_after_task" (on_after_task around) p1 in
      let p3 :=
        match work_dir_removal around with
        | Some (Some e) =>
          post_error
            ("Failed to delete work directory " +:+ work_dir around +:+ ": "
             +:+ e) p2
        | Some None | None => p2
        end in
      (Returns (returns v), task_errors, p3)
    end.

End Task.

(** The task succeeded: nothing was raised, [task_runner] exited with 0 in
    time, and it left a dictionary that signals no internal failure and holds
    no exit code. *)
Definition task_succeeds (around : task_surroundings) : Prop :=
  prepare_fails around = None /\ start_fails around = None
  /\ task_runner around = RunnerExited 0
  /\ exists d x,
       task_result_file around = Loaded d
       /\ d !! "must_signal_internal_failure"%string = Some x
       /\ truthy x = false
       /\ truthy (default PyNone (d !! "exit_code"%string)) = false.

End BotMain.

(** * swarming_bot/bot_code/bot_auth.py *)

Module BotAuth.

(** A string whose characters are all ASCII; strings are held in UTF-8, so a
    character beyond ASCII shows as bytes from 128 on. *)
Fixpoint ascii_only (s : string) : bool :=
  match s with
  | EmptyString => true
  | String c s' => (N_of_ascii c <? 128)%N && ascii_only s'
  end.

(** [s.startswith(prefix)] with the rest of [s], [s[len(prefix):]]. *)
Fixpoint strip_prefix (prefix s : string) : option string :=
  match prefix with
  | EmptyString => Some s
  | String c prefix' =>
    match s with
    | EmptyString => None
    | String d s' => if Ascii.eqb c d then strip_prefix prefix' s' else None
    end
  end.

Section Auth.

(** The numbers of a JSON document that are no integers, with whether they
    are true, that is, not zero. *)
Variable float : Type.
Variable float_truthy : float -> bool.

(** A value decoded from JSON. *)
Inductive json : Type :=
| JNull
| JBool (b : bool)
| JInt (z : Z)
| JFloat (f : float)
| JStr (s : string)
| JList (l : list json)
| JDict (d : gmap string json).

Definition json_truthy (v : json) : bool :=
  match v with
  | JNull => false
  | JBool b => b
  | JInt z => negb (z =? 0)
  | JFloat f => float_truthy f
  | JStr s => negb (bool_decide (s = ""%string))
  | JList l => match l with [] => false | _ :: _ => true end
  | JDict d => negb (bool_decide (d = ∅))
  end.

(** [d.get(key) or default]: the entry when it is there and true. *)
Definition get_or (d : gmap string json) (key : string) (default : json)
  : json :=
  match d !! key with
  | Some v => if json_truthy v then v else default
  | None => default
  end.

(** [str(v)] of a value that is no string. *)
Variable str_of_value : json -> string.

(** [str(v)]: [None] is the [UnicodeEncodeError] of a string that is not
    ASCII. *)
Definition str (v : json) : option string :=
  match v with
  | JStr s => if ascii_only s then Some s else None
  | _ => Some (str_of_value v)
  end.

(** The parsed value of the authentication file. The expiration is an
    integer; [True], which is an integer to [isinstance], counts as 1. *)
Record AuthParams : Type := mkAuthParams {
  swarming_http_headers : gmap string string;
  swarming_http_headers_exp : Z;
  system_service_account : string;
  task_service_account : string;
}.

(** [{str(k): str(v) for k, v in headers.iteritems()}]. *)
Definition str_headers (headers : gmap string json)
  : option (gmap string string) :=
  if bool_decide
       (map_Forall (fun k v => ascii_only k = true /\ is_Some (str v)) headers)
  then Some (omap str headers)
  else None.

(** [read_account] of [process_auth_params_json]. *)
Definition read_account (val : gmap string json) (key : string)
  : option string :=
  match get_or val key (JStr "none") with
  | JStr acc => if ascii_only acc then Some acc else None
  | _ => None
  end.

(** [process_auth_params_json]: [None] is the [ValueError] it raises. *)
Definition process_auth_params_json (val : json) : option AuthParams :=
  match val with
  | JDict val =>
    match get_or val "swarming_http_headers" (JDict ∅) with
    | JDict headers =>
      match
        match get_or val "swarming_http_headers_exp" (JInt 0) with
        | JInt exp => Some exp
        | JBool b => Some (if b then 1 else 0)
        | _ => None
        end
      with
      | Some exp =>
        headers ← str_headers headers;
        system ← read_account val "system_service_account";
        task ← read_account val "task_service_account";
        Some (mkAuthParams headers exp system task)
      | None => None
      end
    | _ => None
    end
  | _ => None
  end.

(** What [AuthSystem.start] hands to the local server: the accounts it
    exposes and the default one. *)
Record local_auth : Type := mkLocalAuth {
  accounts : list string;
  default_account_id : option string;
}.

(** The [AuthSystemError] of [AuthSystem.start]: the reader thread cannot
    start, with its [FatalReadError], or the file cannot be parsed. *)
Inductive AuthSystemError : Type :=
| CannotStart (e : string)
| CannotParse.

(** [AuthSystem.start], called once, on what the reader thread gives first:
    its [FatalReadError], or the value it read. The result is the error
    raised, or what the local server is started with, [None] when no server
    is started. *)
Definition start (last_value : string + json)
  : AuthSystemError + option local_auth :=
  match last_value with
  | inl e => inl (CannotStart e)
  | inr val =>
    match process_auth_params_json val with
    | None => inl CannotParse
    | Some params =>
      let system := negb (bool_decide (system_service_account params
                                       = "none"%string)) in
      let task := negb (bool_decide (task_service_account params
                                     = "none"%string)) in
      let available_accounts :=
        (if system then ["system"%string] else [])
        ++ (if task then ["task"%string] else []) in
      let default_account_id := if task then Some "task"%string else None in
      match available_accounts with
      | [] => inr None
      | _ :: _ => inr (Some (mkLocalAuth available_accounts default_account_id))
      end
    end
  end.

(** When a token expires: at a time given, or four minutes from now. *)
Inductive expiry : Type :=
| At (exp : Z)
| InFourMinutes.

(** How [generate_token] ends: with a token, or with one of the errors it
    raises. *)
Inductive token_outcome : Type :=
| AccessToken (tok : string) (exp : expiry)
| RPCError (code : Z) (message : string)
| TokenError (code : Z) (message : string)
| ValueError.

(** [repr(s)] of a string. *)
Variable repr : string -> string.

(** [_grab_bot_oauth_token]. *)
Definition _grab_bot_oauth_token (auth_params : AuthParams) : token_outcome :=
  let bot_auth_hdr :=
    match swarming_http_headers auth_params !! "Authorization"%string with
    | Some hdr => hdr
    | None => ""%string
    end in
  match strip_prefix "Bearer " bot_auth_hdr with
  | None => TokenError 2 "The bot is not using OAuth"
  | Some tok =>
    AccessToken tok
      (if swarming_http_headers_exp auth_params =? 0 then InFourMinutes
       else At (swarming_http_headers_exp auth_params))
  end.

(** [generate_token]. [reader] is the value the reader thread read last,
    [None] once the system is stopped, and [rpc_client] tells whether a client
    is set. *)
Definition generate_token (reader : option json) (rpc_client : bool)
    (account_id : string) : token_outcome :=
  match reader with
  | None => RPCError 503 "Stopped already."
  | Some val =>
    match process_auth_params_json val with
    | None => ValueError
    | Some params =>
      let serve (service_account : string) : token_outcome :=
        if bool_decide (service_account = "none"%string) then
          TokenError 1
            ("The task has no " +:+ repr account_id
             +:+ " account associated with it")
        else if bool_decide (service_account = "bot"%string) then
          _grab_bot_oauth_token params
        else if negb rpc_client then
          RPCError 500 "No RPC client, can't fetch token"
        else TokenError 3 "Not implemented yet" in
      if bool_decide (account_id = "task"%string) then
        serve (task_service_account params)
      else if bool_decide (account_id = "system"%string) then
        serve (system_service_account params)
      else RPCError 404 ("Unknown account " +:+ repr account_id)
    end
  end.

End Auth.

Arguments JNull {float}.
Arguments JBool {float} b.
Arguments JInt {float} z.
Arguments JFloat {float} f.
Arguments JStr {float} s.
Arguments JList {float} l.
Arguments JDict {float} d.

End BotAuth.

(** * Sample data

    The data and the collaborators the handlers and the bot are run with in the
    examples. *)

(** A datastore of the legacy handlers with one request, which bot9 ran to
    completion. *)
Module Sample.

(** The packed id ["1"] names the request with id 1, and nothing else is a
    packed id. *)
Definition unpack (r : string) : option Z :=
  if bool_decide (r = "1"%string) then Some 1 else None.

Definition request1 : Frontend.TaskRequest :=
  Frontend.mkTaskRequest "build" "joe" 100.

Definition to_run1 : Frontend.TaskToRun := Frontend.mkTaskToRun 7 (Some 10).

(** The summary of a task that bot9 completed at time 20. *)
Definition completed1 : Frontend.TaskResultSummary :=
  Frontend.mkTaskResultSummary COMPLETED false (Some "bot9"%string) (Some 20)
    None [0].

Definition run_result1 : Frontend.TaskRunResult :=
  Frontend.mkTaskRunResult RUNNING "bot9" [] [].

Definition completed_store : Frontend.datastore :=
  Frontend.mkDatastore {[ 1 := request1 ]} {[ 1 := to_run1 ]}
    {[ 1 := completed1 ]} {[ 1 := run_result1 ]} [].

End Sample.

(** Requests for a new task with priority 10. *)
Module SamplePriority.

(** A test case with one configuration of priority 10. *)
Definition test_case : Frontend.TestCase :=
  Frontend.mkTestCase "unit" "joe" [Frontend.mkTestConfiguration ∅ 10 3600]
    [Frontend.mkTestObject ["run"%string] 60 30] [] ∅.

Definition from_json (request : string) : option Frontend.TestCase :=
  if bool_decide (request = "unit"%string) then Some test_case else None.

(** [make_request] on the legacy path: the request gets key 1. *)
Definition make_request (rp : Frontend.request_properties)
    (ds : Frontend.datastore) : Z * Frontend.datastore :=
  (1, Frontend.mkDatastore
        (<[1 := Frontend.mkTaskRequest (Frontend.name rp) (Frontend.user rp)
                  (Frontend.priority rp)]> (Frontend.requests ds))
        (Frontend.to_runs ds) (Frontend.summaries ds) (Frontend.run_results ds)
        (Frontend.results ds)).

Definition empty_store : Frontend.datastore :=
  Frontend.mkDatastore ∅ ∅ ∅ ∅ [].

(** A body of the new API with priority 10. *)
Definition body : gmap string pyval :=
  {[ "name"%string := PyStr "unit"; "priority"%string := PyInt 10 ]}.

Definition api_make_request (request : gmap string pyval)
    (ds : Api.datastore) : (string + gmap string pyval) * Api.datastore :=
  (inr request, ds).

Definition api_server : Api.server :=
  Api.mkServer (Api.mkDatastore ∅ ∅ ∅) [].

End SamplePriority.

(** A server on which bot9 runs task 1, and the reports of bot7 on it. *)
Module SampleReport.

Definition unpack (task_id : pyval) : option Z :=
  match task_id with
  | PyStr s => Sample.unpack s
  | _ => None
  end.

Definition show_keys (keys : gset string) : string :=
  String.concat ", " (elements keys).

Definition str (v : pyval) : string :=
  match v with
  | PyStr s => s
  | _ => "?"%string
  end.

(** The task of key 1 runs on bot9. *)
Definition server1 : Api.server :=
  Api.mkServer
    (Api.mkDatastore {[ 1 := Api.mkTaskRunResult RUNNING "bot9" [] 10 ]}
       {[ 1 := Api.mkTaskResultSummary RUNNING false (Some "bot9"%string) []
                 10 ]} ∅) [].

(** The task is declared BOT_DIED, run result and summary. *)
Definition bot_kill_task (key : Z) (r : Api.TaskRunResult)
    (ds : Api.datastore) : Api.datastore :=
  Api.put_multi
    [ Api.RunResultEntity key
        (Api.mkTaskRunResult BOT_DIED (Api.run_bot_id r) (Api.run_exit_codes r)
           (Api.last_update_ts r));
      Api.ResultSummaryEntity key
        (Api.mkTaskResultSummary BOT_DIED true (Some (Api.run_bot_id r)) []
           (Api.last_update_ts r)) ] ds.

(** bot7 reports an error on the task of bot9. *)
Definition error_of_bot7 : gmap string pyval :=
  {[ "id"%string := PyStr "bot7"; "message"%string := PyStr "boom";
     "task_id"%string := PyStr "1" ]}.

(** The update pipeline refuses every update. *)
Definition refuse (u : Api.task_update) (ds : Api.datastore)
  : string + list Api.entity :=
  inl "wrong bot"%string.

Definition update_of_bot7 : gmap string pyval :=
  {[ "id"%string := PyStr "bot7"; "command_index"%string := PyInt 0;
     "task_id"%string := PyStr "1" ]}.

Definition legacy_update (key : Z) (exit_codes outputs : list Z) (id : string)
    (ds : Frontend.datastore) : option Frontend.datastore :=
  Some ds.

End SampleReport.

(** A server for the examples: its state is the list of the calls that reached
    its collaborators, the current bot version is v2, a bot may advertise
    dimensions with a powerset count up to 16, restarts after 1000 seconds, and
    is given task 1 when it advertises an operating system. *)
Module SamplePoll.

Definition world : Type := list string.

Definition ereporter2_log_request (source message : string) (w : world)
  : world := w ++ ["log_request"%string].

Definition get_bot_version (host : string) : string := "v2".

Definition values_of (v : pyval) : list pyval :=
  match v with
  | PyList l => l
  | _ => []
  end.

Definition dimensions_powerset_count (dimensions : gmap string pyval) : Z :=
  2 ^ Z.of_nat
        (length (concat (map (fun kv => values_of kv.2)
                           (map_to_list dimensions)))).

Definition stats_add_entry (bot_id : pyval) (dimensions : gmap string pyval)
    (w : world) : world := w ++ ["add_entry"%string].

Definition tag_bot_seen (b : Api.bot_seen) (w : world) : world :=
  w ++ [if truthy (Api.seen_quarantined b) then "tag_bot_seen quarantined"
        else "tag_bot_seen"]%string.

Definition should_restart_bot (bot_id : pyval) (request : gmap string pyval)
    (state : gmap string pyval) (w : world) : bool * string :=
  match state !! "running_time"%string with
  | Some (PyInt n) => (1000 <? n, "running for too long"%string)
  | _ => (false, ""%string)
  end.

Definition task1 : Api.TaskProperties :=
  Api.mkTaskProperties [["run"%string]] [] ∅ 3600 600.

Definition bot_reap_task (dimensions : gmap string pyval) (bot_id : pyval)
    (version : pyval) (w : world) : Api.reaped * world :=
  (Api.Reaped
     match dimensions !! "os"%string with
     | Some _ => Some (task1, 1)
     | None => None
     end,
   w ++ ["bot_reap_task"%string]).

Definition exponential_backoff (sleep_streak : pyval) : Z :=
  match sleep_streak with
  | PyInt n => Z.min 60 (2 ^ n)
  | _ => 1
  end.

Definition handler :=
  Api.BotPollHandler_post Z world ereporter2_log_request get_bot_version
    dimensions_powerset_count 16 stats_add_entry tag_bot_seen
    should_restart_bot bot_reap_task exponential_backoff "https://host" pretty
    SampleReport.show_keys.

Definition self : Api.http_request := Api.mkHttpRequest "https://host" "::1".

(** The body of a poll with the three entries it is to have. *)
Definition poll (dimensions state : pyval) (version : string)
  : gmap string pyval :=
  {[ "dimensions"%string := dimensions; "state"%string := state;
     "version"%string := PyStr version ]}.

Definition state0 : gmap string pyval :=
  {[ "running_time"%string := PyInt 5; "sleep_streak"%string := PyInt 0 ]}.


Definition many : gmap string pyval :=
  {[ "id"%string := PyList [PyStr "bot1"];
     "os"%string :=
       PyList [PyStr "Linux"; PyStr "Ubuntu"; PyStr "Ubuntu-20";
               PyStr "Ubuntu-20.04"] ]}.
Definition poll_many : gmap string pyval :=
  poll (PyDict many) (PyDict state0) "v2".

(** A bot that advertises an operating system and no id polls. *)
Definition no_id : gmap string pyval :=
  {[ "os"%string := PyList [PyStr "Linux"] ]}.
Definition poll_no_id : gmap string pyval :=
  poll (PyDict no_id) (PyDict state0) "v2".

Definition poll_many_listed : gmap string pyval :=
  poll (PyDict many) (PyList [PyStr "running_time"; PyStr "sleep_streak"])
    "v2".

End SamplePoll.

(** An update of task 1 by bot9. *)
Module SampleUpdate.

(** The update pipeline gives two entities to put: the run result with its new
    time stamp, and the chunk of output. *)
Definition entities : list Api.entity :=
  [ Api.RunResultEntity 1 (Api.mkTaskRunResult RUNNING "bot9" [] 11);
    Api.OutputChunkEntity (1, 0, 0) "hi" ].

Definition bot_update_task (u : Api.task_update) (ds : Api.datastore)
  : string + list Api.entity := inr entities.

(** bot9 sends output for the task it runs. *)
Definition update_of_bot9 : gmap string pyval :=
  {[ "id"%string := PyStr "bot9"; "command_index"%string := PyInt 0;
     "task_id"%string := PyStr "1"; "output"%string := PyStr "hi";
     "output_chunk_start"%string := PyInt 0 ]}.

Definition handler :=
  Api.BotTaskUpdateHandler_post SampleReport.show_keys SampleReport.unpack
    bot_update_task id.

End SampleUpdate.

(** A bot process, and turns of its loop that fail. *)
Module SampleBot.

(** A process that has just started. *)
Definition fresh : BotMain.process :=
  BotMain.mkProcess PyNone [] ∅ ∅ false [] [].

(** No partition is short of free space; the root partition is, with 100 of
    its 100000 MiB free, under the default settings. *)
Definition enough_space (r : string) (i : pyval)
    (settings : BotMain.setting BotMain.leaf) : string + option string :=
  inr None.

Definition full_root (r : string) (i : pyval)
    (settings : BotMain.setting BotMain.leaf) : string + option string :=
  if bool_decide (r = "/"%string)
  then inr (Some "Not enough free disk space on /. 100.0mib < 7000.0mib"%string)
  else inr None.

(** The default settings, and the ones of [free_partition]. *)
Definition default_settings : gmap string (BotMain.setting BotMain.leaf) :=
  match
    BotMain.DEFAULT_SETTINGS (fun z => BotMain.Value (PyInt z)) BotMain.FloatOf
  with
  | BotMain.SettingDict d => d
  | BotMain.SettingNone | BotMain.SettingValue _ => ∅
  end.

Definition default_free_partition : BotMain.setting BotMain.leaf :=
  BotMain.setting_get default_settings "free_partition".

(** The hooks give dictionaries, and nothing is wrong around the bot, which
    runs on Linux from [/b/swarming]. *)
Definition quiet : BotMain.surroundings :=
  BotMain.mkSurroundings (BotMain.HookReturns (BotMain.HookDict ∅))
    (BotMain.HookReturns (BotMain.HookDict ∅)) true true "linux2" "/b/swarming"
    enough_space.

(** A state that the hook gives quarantined, a state with the root partition
    and the one of [/b], and the surroundings of a bot whose hook gives this
    state while the root partition is short of free space. *)
Definition broken : gmap string pyval :=
  {[ "quarantined"%string := PyStr "broken" ]}.

Definition two_disks : gmap string pyval :=
  {[ "disks"%string :=
       PyDict
         {[ "/"%string :=
              PyDict {[ "free_mb"%string := PyInt 100;
                        "size_mb"%string := PyInt 100000 ]};
            "/b"%string :=
              PyDict {[ "free_mb"%string := PyInt 90000;
                        "size_mb"%string := PyInt 100000 ]} ]} ]}.

Definition full : BotMain.surroundings :=
  BotMain.mkSurroundings (BotMain.HookReturns (BotMain.HookDict two_disks))
    (BotMain.HookReturns (BotMain.HookDict ∅)) true true "linux2" "/b/swarming"
    full_root.

Definition bot1 : BotMain.dimension_sources :=
  BotMain.mkDimensionSources
    (BotMain.HookReturns
       (BotMain.HookDict {[ "id"%string := PyList [PyStr "bot1"] ]}))
    (inr ∅) (inr "bot1"%string) "traceback".

(** A turn in which the poll fails, and one in which the server sends a command
    the bot does not know. *)
Definition poll_fails : BotMain.turn :=
  BotMain.mkTurn bot1 quiet (BotMain.PollError "HTTP 500")
    (BotMain.HookReturns (BotMain.HookOther "None"))
    (BotMain.ActionReturns true) 100 false.

Definition unknown_command : BotMain.turn :=
  BotMain.mkTurn bot1 quiet (BotMain.Polled "dance" PyNone)
    (BotMain.HookReturns (BotMain.HookOther "None"))
    (BotMain.ActionReturns true) 200 false.

(** A turn in which the hook [get_settings] raises, and the server tells the
    bot to sleep. *)
Definition bad_settings : BotMain.surroundings :=
  BotMain.mkSurroundings (BotMain.HookReturns (BotMain.HookDict ∅))
    (BotMain.HookRaises "boom" "traceback") true true "linux2" "/b/swarming"
    enough_space.

Definition settings_fail : BotMain.turn :=
  BotMain.mkTurn bot1 bad_settings (BotMain.Polled "sleep" (PyInt 1))
    (BotMain.HookReturns (BotMain.HookOther "None"))
    (BotMain.ActionReturns true) 300 false.

End SampleBot.

(** Polls of bots that the server puts to sleep: a bot with an empty id, a bot
    that advertises a number among its dimensions, and a bot that quarantines
    itself. *)
Module SampleSleep.

Definition empty_id : gmap string pyval :=
  {[ "id"%string := PyList [PyStr ""]; "os"%string := PyList [PyStr "Linux"] ]}.
Definition poll_empty_id : gmap string pyval :=
  SamplePoll.poll (PyDict empty_id) (PyDict SamplePoll.state0) "v2".

Definition eight_cores : gmap string pyval :=
  {[ "id"%string := PyList [PyStr "bot1"];
     "cores"%string := PyList [PyInt 8] ]}.
Definition poll_eight_cores : gmap string pyval :=
  SamplePoll.poll (PyDict eight_cores) (PyDict SamplePoll.state0) "v2".

Definition broken : gmap string pyval :=
  {[ "id"%string := PyList [PyStr "bot1"];
     "os"%string := PyList [PyStr "Linux"];
     "quarantined"%string := PyList [PyStr "disk is full"] ]}.
Definition poll_broken : gmap string pyval :=
  SamplePoll.poll (PyDict broken) (PyDict SamplePoll.state0) "v2".

End SampleSleep.

(** Settings whose values are integers: defaults with a size and a wiggle, a
    hook that gives the size, and the merge of the two. *)
Module SampleSettings.

Definition defaults : BotMain.setting Z :=
  BotMain.SettingDict
    {[ "free_partition"%string :=
         BotMain.SettingDict
           {[ "size"%string := BotMain.SettingValue 4;
              "wiggle"%string := BotMain.SettingValue 2 ]} ]}.

Definition of_hook : BotMain.setting Z :=
  BotMain.SettingDict
    {[ "free_partition"%string :=
         BotMain.SettingDict {[ "size"%string := BotMain.SettingValue 1 ]} ]}.

Definition merged : BotMain.setting Z :=
  BotMain.SettingDict
    {[ "free_partition"%string :=
         BotMain.SettingDict
           {[ "size"%string := BotMain.SettingValue 1;
              "wiggle"%string := BotMain.SettingValue 2 ]} ]}.

End SampleSettings.

(** Numbers as [int] reads them in the examples: decimal digits, and nothing
    else. *)
Module SampleNetwork.

Fixpoint digits (s : string) (value : Z) : option Z :=
  match s with
  | EmptyString => Some value
  | String c s' =>
    let d := Z.of_N (N_of_ascii c) - 48 in
    if (0 <=? d) && (d <=? 9) then digits s' (value * 10 + d) else None
  end.

Definition int (s : string) : option Z :=
  match s with
  | EmptyString => None
  | String _ _ => digits s 0
  end.

End SampleNetwork.

(** A task of one command with a time-out of a minute, and a run of it that
    succeeds. *)
Module SampleTask.

Definition manifest : pyval :=
  PyDict
    {[ "task_id"%string := PyStr "1"; "hard_timeout"%string := PyInt 60;
       "grace_period"%string := PyInt 30; "io_timeout"%string := PyNone;
       "command"%string := PyList [PyStr "run"];
       "dimensions"%string :=
         PyDict {[ "os"%string := PyStr "Linux" ]} ]}.

(** The same task, by a server that does not send its dimensions. *)
Definition no_dimensions : pyval :=
  PyDict
    {[ "task_id"%string := PyStr "1"; "hard_timeout"%string := PyInt 60;
       "grace_period"%string := PyInt 30; "io_timeout"%string := PyNone;
       "command"%string := PyList [PyStr "run"] ]}.

Definition clean_run : BotMain.task_surroundings :=
  BotMain.mkTaskSurroundings None
    (BotMain.HookReturns (BotMain.HookOther "None")) None
    (BotMain.RunnerExited 0)
    (BotMain.Loaded
       {[ "must_signal_internal_failure"%string := PyNone;
          "exit_code"%string := PyInt 0 ]})
    ("KeyError"%string, "traceback"%string)
    (BotMain.HookReturns (BotMain.HookOther "None")) "w" (Some None).

End SampleTask.

Module SampleAuth.

Import BotAuth.

(** A file whose numbers are all integers. *)
Definition float : Type := Empty_set.

Definition float_truthy (f : float) : bool := match f with end.

(** [str] of the integers, the booleans and [None]; the file holds no list
    and no dictionary where a string goes. *)
Definition str_of_value (v : json float) : string :=
  match v with
  | JNull => "None"
  | JBool true => "True"
  | JBool false => "False"
  | JInt z => pretty z
  | _ => ""
  end.

Definition repr (s : string) : string := "'" +:+ s +:+ "'".

(** The file of a bot that uses OAuth, for a task that runs as the bot and
    has no system account. *)
Definition file : json float :=
  JDict
    {[ "swarming_http_headers"%string :=
         JDict {[ "Authorization"%string := JStr "Bearer abc" ]};
       "swarming_http_headers_exp"%string := JInt 1500000000;
       "system_service_account"%string := JStr "none";
       "task_service_account"%string := JStr "bot" ]}.

Definition params : AuthParams :=
  mkAuthParams {[ "Authorization"%string := "Bearer abc"%string ]}
    1500000000 "none" "bot".

End SampleAuth.

(** * Properties of handlers_frontend.py *)

Section FrontendProperties.

Variable unpack_result_summary_key : string -> option Z.

Lemma abort_task_to_run_summaries now k t ds :
  Frontend.summaries (Frontend.abort_task_to_run now k t ds)
  = Frontend.summaries ds.
Proof. reflexivity. Qed.

(** C1, which fails on the code. The claim is that a summary in a terminal state
    never changes state again, whatever operation follows, the cancel handler
    included. [CancelHandler.post] does not look at the state: on a summary in
    any terminal state other than CANCELED it answers that the runner is
    canceled and stores the summary with state CANCELED. *)
Theorem cancel_overwrites_terminal_state
    (now : Z) (r : string) (ds : Frontend.datastore) (key : Z)
    (request : Frontend.TaskRequest) (task : Frontend.TaskToRun)
    (summary : Frontend.TaskResultSummary) :
  unpack_result_summary_key r = Some key ->
  Frontend.requests ds !! key = Some request ->
  Frontend.to_runs ds !! key = Some task ->
  Frontend.summaries ds !! key = Some summary ->
  is_terminal (Frontend.state summary) = true ->
  Frontend.state summary <> CANCELED ->
  exists ds' summary',
    Frontend.CancelHandler_post unpack_result_summary_key now r ds
    = (ds', Send "Runner canceled."%string)
    /\ Frontend.summaries ds' !! key = Some summary'
    /\ Frontend.state summary' = CANCELED
    /\ Frontend.state summary' <> Frontend.state summary.
Proof.
  intros Hkey Hreq Htask Hsum _ Hstate.
  unfold Frontend.CancelHandler_post.
  rewrite Hkey, Hreq, Htask, abort_task_to_run_summaries, Hsum.
  eexists _, _. split; [reflexivity|].
  split; [apply lookup_insert_eq|].
  split; [reflexivity|]. cbn. congruence.
Qed.

End FrontendProperties.

(** The task of [Sample.completed_store] is COMPLETED, and the cancel handler
    leaves it CANCELED. *)
Lemma cancel_overwrites_completed :
  exists ds' summary',
    Frontend.CancelHandler_post Sample.unpack 30 "1" Sample.completed_store
    = (ds', Send "Runner canceled."%string)
    /\ Frontend.summaries ds' !! 1 = Some summary'
    /\ Frontend.state summary' = CANCELED
    /\ Frontend.state summary' <> Frontend.state Sample.completed1.
Proof.
  apply (cancel_overwrites_terminal_state Sample.unpack 30 "1"
           Sample.completed_store 1 Sample.request1 Sample.to_run1
           Sample.completed1);
    first [ reflexivity | discriminate ].
Defined.

(** * Priority of a new request *)

Section Priority.

Variable TestCase_FromJSON : string -> option Frontend.TestCase.
Variable make_request :
  Frontend.request_properties -> Frontend.datastore -> Z * Frontend.datastore.
Variable pack_result_summary_key : Z -> string.
Variable created : Type.
Variable api_make_request :
  gmap string pyval -> Api.datastore -> (string + created) * Api.datastore.

Lemma clamp_priority_spec (privileged : bool) (request : gmap string pyval)
    (p : Z) :
  request !! "priority"%string = Some (PyInt p) ->
  Api.clamp_priority privileged request
  = if (p <? 100) && negb privileged
    then <["priority"%string := PyInt 100]> request else request.
Proof. intros H. unfold Api.clamp_priority. rewrite H. reflexivity. Qed.

(** C4. A request for a new task that comes with a priority below 100 from a
    caller that is neither a bot nor an admin is made with priority exactly
    100, and otherwise as it came: with priority 100 or more, or from a bot or
    an admin, the priority is the submitted one. Each handler hands the
    request with that priority to [make_request], on the datastore as it is,
    keeps the datastore [make_request] leaves and answers with what it gave.
    This holds of [ClientRequestHandler.post], on the body's [priority], and
    of [TestRequestHandler.post], on the priority of the converted test case,
    which also answers with the priority it used; and when [make_request]
    stores the request under the key it gives with the priority it was handed,
    that is the priority of the stored request. *)
Theorem priority_below_100_is_raised_to_100 (privileged : bool) (p : Z) :
  (forall (request : gmap string pyval) (w : Api.server),
     request !! "priority"%string = Some (PyInt p) ->
     exists made,
       Api.ClientRequestHandler_post created api_make_request privileged
         request w
       = (Api.with_store (api_make_request made (Api.store w)).2 w,
          match (api_make_request made (Api.store w)).1 with
          | inl e => Abort 400 e
          | inr data => Send data
          end)
       /\ (p < 100 -> privileged = false ->
           made !! "priority"%string = Some (PyInt 100)
           /\ forall k, k <> "priority"%string -> made !! k = request !! k)
       /\ (100 <= p \/ privileged = true -> made = request))
  /\ (forall (request : string) (ds : Frontend.datastore) test_case rp,
        request <> ""%string ->
        TestCase_FromJSON request = Some test_case ->
        Frontend.convert_test_case test_case = Some rp ->
        Frontend.priority rp = p ->
        exists made,
          let key := (make_request made ds).1 in
          let ds' := (make_request made ds).2 in
          Frontend.TestRequestHandler_post TestCase_FromJSON make_request
            pack_result_summary_key privileged request ds
          = (ds',
             Send (Frontend.mkTestRequestOut (Frontend.priority made)
                     (Frontend.name made) (pack_result_summary_key key)))
          /\ (p < 100 -> privileged = false ->
              made = Frontend.set_priority 100 rp
              /\ Frontend.priority made = 100)
          /\ (100 <= p \/ privileged = true -> made = rp)
          /\ ((forall rp0 ds0,
                 Frontend.requests (make_request rp0 ds0).2
                   !! (make_request rp0 ds0).1
                 = Some (Frontend.mkTaskRequest (Frontend.name rp0)
                           (Frontend.user rp0) (Frontend.priority rp0))) ->
              exists stored,
                Frontend.requests ds' !! key = Some stored
                /\ Frontend.req_priority stored
                   = if (p <? 100) && negb privileged then 100 else p)).
Proof.
  split.
  - intros request w Hp.
    exists (Api.clamp_priority privileged request). split.
    { unfold Api.ClientRequestHandler_post.
      destruct (api_make_request _ _) as [[e|d] ds]; reflexivity. }
    rewrite (clamp_priority_spec _ _ p Hp). split.
    + intros Hlt ->. rewrite (proj2 (Z.ltb_lt p 100) Hlt). cbn.
      split; [apply lookup_insert_eq|].
      intros k Hk. apply lookup_insert_ne. congruence.
    + intros [Hge | ->].
      * rewrite (proj2 (Z.ltb_ge p 100) Hge). reflexivity.
      * rewrite andb_false_r. reflexivity.
  - intros request ds test_case rp Hne Hjson Hconv Hp.
    exists (if (Frontend.priority rp <? 100) && negb privileged
            then Frontend.set_priority 100 rp else rp).
    cbv zeta. split.
    { unfold Frontend.TestRequestHandler_post.
      rewrite bool_decide_eq_false_2 by exact Hne.
      rewrite Hjson, Hconv. destruct (make_request _ ds); reflexivity. }
    rewrite Hp. split; [|split].
    + intros Hlt ->. rewrite (proj2 (Z.ltb_lt p 100) Hlt). cbn. auto.
    + intros [Hge | ->].
      * rewrite (proj2 (Z.ltb_ge p 100) Hge). reflexivity.
      * rewrite andb_false_r. reflexivity.
    + intros Hstores. eexists. split; [apply Hstores|].
      cbn [Frontend.req_priority].
      destruct ((p <? 100) && negb privileged); [reflexivity|exact Hp].
Qed.

End Priority.

(** A user who is neither bot nor admin asks for priority 10 on both paths, and
    the request is made with priority 100: on the legacy path, that is the
    priority of the request in the datastore. *)
Lemma priority_10_of_user_is_raised :
  (exists made,
     Api.ClientRequestHandler_post (gmap string pyval)
       SamplePriority.api_make_request false SamplePriority.body
       SamplePriority.api_server
     = (SamplePriority.api_server, Send made)
     /\ made !! "priority"%string = Some (PyInt 100))
  /\ exists ds' out stored,
       Frontend.TestRequestHandler_post SamplePriority.from_json
         SamplePriority.make_request pretty false "unit"
         SamplePriority.empty_store
       = (ds', Send out)
       /\ Frontend.out_priority out = 100
       /\ Frontend.requests ds' !! 1 = Some stored
       /\ Frontend.req_priority stored = 100.
Proof.
  destruct (priority_below_100_is_raised_to_100 SamplePriority.from_json
              SamplePriority.make_request pretty (gmap string pyval)
              SamplePriority.api_make_request false 10) as [Hapi Hlegacy].
  split.
  - destruct (Hapi SamplePriority.body SamplePriority.api_server eq_refl)
      as (made & Hpost & Hlow & _).
    exists made. split; [exact Hpost|]. apply Hlow; [lia|reflexivity].
  - destruct (Hlegacy "unit"%string SamplePriority.empty_store
                SamplePriority.test_case
                (Frontend.mkRequestProperties "unit" "joe"
                   (Frontend.mkTaskProperties [["run"%string]] [] ∅ ∅ 60 30)
                   10 3600))
      as (made & Hpost & Hlow & _ & Hstored);
      [ discriminate | reflexivity | reflexivity | reflexivity | ].
    destruct (Hlow ltac:(lia) eq_refl) as [-> Hmade].
    destruct (Hstored ltac:(intros rp0 ds0; apply lookup_insert_eq))
      as (stored & Hget & Hpriority).
    eexists _, _, stored. split; [exact Hpost|].
    split; [reflexivity|]. split; [exact Hget|exact Hpriority].
Defined.

(** * The bot that reports on a task must be the bot that runs it *)

Section Reports.

Variable unpack_legacy : string -> option Z.
Variable legacy_bot_update_task :
  Z -> list Z -> list Z -> string -> Frontend.datastore ->
  option Frontend.datastore.
Variable show_keys : gset string -> string.
Variable str : pyval -> string.
Variable unpack_run_result_key : pyval -> option Z.
Variable bot_update_task :
  Api.task_update -> Api.datastore -> string + list Api.entity.
Variable bot_kill_task :
  Z -> Api.TaskRunResult -> Api.datastore -> Api.datastore.
Variable encode_utf8 : string -> string.

Local Abbreviation ResultHandler_post :=
  (Frontend.ResultHandler_post unpack_legacy legacy_bot_update_task).
Local Abbreviation BotTaskErrorHandler_post :=
  (Api.BotTaskErrorHandler_post show_keys str unpack_run_result_key
     bot_kill_task).
Local Abbreviation BotTaskUpdateHandler_post :=
  (Api.BotTaskUpdateHandler_post show_keys unpack_run_result_key
     bot_update_task encode_utf8).

(** Logging a report leaves the datastore as it is. *)
Lemma log_unexpected_subset_keys_store expected minimum actual source name w :
  Api.store
    (Api.log_unexpected_subset_keys Api.server Api.log_request show_keys
       expected minimum actual source name w).2
  = Api.store w.
Proof.
  unfold Api.log_unexpected_subset_keys.
  destruct (_ || _); reflexivity.
Qed.

Lemma ResultHandler_post_foreign_bot r id x result_string ds key run_result :
  unpack_legacy r = Some key ->
  Frontend.run_results ds !! key = Some run_result ->
  id <> Frontend.run_bot_id run_result ->
  exists msg, ResultHandler_post r id x result_string ds = (ds, Abort 404 msg).
Proof.
  intros Hkey Hget Hne. unfold Frontend.ResultHandler_post.
  rewrite Hkey, Hget, bool_decide_eq_false_2 by exact Hne.
  cbn. eauto.
Qed.

Lemma BotTaskErrorHandler_post_foreign_bot request w bot_id task_id key
    run_result :
  request !! "id"%string = Some bot_id ->
  request !! "task_id"%string = Some task_id ->
  unpack_run_result_key task_id = Some key ->
  Api.run_results (Api.store w) !! key = Some run_result ->
  py_ne_str bot_id (Api.run_bot_id run_result) = true ->
  exists w' msg,
    BotTaskErrorHandler_post request w = (w', Abort 400 msg)
    /\ Api.store w' = Api.store w.
Proof.
  intros Hid Htask Hkey Hget Hne. unfold Api.BotTaskErrorHandler_post.
  unfold Api.log_unexpected_keys.
  destruct (Api.log_unexpected_subset_keys _ _ _ _ _ _ _ _ w) as [msg w1] eqn:E.
  assert (Hstore : Api.store w1 = Api.store w).
  { change w1 with (msg, w1).2. rewrite <- E.
    apply log_unexpected_subset_keys_store. }
  destruct (Api.msg_set msg).
  - eexists _, _. split; [reflexivity|]. exact Hstore.
  - unfold Api.item. rewrite Hid, Htask, Hkey. cbn [Api.ereporter2_log Api.store].
    rewrite Hstore, Hget, Hne.
    eexists _, _. split; [reflexivity|]. exact Hstore.
Qed.

Lemma BotTaskUpdateHandler_post_rejected commits request w bot_id
    command_index task_id key output e :
  request !! "id"%string = Some bot_id ->
  request !! "command_index"%string = Some command_index ->
  request !! "task_id"%string = Some task_id ->
  unpack_run_result_key task_id = Some key ->
  Api.get_output encode_utf8 request = Some output ->
  bot_update_task
    (Api.mkTaskUpdate key bot_id command_index output
       (request !! "output_chunk_start"%string)
       (request !! "exit_code"%string) (request !! "duration"%string))
    (Api.store w) = inl e ->
  exists w' msg,
    BotTaskUpdateHandler_post commits request w = (w', Abort 400 msg)
    /\ Api.store w' = Api.store w.
Proof.
  intros Hid Hci Htask Hkey Hout Hrej. unfold Api.BotTaskUpdateHandler_post.
  destruct (Api.log_unexpected_subset_keys _ _ _ _ _ _ _ _ w) as [msg w1] eqn:E.
  assert (Hstore : Api.store w1 = Api.store w).
  { change w1 with (msg, w1).2. rewrite <- E.
    apply log_unexpected_subset_keys_store. }
  destruct (Api.msg_set msg).
  - eexists _, _. split; [reflexivity|]. exact Hstore.
  - unfold Api.item. rewrite Hid, Hci, Htask, Hkey, Hout, Hstore, Hrej.
    eexists _, _. split; [reflexivity|]. exact Hstore.
Qed.

(** C3. A bot's report on a task of which the run result records another bot
    is refused with an HTTP error, and the datastore stays as it was: the error
    report of [BotTaskErrorHandler.post] with status 400, the results posted to
    [ResultHandler.post] with status 404, and the update of
    [BotTaskUpdateHandler.post] with status 400 whenever the update pipeline
    rejects it, as it does for the bot that does not own the task. *)
Theorem report_of_foreign_bot_is_rejected :
  (forall request w bot_id task_id key run_result,
     request !! "id"%string = Some bot_id ->
     request !! "task_id"%string = Some task_id ->
     unpack_run_result_key task_id = Some key ->
     Api.run_results (Api.store w) !! key = Some run_result ->
     py_ne_str bot_id (Api.run_bot_id run_result) = true ->
     exists w' msg,
       BotTaskErrorHandler_post request w = (w', Abort 400 msg)
       /\ Api.store w' = Api.store w)
  /\ (forall r id x result_string ds key run_result,
        unpack_legacy r = Some key ->
        Frontend.run_results ds !! key = Some run_result ->
        id <> Frontend.run_bot_id run_result ->
        exists msg,
          ResultHandler_post r id x result_string ds = (ds, Abort 404 msg))
  /\ (forall commits request w bot_id command_index task_id key output e,
        request !! "id"%string = Some bot_id ->
        request !! "command_index"%string = Some command_index ->
        request !! "task_id"%string = Some task_id ->
        unpack_run_result_key task_id = Some key ->
        Api.get_output encode_utf8 request = Some output ->
        bot_update_task
          (Api.mkTaskUpdate key bot_id command_index output
             (request !! "output_chunk_start"%string)
             (request !! "exit_code"%string) (request !! "duration"%string))
          (Api.store w) = inl e ->
        exists w' msg,
          BotTaskUpdateHandler_post commits request w = (w', Abort 400 msg)
          /\ Api.store w' = Api.store w).
Proof.
  split; [|split].
  - apply BotTaskErrorHandler_post_foreign_bot.
  - apply ResultHandler_post_foreign_bot.
  - apply BotTaskUpdateHandler_post_rejected.
Qed.

End Reports.

(** bot7 reports on the task that bot9 runs, on each of the three paths. *)
Lemma report_of_bot7_is_rejected :
  (exists w' msg,
     Api.BotTaskErrorHandler_post SampleReport.show_keys SampleReport.str
       SampleReport.unpack SampleReport.bot_kill_task
       SampleReport.error_of_bot7 SampleReport.server1 = (w', Abort 400 msg)
     /\ Api.store w' = Api.store SampleReport.server1)
  /\ (exists msg,
        Frontend.ResultHandler_post Sample.unpack SampleReport.legacy_update
          "1" "bot7" (Some [0]) "out" Sample.completed_store
        = (Sample.completed_store, Abort 404 msg))
  /\ (exists w' msg,
        Api.BotTaskUpdateHandler_post SampleReport.show_keys
          SampleReport.unpack SampleReport.refuse id [] 
          SampleReport.update_of_bot7 SampleReport.server1
        = (w', Abort 400 msg)
        /\ Api.store w' = Api.store SampleReport.server1).
Proof.
  destruct (report_of_foreign_bot_is_rejected Sample.unpack
              SampleReport.legacy_update SampleReport.show_keys
              SampleReport.str SampleReport.unpack SampleReport.refuse
              SampleReport.bot_kill_task id) as (Herror & Hlegacy & Hupdate).
  split; [|split].
  - apply (Herror SampleReport.error_of_bot7 SampleReport.server1
             (PyStr "bot7") (PyStr "1") 1
             (Api.mkTaskRunResult RUNNING "bot9" [] 10)); reflexivity.
  - apply (Hlegacy "1"%string "bot7"%string (Some [0]) "out"%string
             Sample.completed_store 1 Sample.run_result1);
      first [ reflexivity | discriminate ].
  - apply (Hupdate [] SampleReport.update_of_bot7 SampleReport.server1
             (PyStr "bot7") (PyInt 0) (PyStr "1") 1 None "wrong bot"%string);
      reflexivity.
Defined.

(** * The poll protocol *)

Section PollProperties.

Variable duration : Type.
Variable world : Type.
Variable ereporter2_log_request : string -> string -> world -> world.
Variable get_bot_version : string -> string.
Variable dimensions_powerset_count : gmap string pyval -> Z.
Variable MAX_DIMENSIONS : Z.
Variable stats_add_entry : pyval -> gmap string pyval -> world -> world.
Variable tag_bot_seen : Api.bot_seen -> world -> world.
Variable should_restart_bot :
  pyval -> gmap string pyval -> gmap string pyval -> world -> bool * string.
Variable bot_reap_task :
  gmap string pyval -> pyval -> pyval -> world -> Api.reaped * world.
Variable exponential_backoff : pyval -> duration.
Variable get_versioned_hosturl : string.
Variable pack_run_result_key : Z -> string.
Variable show_keys : gset string -> string.

Local Abbreviation poll :=
  (Api.BotPollHandler_post duration world ereporter2_log_request
     get_bot_version dimensions_powerset_count MAX_DIMENSIONS stats_add_entry
     tag_bot_seen should_restart_bot bot_reap_task exponential_backoff
     get_versioned_hosturl pack_run_result_key show_keys).
Local Abbreviation right_version := (Api.runs_right_version get_bot_version).
Local Abbreviation check_dimensions :=
  (Api.check_dimensions world ereporter2_log_request dimensions_powerset_count
     MAX_DIMENSIONS).
Local Abbreviation sleep := (Api._cmd_sleep duration exponential_backoff).
Local Abbreviation run :=
  (Api._cmd_run duration get_versioned_hosturl pack_run_result_key).
Local Abbreviation logged_keys :=
  (Api.logged_keys world ereporter2_log_request show_keys).
Local Abbreviation logged :=
  (Api.logged world ereporter2_log_request show_keys).
Local Abbreviation quarantine_of :=
  (Api.quarantine_of world ereporter2_log_request dimensions_powerset_count
     MAX_DIMENSIONS show_keys).
Local Abbreviation tagged :=
  (Api.tagged world ereporter2_log_request dimensions_powerset_count
     MAX_DIMENSIONS stats_add_entry tag_bot_seen show_keys).

Lemma difference_empty (X Y : gset string) : X ∖ Y = ∅ <-> X ⊆ Y.
Proof.
  split.
  - intros H x Hx. destruct (decide (x ∈ Y)) as [|Hn]; [assumption|].
    assert (Hd : x ∈ X ∖ Y) by (apply elem_of_difference; auto).
    rewrite H in Hd. exfalso. exact (not_elem_of_empty x Hd).
  - intros H. apply leibniz_equiv. intros x. split.
    + intros [Hx Hn]%elem_of_difference. exfalso. auto.
    + intros Hx. exfalso. exact (not_elem_of_empty x Hx).
Qed.

(** The message on the keys is set exactly when a key is superfluous or
    missing. *)
Lemma log_unexpected_subset_keys_msg W (log : string -> string -> W -> W)
    expected minimum actual source name w :
  Api.msg_set
    (Api.log_unexpected_subset_keys W log show_keys expected minimum actual
       source name w).1
  = negb (bool_decide (actual ⊆ expected) && bool_decide (minimum ⊆ actual)).
Proof.
  unfold Api.log_unexpected_subset_keys.
  destruct (decide (actual ⊆ expected)) as [Ha|Ha];
    destruct (decide (minimum ⊆ actual)) as [Hm|Hm].
  - rewrite (bool_decide_eq_false_2 (actual ∖ expected ≠ ∅)),
      (bool_decide_eq_false_2 (minimum ∖ actual ≠ ∅)).
    + rewrite !bool_decide_eq_true_2 by assumption. reflexivity.
    + intros H. apply H, difference_empty, Hm.
    + intros H. apply H, difference_empty, Ha.
  - rewrite (bool_decide_eq_true_2 (minimum ∖ actual ≠ ∅)), orb_true_r.
    + rewrite (bool_decide_eq_false_2 (minimum ⊆ actual)) by assumption.
      rewrite andb_false_r. reflexivity.
    + intros H. apply Hm, difference_empty, H.
  - rewrite (bool_decide_eq_true_2 (actual ∖ expected ≠ ∅)).
    + rewrite (bool_decide_eq_false_2 (actual ⊆ expected)) by assumption.
      reflexivity.
    + intros H. apply Ha, difference_empty, H.
  - rewrite (bool_decide_eq_true_2 (actual ∖ expected ≠ ∅)).
    + rewrite (bool_decide_eq_false_2 (actual ⊆ expected)) by assumption.
      reflexivity.
    + intros H. apply Ha, difference_empty, H.
Qed.

(** The test the handler makes on the keys and the version: the answer is
    [update] exactly when the poll does not pass for the right version. *)
Lemma update_test self request w :
  Api.msg_set
    (Api.log_unexpected_subset_keys world ereporter2_log_request show_keys
       Api.ACCEPTED_KEYS Api.EXPECTED_KEYS (dom request) "bot" "keys" w).1
  || py_ne_str (Api.version_entry request)
       (get_bot_version (Api.host_url self))
  = negb (right_version self request).
Proof.
  rewrite log_unexpected_subset_keys_msg. unfold Api.runs_right_version.
  destruct (bool_decide (_ ⊆ Api.ACCEPTED_KEYS)),
    (bool_decide (Api.EXPECTED_KEYS ⊆ _)), (py_ne_str _ _);
    reflexivity.
Qed.

(** What a body that can be read holds. *)
Lemma reads_inr request dimensions bot_id :
  Api.reads request = inr (dimensions, bot_id) ->
  (exists state_keys, frozenset (Api.state_entry request) = Some state_keys)
  /\ Api.dimensions_entry request = PyDict dimensions
  /\ Api.get_bot_id dimensions = inr bot_id.
Proof.
  unfold Api.reads.
  destruct (frozenset _) as [state_keys|]; [|discriminate].
  destruct (Api.dimensions_entry request) as [| | | | |d]; try discriminate.
  destruct (Api.get_bot_id d) as [e|b] eqn:Hid; [discriminate|].
  intros [= <- <-]. eauto.
Qed.

Lemma reads_dimensions_of request dimensions bot_id :
  Api.reads request = inr (dimensions, bot_id) ->
  Api.dimensions_of request = dimensions /\ Api.bot_id_of request = bot_id.
Proof.
  intros (_ & Hd & Hid)%reads_inr. unfold Api.bot_id_of, Api.dimensions_of.
  rewrite Hd, Hid. split; reflexivity.
Qed.

Lemma state_entry_state_of request state :
  Api.state_entry request = PyDict state -> Api.state_of request = state.
Proof. unfold Api.state_of. intros ->. reflexivity. Qed.

Ltac poll_start self request w :=
  unfold Api.BotPollHandler_post;
  let H := fresh "Htest" in
  pose proof (update_test self request w) as H;
  unfold Api.quarantine_of, Api.tagged, Api.seen, Api.logged, Api.logged_keys,
    Api.sleep_streak_of in *;
  match goal with
  | |- context [Api.log_unexpected_subset_keys ?W ?l ?s ?a ?e ?k ?x ?y w] =>
    destruct (Api.log_unexpected_subset_keys W l s a e k x y w) as [msg w1]
  end;
  cbn [fst snd] in *.

Ltac poll_read Hreads :=
  let Hkeys := fresh "Hkeys" in
  let Hd := fresh "Hd" in
  let Hid := fresh "Hid" in
  let Hof := fresh "Hof" in
  pose proof (reads_dimensions_of _ _ _ Hreads) as Hof;
  destruct Hof as [Hof1 Hof2];
  apply reads_inr in Hreads as ([state_keys Hkeys] & Hd & Hid);
  rewrite ?Hof1, ?Hof2 in *; rewrite Hkeys, Hd, Hid in *;
  match goal with
  | |- context [Api.log_missing_keys ?W ?l ?s ?a ?k ?x ?y ?w] =>
    destruct (Api.log_missing_keys W l s a k x y w) as [msg2 w2]
  end;
  cbn [fst snd] in *.

(** The paths of the handler, one lemma each. *)
Lemma poll_unreadable self request w e :
  Api.reads request = inl e ->
  poll self request w = (logged request w, Abort 500 e).
Proof.
  intros Hreads. poll_start self request w. unfold Api.reads in Hreads.
  destruct (frozenset _) as [state_keys|];
    [|injection Hreads as <-; reflexivity].
  destruct (Api.log_missing_keys _ _ _ _ _ _ _ w1) as [msg2 w2].
  cbn [fst snd].
  destruct (Api.dimensions_entry request) as [| | | | |d];
    try (injection Hreads as <-; reflexivity).
  destruct (Api.get_bot_id d) as [e'|b]; [|discriminate].
  injection Hreads as <-. reflexivity.
Qed.

Lemma poll_update self request w dimensions bot_id :
  Api.reads request = inr (dimensions, bot_id) ->
  right_version self request = false ->
  poll self request w
  = (logged request w,
     Send (Api.CmdUpdate duration (get_bot_version (Api.host_url self)))).
Proof.
  intros Hreads Hv. poll_start self request w. poll_read Hreads.
  rewrite Htest, Hv. reflexivity.
Qed.

Lemma poll_no_state self request w dimensions bot_id :
  Api.reads request = inr (dimensions, bot_id) ->
  right_version self request = true ->
  (forall state, Api.state_entry request <> PyDict state) ->
  poll self request w = (logged request w, Abort 500 "AttributeError").
Proof.
  intros Hreads Hv Hstate. poll_start self request w. poll_read Hreads.
  rewrite Htest, Hv. cbn [negb].
  destruct (Api.state_entry request) as [| | | | |state]; try reflexivity.
  exfalso. exact (Hstate state eq_refl).
Qed.

Lemma poll_no_id self request w dimensions bot_id state :
  Api.reads request = inr (dimensions, bot_id) ->
  right_version self request = true ->
  Api.state_entry request = PyDict state ->
  truthy bot_id = false ->
  poll self request w
  = (logged request w,
     Send (sleep (Api.sleep_streak_of request) (PyBool true))).
Proof.
  intros Hreads Hv Hstate Hfalse.
  pose proof (state_entry_state_of _ _ Hstate) as Hs.
  poll_start self request w. poll_read Hreads.
  rewrite Htest, Hv, Hstate, Hfalse, Hs. reflexivity.
Qed.

Lemma poll_quarantined self request w dimensions bot_id state :
  Api.reads request = inr (dimensions, bot_id) ->
  right_version self request = true ->
  Api.state_entry request = PyDict state ->
  truthy bot_id = true ->
  truthy (quarantine_of request w) = true ->
  poll self request w
  = (tagged self request w,
     Send (sleep (Api.sleep_streak_of request) (quarantine_of request w))).
Proof.
  intros Hreads Hv Hstate Htrue.
  pose proof (state_entry_state_of _ _ Hstate) as Hs.
  poll_start self request w. poll_read Hreads.
  rewrite Htest, Hv, Hstate, Htrue, Hs.
  cbn [negb]. destruct (check_dimensions _ _ w2) as [q w3]. cbn [fst snd].
  intros Hq. rewrite Hq. reflexivity.
Qed.


Lemma poll_reap self request w dimensions bot_id state message :
  Api.reads request = inr (dimensions, bot_id) ->
  right_version self request = true ->
  Api.state_entry request = PyDict state ->
  truthy bot_id = true ->
  truthy (quarantine_of request w) = false ->
  should_restart_bot bot_id request state (tagged self request w)
  = (false, message) ->
  poll self request w
  = match
      bot_reap_task dimensions bot_id (Api.version_of request)
        (tagged self request w)
    with
    | (Api.DeadlineExceededError, w6) => (w6, Abort 500 "Deadline")
    | (Api.Reaped None, w6) =>
      (w6, Send (sleep (Api.sleep_streak_of request) (PyBool false)))
    | (Api.Reaped (Some (task, run_result_key)), w6) =>
      (w6, Send (run task run_result_key bot_id))
    end.
Proof.
  intros Hreads Hv Hstate Htrue.
  pose proof (state_entry_state_of _ _ Hstate) as Hs.
  poll_start self request w. poll_read Hreads.
  rewrite Htest, Hv, Hstate, Htrue, Hs.
  cbn [negb]. destruct (check_dimensions _ _ w2) as [q w3]. cbn [fst snd].
  intros Hq Hr. rewrite Hq in *. cbn [negb] in *. rewrite Hr. reflexivity.
Qed.

(** The test on the dimensions quarantines the bot that advertises too
    many. *)
Lemma check_dimensions_too_many dimensions q w :
  MAX_DIMENSIONS < dimensions_powerset_count dimensions ->
  truthy (check_dimensions dimensions q w).1 = true.
Proof.
  intros Hmax. unfold Api.check_dimensions.
  destruct (truthy q) eqn:Hq; cbn [negb]; [exact Hq|].
  destruct (Api.dimensions_are_valid dimensions); cbn [negb]; [|reflexivity].
  rewrite (proj2 (Z.ltb_lt _ _) Hmax). reflexivity.
Qed.

(** A quarantined bot is tagged as seen and nothing else: no entry is added to
    the statistics. *)
Lemma tagged_quarantined self request w :
  truthy (quarantine_of request w) = true ->
  tagged self request w
  = tag_bot_seen (Api.seen self request (quarantine_of request w))
      (check_dimensions (Api.dimensions_of request)
         (Api.get_quarantined (Api.dimensions_of request))
         (logged request w)).2.
Proof.
  unfold Api.tagged, Api.quarantine_of. cbv zeta. intros ->. reflexivity.
Qed.

(** A poll whose version is not the expected one does not pass for the right
    version. *)
Lemma other_version_is_not_right self request :
  py_ne_str (Api.version_entry request) (get_bot_version (Api.host_url self))
  = true ->
  right_version self request = false.
Proof.
  intros Hv. unfold Api.runs_right_version. rewrite Hv. apply andb_false_r.
Qed.


(** C7, as the code has it. The claim is that every poll of a bot which runs
    the right version and advertises dimensions whose powerset count exceeds
    [MAX_DIMENSIONS] is quarantined and told to sleep. That holds of the poll
    whose body can be read and whose state is a dictionary: it is answered
    with the command [sleep] and a quarantine that is set; the bot that has an
    id is tagged as seen with that quarantine, and neither counted as active
    nor offered a task. The handler reads the sleep streak in the state before
    it looks at the dimensions, so a poll whose state is no dictionary is
    answered with status 500, as is the one whose body cannot be read, and the
    bot is not quarantined. *)
Theorem poll_quarantines_too_many_dimensions self request w dimensions :
  right_version self request = true ->
  Api.dimensions_entry request = PyDict dimensions ->
  MAX_DIMENSIONS < dimensions_powerset_count dimensions ->
  match Api.reads request, Api.state_entry request with
  | inr (_, bot_id), PyDict _ =>
    exists w' q,
      poll self request w
      = (w', Send (sleep (Api.sleep_streak_of request) q))
      /\ truthy q = true
      /\ (truthy bot_id = false -> w' = logged request w)
      /\ (truthy bot_id = true ->
          w' = tag_bot_seen (Api.seen self request q)
                 (check_dimensions dimensions (Api.get_quarantined dimensions)
                    (logged request w)).2
          /\ Api.seen_quarantined (Api.seen self request q) = q)
  | inr _, _ =>
    poll self request w = (logged request w, Abort 500 "AttributeError")
  | inl e, _ => poll self request w = (logged request w, Abort 500 e)
  end.
Proof.
  intros Hv Hdims Hmax.
  destruct (Api.reads request) as [e|[dimensions' bot_id]] eqn:Hreads.
  { destruct (Api.state_entry request); apply poll_unreadable, Hreads. }
  assert (Hd : Api.dimensions_of request = dimensions)
    by (unfold Api.dimensions_of; rewrite Hdims; reflexivity).
  assert (Hq : truthy (quarantine_of request w) = true)
    by (unfold Api.quarantine_of; rewrite Hd;
        apply check_dimensions_too_many, Hmax).
  destruct (Api.state_entry request) as [| | | | |state] eqn:Hstate;
    try (apply (poll_no_state _ _ _ _ _ Hreads Hv); rewrite Hstate;
         discriminate).
  destruct (truthy bot_id) eqn:Hid.
  - exists (tagged self request w), (quarantine_of request w).
    split; [exact (poll_quarantined _ _ _ _ _ _ Hreads Hv Hstate Hid Hq)|].
    split; [exact Hq|]. split; [discriminate|]. intros _.
    rewrite (tagged_quarantined _ _ _ Hq), Hd. split; reflexivity.
  - exists (logged request w), (PyBool true).
    split; [exact (poll_no_id _ _ _ _ _ _ Hreads Hv Hstate Hid)|].
    split; [reflexivity|]. split; [reflexivity|discriminate].
Qed.

(** C8, which fails on the code. The claim is that a bot which advertises no
    id is told to sleep and never offered a task. The handler reads the id as
    [(dimensions.get('id') or ['unknown'])[0]], so the bot without the entry
    [id] polls as the bot [unknown]: when it is not quarantined, need not
    restart and a task is reaped for it, the answer is the command [run]. *)
Theorem poll_without_id_is_offered_a_task self request w dimensions state
    message task key w' :
  right_version self request = true ->
  Api.dimensions_entry request = PyDict dimensions ->
  dimensions !! "id"%string = None ->
  Api.state_entry request = PyDict state ->
  truthy (quarantine_of request w) = false ->
  should_restart_bot (PyStr "unknown") request state (tagged self request w)
  = (false, message) ->
  bot_reap_task dimensions (PyStr "unknown") (Api.version_of request)
    (tagged self request w) = (Api.Reaped (Some (task, key)), w') ->
  poll self request w = (w', Send (run task key (PyStr "unknown"))).
Proof.
  intros Hv Hdims Hid Hstate Hq Hrestart Hreap.
  assert (Hreads : Api.reads request = inr (dimensions, PyStr "unknown")).
  { unfold Api.reads, Api.get_bot_id. rewrite Hstate, Hdims, Hid.
    reflexivity. }
  rewrite (poll_reap _ _ _ _ _ _ message Hreads Hv Hstate eq_refl Hq Hrestart).
  rewrite Hreap. reflexivity.
Qed.


(** *** The tests on the keys *)

(** X1. [log_unexpected_subset_keys] returns [None] exactly when every actual
    key is expected and every required key is there, and then it logs nothing:
    the server's state is left as it was. Otherwise it returns a message, and
    that very message is what it logs, once, under the source given. *)
Theorem log_unexpected_subset_keys_is_silent_on_good_keys W
    (log : string -> string -> W -> W) expected minimum actual source name w :
  let r :=
    Api.log_unexpected_subset_keys W log show_keys expected minimum actual
      source name w in
  (r.1 = None <-> actual ⊆ expected /\ minimum ⊆ actual)
  /\ (r.1 = None -> r.2 = w)
  /\ (forall message, r.1 = Some message -> r.2 = log source message w).
Proof.
  cbv zeta. unfold Api.log_unexpected_subset_keys.
  destruct (decide (actual ∖ expected = ∅)) as [Ha|Ha];
    destruct (decide (minimum ∖ actual = ∅)) as [Hm|Hm].
  - rewrite (bool_decide_eq_false_2 (actual ∖ expected ≠ ∅)) by tauto.
    rewrite (bool_decide_eq_false_2 (minimum ∖ actual ≠ ∅)) by tauto.
    cbn. repeat split; try discriminate.
    + apply difference_empty, Ha.
    + apply difference_empty, Hm.
  - rewrite (bool_decide_eq_true_2 (minimum ∖ actual ≠ ∅)) by assumption.
    rewrite orb_true_r. cbn [fst snd]. repeat split; try discriminate.
    + intros [_ H]. exfalso. apply Hm, difference_empty, H.
    + intros message [= <-]. reflexivity.
  - rewrite (bool_decide_eq_true_2 (actual ∖ expected ≠ ∅)) by assumption.
    cbn [orb fst snd]. repeat split; try discriminate.
    + intros [H _]. exfalso. apply Ha, difference_empty, H.
    + intros message [= <-]. reflexivity.
  - rewrite (bool_decide_eq_true_2 (actual ∖ expected ≠ ∅)) by assumption.
    cbn [orb fst snd]. repeat split; try discriminate.
    + intros [H _]. exfalso. apply Ha, difference_empty, H.
    + intros message [= <-]. reflexivity.
Qed.

(** X2. [log_unexpected_keys] returns [None] exactly when the actual keys are
    the expected keys, and [log_missing_keys] exactly when every required key
    is there: the second never complains about a key that is superfluous. *)
Theorem log_unexpected_keys_is_silent_on_equal_keys W
    (log : string -> string -> W -> W) expected actual source name w :
  ((Api.log_unexpected_keys W log show_keys expected actual source name w).1
   = None <-> actual = expected)
  /\ ((Api.log_missing_keys W log show_keys expected actual source name w).1
      = None <-> expected ⊆ actual).
Proof.
  split.
  - unfold Api.log_unexpected_keys, Api.log_unexpected_subset_keys.
    destruct (decide (actual ∖ expected = ∅)) as [Ha|Ha];
      destruct (decide (expected ∖ actual = ∅)) as [Hm|Hm].
    + rewrite (bool_decide_eq_false_2 (actual ∖ expected ≠ ∅)) by tauto.
      rewrite (bool_decide_eq_false_2 (expected ∖ actual ≠ ∅)) by tauto.
      cbn. split; [|reflexivity]. intros _.
      apply difference_empty in Ha, Hm. apply leibniz_equiv. intros x.
      split; [apply Ha|apply Hm].
    + rewrite (bool_decide_eq_true_2 (expected ∖ actual ≠ ∅)) by assumption.
      rewrite orb_true_r. cbn [fst]. split; [discriminate|].
      intros ->. exfalso. apply Hm, difference_empty. reflexivity.
    + rewrite (bool_decide_eq_true_2 (actual ∖ expected ≠ ∅)) by assumption.
      cbn [orb fst]. split; [discriminate|].
      intros ->. exfalso. apply Ha, difference_empty. reflexivity.
    + rewrite (bool_decide_eq_true_2 (actual ∖ expected ≠ ∅)) by assumption.
      cbn [orb fst]. split; [discriminate|].
      intros ->. exfalso. apply Ha, difference_empty. reflexivity.
  - unfold Api.log_missing_keys.
    destruct (decide (expected ∖ actual = ∅)) as [Hm|Hm].
    + rewrite (bool_decide_eq_false_2 (expected ∖ actual ≠ ∅)) by tauto.
      cbn [fst]. split; [|reflexivity]. intros _. apply difference_empty, Hm.
    + rewrite (bool_decide_eq_true_2 (expected ∖ actual ≠ ∅)) by assumption.
      cbn [fst]. split; [discriminate|].
      intros H. exfalso. apply Hm, difference_empty, H.
Qed.

(** *** The bot that is put to sleep *)

(** A value that is no list of unicode strings makes the dimensions
    invalid. *)
Lemma dimensions_are_valid_false dimensions k v :
  dimensions !! k = Some v ->
  (forall values,
     v = PyList values -> exists x, x ∈ values /\ is_unicode x = false) ->
  Api.dimensions_are_valid dimensions = false.
Proof.
  intros Hk Hv. unfold Api.dimensions_are_valid.
  apply not_true_is_false. intros Hall.
  rewrite forallb_forall in Hall.
  assert (Hin : In (k, v) (map_to_list dimensions))
    by (apply list_elem_of_In, elem_of_map_to_list, Hk).
  specialize (Hall _ Hin). cbn [snd] in Hall.
  destruct v as [| | | |values|]; try discriminate.
  destruct (Hv values eq_refl) as (x & Hx & Hu).
  rewrite forallb_forall in Hall.
  specialize (Hall x (proj1 (list_elem_of_In _ _) Hx)). congruence.
Qed.

(** X3. A poll of a bot that runs the right version and whose state is a
    dictionary, and whose id is an entry that is true with a first item that
    is false, as the empty string in a list is, is answered with [sleep] and
    [quarantined: True], and nothing is done for the bot: the server's state
    holds the logs on the keys and nothing else, so the bot is neither tagged
    as seen, nor counted as active, nor offered a task. *)
Theorem poll_with_empty_id_sleeps self request w dimensions state entry
    bot_id :
  right_version self request = true ->
  Api.state_entry request = PyDict state ->
  Api.dimensions_entry request = PyDict dimensions ->
  dimensions !! "id"%string = Some entry ->
  truthy entry = true ->
  item0 entry = inr bot_id ->
  truthy bot_id = false ->
  poll self request w
  = (logged request w,
     Send (sleep (Api.sleep_streak_of request) (PyBool true))).
Proof.
  intros Hv Hstate Hdims Hid Htrue Hitem Hfalse.
  assert (Hreads : Api.reads request = inr (dimensions, bot_id)).
  { unfold Api.reads, Api.get_bot_id. rewrite Hstate, Hdims, Hid.
    cbn [default from_option frozenset id]. rewrite Htrue, Hitem.
    reflexivity. }
  exact (poll_no_id _ _ _ _ _ _ Hreads Hv Hstate Hfalse).
Qed.

(** X4. A poll of a bot that runs the right version, whose body can be read
    and whose state is a dictionary, that has an id and does not quarantine
    itself, but advertises a dimension whose value is no list of unicode
    strings, is quarantined by the server: the error
    [Invalid dimensions on bot] is logged, the bot is tagged as seen with
    [quarantined] true and told to sleep; it is neither counted as active nor
    offered a task. *)
Theorem poll_quarantines_invalid_dimensions self request w dimensions bot_id
    state k v :
  right_version self request = true ->
  Api.reads request = inr (dimensions, bot_id) ->
  Api.state_entry request = PyDict state ->
  truthy bot_id = true ->
  truthy (Api.get_quarantined dimensions) = false ->
  dimensions !! k = Some v ->
  (forall values,
     v = PyList values -> exists x, x ∈ values /\ is_unicode x = false) ->
  poll self request w
  = (tag_bot_seen (Api.seen self request (PyBool true))
       (ereporter2_log_request "bot" "Invalid dimensions on bot"
          (logged request w)),
     Send (sleep (Api.sleep_streak_of request) (PyBool true))).
Proof.
  intros Hv Hreads Hstate Hid Hself Hk Hinvalid.
  destruct (reads_dimensions_of _ _ _ Hreads) as [Hd _].
  assert (Hc : check_dimensions dimensions (Api.get_quarantined dimensions)
                 (logged request w)
               = (PyBool true,
                  ereporter2_log_request "bot" "Invalid dimensions on bot"
                    (logged request w))).
  { unfold Api.check_dimensions. rewrite Hself. cbn [negb].
    rewrite (dimensions_are_valid_false _ _ _ Hk Hinvalid). reflexivity. }
  assert (Hq : quarantine_of request w = PyBool true)
    by (unfold Api.quarantine_of; rewrite Hd, Hc; reflexivity).
  rewrite (poll_quarantined _ _ _ _ _ _ Hreads Hv Hstate Hid)
    by (rewrite Hq; reflexivity).
  rewrite tagged_quarantined by (rewrite Hq; reflexivity).
  rewrite Hq, Hd, Hc. reflexivity.
Qed.

(** X5. A poll of a bot that runs the right version, whose body can be read
    and whose state is a dictionary, that has an id and quarantines itself
    (its dimensions hold a [quarantined] entry that is true) is taken at its
    word: the dimensions are not checked and nothing is logged about them, the
    bot is tagged as seen with the quarantine it sent and told to sleep with
    it; it is neither counted as active nor offered a task. *)
Theorem poll_of_self_quarantined_bot_sleeps self request w dimensions bot_id
    state :
  right_version self request = true ->
  Api.reads request = inr (dimensions, bot_id) ->
  Api.state_entry request = PyDict state ->
  truthy bot_id = true ->
  truthy (Api.get_quarantined dimensions) = true ->
  poll self request w
  = (tag_bot_seen (Api.seen self request (Api.get_quarantined dimensions))
       (logged request w),
     Send (sleep (Api.sleep_streak_of request)
             (Api.get_quarantined dimensions))).
Proof.
  intros Hv Hreads Hstate Hid Hself.
  destruct (reads_dimensions_of _ _ _ Hreads) as [Hd _].
  assert (Hc : check_dimensions dimensions (Api.get_quarantined dimensions)
                 (logged request w)
               = (Api.get_quarantined dimensions, logged request w))
    by (unfold Api.check_dimensions; rewrite Hself; reflexivity).
  assert (Hq : quarantine_of request w = Api.get_quarantined dimensions)
    by (unfold Api.quarantine_of; rewrite Hd, Hc; reflexivity).
  rewrite (poll_quarantined _ _ _ _ _ _ Hreads Hv Hstate Hid)
    by (rewrite Hq; exact Hself).
  rewrite tagged_quarantined by (rewrite Hq; exact Hself).
  rewrite Hq, Hd, Hc. reflexivity.
Qed.

(** *** The handshake *)

(** X6. The handshake sends no command. It reads the host name in the state
    and the id in the dimensions, so a body whose state is no dictionary, or
    whose dimensions or id cannot be read, ends the request with status 500.
    Any other body is answered with the server's current bot version, whatever
    its keys and its version, and the bot is tagged as seen exactly when its
    id is true. The bot that sent another version learns it at its next poll
    with that body, which is answered with [update] to the very version the
    handshake gave. *)
Theorem handshake_gives_the_version_the_poll_updates_to
    (get_app_version generate_xsrf_token : string) self request w w' :
  let handshake :=
    Api.BotHandshakeHandler_post world ereporter2_log_request get_bot_version
      tag_bot_seen show_keys get_app_version generate_xsrf_token self request
      w in
  let w1 :=
    (Api.log_unexpected_subset_keys world ereporter2_log_request show_keys
       Api.HANDSHAKE_ACCEPTED_KEYS Api.HANDSHAKE_EXPECTED_KEYS (dom request)
       "bot" "keys" w).2 in
  match Api.state_entry request, Api.reads request with
  | PyDict _, inr (_, bot_id) =>
    exists out,
      handshake.2 = Send out
      /\ Api.out_bot_version out = get_bot_version (Api.host_url self)
      /\ (truthy bot_id = false -> handshake.1 = w1)
      /\ (truthy bot_id = true ->
          exists b,
            handshake.1 = tag_bot_seen b w1
            /\ Api.seen_bot_id b = bot_id
            /\ Api.seen_version b = Api.version_of request)
      /\ (py_ne_str (Api.version_entry request) (Api.out_bot_version out)
          = true ->
          (poll self request w').2
          = Send (Api.CmdUpdate duration (Api.out_bot_version out)))
  | PyDict _, inl e => handshake = (w1, Abort 500 e)
  | _, _ => handshake = (w1, Abort 500 "AttributeError")
  end.
Proof.
  cbv zeta. unfold Api.BotHandshakeHandler_post.
  destruct (Api.log_unexpected_subset_keys _ _ _ _ _ _ _ _ w) as [msg w1].
  cbn [fst snd].
  destruct (Api.state_entry request) as [| | | | |state] eqn:Hstate;
    try (destruct (Api.reads request); reflexivity).
  destruct (Api.reads request) as [e|[dimensions bot_id]] eqn:Hreads.
  - unfold Api.reads in Hreads. rewrite Hstate in Hreads.
    cbn [frozenset] in Hreads.
    destruct (Api.dimensions_entry request) as [| | | | |d];
      try (injection Hreads as <-; reflexivity).
    destruct (Api.get_bot_id d) as [e'|b]; [|discriminate].
    injection Hreads as <-. reflexivity.
  - pose proof Hreads as (_ & Hd & Hid)%reads_inr. rewrite Hd, Hid.
    eexists. split; [reflexivity|]. cbn [Api.out_bot_version].
    split; [reflexivity|].
    split; [intros ->; reflexivity|].
    split.
    + intros ->. eexists. split; [reflexivity|]. split; reflexivity.
    + intros Hv.
      rewrite (poll_update _ _ _ _ _ Hreads
                 (other_version_is_not_right _ _ Hv)).
      reflexivity.
Qed.

End PollProperties.

(** The poll of the bot whose id is the empty string is answered with [sleep],
    and the server keeps no trace of it. *)
Lemma poll_of_bot_with_empty_id_sleeps :
  SamplePoll.handler SamplePoll.self SampleSleep.poll_empty_id []
  = ([], Send (Api.CmdSleep Z 1 (PyBool true))).
Proof.
  unfold SamplePoll.handler.
  rewrite (poll_with_empty_id_sleeps Z SamplePoll.world
             SamplePoll.ereporter2_log_request SamplePoll.get_bot_version
             SamplePoll.dimensions_powerset_count 16
             SamplePoll.stats_add_entry SamplePoll.tag_bot_seen
             SamplePoll.should_restart_bot SamplePoll.bot_reap_task
             SamplePoll.exponential_backoff "https://host" pretty
             SampleReport.show_keys SamplePoll.self SampleSleep.poll_empty_id
             [] SampleSleep.empty_id SamplePoll.state0 (PyList [PyStr ""])
             (PyStr ""));
    reflexivity.
Defined.

(** The poll of the bot that advertises eight cores as a number is answered
    with [sleep]: the error is logged and the bot tagged as quarantined. *)
Lemma poll_of_bot_with_eight_cores_is_quarantined :
  SamplePoll.handler SamplePoll.self SampleSleep.poll_eight_cores []
  = (["log_request"; "tag_bot_seen quarantined"]%string,
     Send (Api.CmdSleep Z 1 (PyBool true))).
Proof.
  unfold SamplePoll.handler.
  rewrite (poll_quarantines_invalid_dimensions Z SamplePoll.world
             SamplePoll.ereporter2_log_request SamplePoll.get_bot_version
             SamplePoll.dimensions_powerset_count 16
             SamplePoll.stats_add_entry SamplePoll.tag_bot_seen
             SamplePoll.should_restart_bot SamplePoll.bot_reap_task
             SamplePoll.exponential_backoff "https://host" pretty
             SampleReport.show_keys SamplePoll.self
             SampleSleep.poll_eight_cores [] SampleSleep.eight_cores
             (PyStr "bot1") SamplePoll.state0 "cores" (PyList [PyInt 8]));
    try reflexivity.
  intros values [= <-]. exists (PyInt 8).
  split; [apply list_elem_of_singleton|]; reflexivity.
Defined.

(** The poll of the bot that says its disk is full is answered with [sleep] and
    that quarantine; nothing is logged. *)
Lemma poll_of_broken_bot_sleeps :
  SamplePoll.handler SamplePoll.self SampleSleep.poll_broken []
  = (["tag_bot_seen quarantined"]%string,
     Send (Api.CmdSleep Z 1 (PyList [PyStr "disk is full"]))).
Proof.
  unfold SamplePoll.handler.
  rewrite (poll_of_self_quarantined_bot_sleeps Z SamplePoll.world
             SamplePoll.ereporter2_log_request SamplePoll.get_bot_version
             SamplePoll.dimensions_powerset_count 16
             SamplePoll.stats_add_entry SamplePoll.tag_bot_seen
             SamplePoll.should_restart_bot SamplePoll.bot_reap_task
             SamplePoll.exponential_backoff "https://host" pretty
             SampleReport.show_keys SamplePoll.self SampleSleep.poll_broken []
             SampleSleep.broken (PyStr "bot1") SamplePoll.state0);
    reflexivity.
Defined.



(** The poll of bot1 with four operating systems, a powerset count of 32, is
    answered with [sleep] and a quarantine, and the bot is tagged as
    quarantined. *)
Lemma poll_many_is_quarantined :
  exists q,
    SamplePoll.handler SamplePoll.self SamplePoll.poll_many []
    = (["log_request"; "tag_bot_seen quarantined"]%string,
       Send (Api.CmdSleep Z 1 q))
    /\ truthy q = true.
Proof.
  destruct (poll_quarantines_too_many_dimensions Z SamplePoll.world
              SamplePoll.ereporter2_log_request SamplePoll.get_bot_version
              SamplePoll.dimensions_powerset_count 16
              SamplePoll.stats_add_entry SamplePoll.tag_bot_seen
              SamplePoll.should_restart_bot SamplePoll.bot_reap_task
              SamplePoll.exponential_backoff "https://host" pretty
              SampleReport.show_keys SamplePoll.self SamplePoll.poll_many []
              SamplePoll.many eq_refl eq_refl)
    as (w' & q & Hpoll & Hq & _ & Hseen);
    [ vm_compute; reflexivity | ].
  destruct (Hseen eq_refl) as [Hw' _].
  exists q. split; [|exact Hq].
  unfold SamplePoll.handler. rewrite Hpoll, Hw'.
  unfold SamplePoll.tag_bot_seen, Api.seen. cbn [Api.seen_quarantined].
  rewrite Hq. reflexivity.
Defined.

(** The claim of C7 fails: bot1 runs the right version and advertises four
    operating systems, a powerset count of 32, and its poll is not answered
    with [sleep], nor is the bot quarantined. Its state is the list of the
    keys a state is to have, which passes the test on the keys; the handler
    then reads the sleep streak in it, and the request ends with status
    500. *)
Lemma poll_with_listed_state_is_not_quarantined :
  Api.runs_right_version SamplePoll.get_bot_version SamplePoll.self
    SamplePoll.poll_many_listed = true
  /\ Api.dimensions_entry SamplePoll.poll_many_listed
     = PyDict SamplePoll.many
  /\ 16 < SamplePoll.dimensions_powerset_count SamplePoll.many
  /\ SamplePoll.handler SamplePoll.self SamplePoll.poll_many_listed []
     = ([], Abort 500 "AttributeError").
Proof.
  split; [reflexivity|]. split; [reflexivity|].
  split; [vm_compute; reflexivity|reflexivity].
Qed.

(** The poll of the bot that advertises no id is answered with [run]: task 1,
    for the bot [unknown]. *)
Lemma poll_no_id_runs_task1 :
  SamplePoll.handler SamplePoll.self SamplePoll.poll_no_id []
  = (["add_entry"; "tag_bot_seen"; "bot_reap_task"]%string,
     Send (Api.CmdRun Z
             (Api.mkManifest (PyStr "unknown") [["run"%string]] [] ∅
                "https://host" 3600 600 (pretty 1)))).
Proof.
  apply (poll_without_id_is_offered_a_task Z SamplePoll.world
           SamplePoll.ereporter2_log_request SamplePoll.get_bot_version
           SamplePoll.dimensions_powerset_count 16 SamplePoll.stats_add_entry
           SamplePoll.tag_bot_seen SamplePoll.should_restart_bot
           SamplePoll.bot_reap_task SamplePoll.exponential_backoff
           "https://host" pretty SampleReport.show_keys SamplePoll.self
           SamplePoll.poll_no_id [] SamplePoll.no_id SamplePoll.state0
           "running for too long" SamplePoll.task1 1);
    reflexivity.
Defined.



(** * The update of a task is written in one transaction *)

Lemma get_put (e : Api.entity) (ds : Api.datastore) :
  Api.get (Api.key_of e) (Api.put e ds) = Some e.
Proof.
  destruct e; cbn; rewrite lookup_insert_eq; reflexivity.
Qed.

Lemma get_put_other (key : Z + Z + Z * Z * Z) (e : Api.entity)
    (ds : Api.datastore) :
  key <> Api.key_of e -> Api.get key (Api.put e ds) = Api.get key ds.
Proof.
  intros Hne. destruct e as [k r|k r|k c], key as [[k'|k']|k']; cbn in *;
    try reflexivity; rewrite lookup_insert_ne; congruence.
Qed.

Lemma put_multi_snoc (entities : list Api.entity) (e : Api.entity)
    (ds : Api.datastore) :
  Api.put_multi (entities ++ [e]) ds = Api.put e (Api.put_multi entities ds).
Proof. unfold Api.put_multi. rewrite foldl_app. reflexivity. Qed.

(** After [put_multi], the datastore holds every entity of the list, when no
    two of them have the same key, and every other key is as it was. *)
Lemma put_multi_holds (entities : list Api.entity) (ds : Api.datastore) :
  NoDup (Api.key_of <$> entities) ->
  forall e, e ∈ entities ->
    Api.get (Api.key_of e) (Api.put_multi entities ds) = Some e.
Proof.
  induction entities as [|e' entities IH] using rev_ind; intros Hnd e He.
  - inversion He.
  - rewrite put_multi_snoc. rewrite fmap_app in Hnd.
    apply NoDup_app in Hnd as (Hnd & Hfresh & _).
    apply elem_of_app in He as [He | He%list_elem_of_singleton].
    + rewrite get_put_other; [apply IH; assumption|].
      intros Heq. apply (Hfresh (Api.key_of e)).
      * apply list_elem_of_fmap. eauto.
      * rewrite Heq. apply list_elem_of_singleton. reflexivity.
    + subst e'. apply get_put.
Qed.

Lemma put_multi_other (entities : list Api.entity) (ds : Api.datastore)
    (key : Z + Z + Z * Z * Z) :
  key ∉ Api.key_of <$> entities ->
  Api.get key (Api.put_multi entities ds) = Api.get key ds.
Proof.
  induction entities as [|e' entities IH] using rev_ind; intros Hkey.
  - reflexivity.
  - rewrite put_multi_snoc. rewrite fmap_app in Hkey.
    apply not_elem_of_app in Hkey as [Hkey Hlast].
    rewrite get_put_other; [apply IH, Hkey|].
    intros ->. apply Hlast, list_elem_of_singleton. reflexivity.
Qed.

(** What a transaction with one retry does with [ndb.put_multi]: the entities
    are all written when the puts and the commit of the first attempt go
    through, or when that commit meets contention and the puts and the commit
    of the second attempt go through; otherwise nothing is written, and no
    third attempt is made. *)
Lemma ndb_transaction_put_multi entities attempts ds :
  let first := Api.attempt_at attempts 0 in
  let second := Api.attempt_at attempts 1 in
  Api.ndb_transaction (fun fault => Api.ndb_put_multi fault entities) 1
    attempts ds
  = if Api.puts_through entities first then
      if Api.commit first then
        (Api.put_multi entities ds, Api.Committed, 1%nat)
      else if Api.puts_through entities second then
        if Api.commit second then
          (Api.put_multi entities ds, Api.Committed, 2%nat)
        else (ds, Api.TransactionFailedError, 2%nat)
      else (ds, Api.CallbackRaised, 2%nat)
    else (ds, Api.CallbackRaised, 1%nat).
Proof.
  cbv zeta. unfold Api.attempt_at, Api.puts_through, Api.ndb_put_multi.
  destruct attempts as [|[fault1 commit1] [|[fault2 commit2] attempts]];
    cbn [Api.ndb_transaction head tail default from_option lookup list_lookup
         Api.put_fault Api.commit id];
    repeat match goal with
           | |- context [match ?f with Some _ => _ | None => _ end] =>
             is_var f; destruct f
           | |- context [bool_decide ?P] => destruct (bool_decide P)
           | |- context [if ?c then _ else _] => is_var c; destruct c
           end;
    reflexivity.
Qed.

Section Updates.

Variable show_keys : gset string -> string.
Variable unpack_run_result_key : pyval -> option Z.
Variable bot_update_task :
  Api.task_update -> Api.datastore -> string + list Api.entity.
Variable encode_utf8 : string -> string.

Local Abbreviation BotTaskUpdateHandler_post :=
  (Api.BotTaskUpdateHandler_post show_keys unpack_run_result_key
     bot_update_task encode_utf8).

(** The update the handler hands to the pipeline, and what it does with the
    entities the pipeline gives. *)
Lemma BotTaskUpdateHandler_post_accepted attempts request w bot_id
    command_index task_id key output entities :
  dom request ⊆ Api.UPDATE_ACCEPTED_KEYS ->
  request !! "id"%string = Some bot_id ->
  request !! "command_index"%string = Some command_index ->
  request !! "task_id"%string = Some task_id ->
  unpack_run_result_key task_id = Some key ->
  Api.get_output encode_utf8 request = Some output ->
  bot_update_task
    (Api.mkTaskUpdate key bot_id command_index output
       (request !! "output_chunk_start"%string)
       (request !! "exit_code"%string) (request !! "duration"%string))
    (Api.store w) = inr entities ->
  BotTaskUpdateHandler_post attempts request w
  = let '(ds, ended, _) :=
      Api.ndb_transaction (fun fault => Api.ndb_put_multi fault entities) 1
        attempts (Api.store w) in
    match ended with
    | Api.Committed => (Api.with_store ds w, Send true)
    | Api.TransactionFailedError =>
      (Api.with_store ds w, Abort 500 "TransactionFailedError")
    | Api.CallbackRaised => (Api.with_store ds w, Abort 500 "Error")
    end.
Proof.
  intros Hkeys Hid Hci Htask Hkey Hout Hupdate.
  unfold Api.BotTaskUpdateHandler_post.
  pose proof (log_unexpected_subset_keys_msg show_keys Api.server
                Api.log_request Api.UPDATE_ACCEPTED_KEYS
                Api.UPDATE_REQUIRED_KEYS (dom request) "bot" "keys" w) as Hmsg.
  assert (Hw : (Api.log_unexpected_subset_keys Api.server Api.log_request
                  show_keys Api.UPDATE_ACCEPTED_KEYS Api.UPDATE_REQUIRED_KEYS
                  (dom request) "bot" "keys" w).2 = w).
  { unfold Api.log_unexpected_subset_keys.
    rewrite (bool_decide_eq_false_2 (dom request ∖ _ ≠ ∅)).
    - rewrite (bool_decide_eq_false_2 (_ ∖ dom request ≠ ∅)); [reflexivity|].
      intros H. apply H, difference_empty. unfold Api.UPDATE_REQUIRED_KEYS.
      intros x. rewrite !elem_of_union, !elem_of_singleton.
      intros [[->| ->]| ->]; apply elem_of_dom; eauto.
    - intros H. apply H, difference_empty, Hkeys. }
  destruct (Api.log_unexpected_subset_keys _ _ _ _ _ _ _ _ w) as [msg w1].
  cbn [fst snd] in *. subst w1. rewrite Hmsg.
  rewrite (bool_decide_eq_true_2 _ Hkeys).
  rewrite (bool_decide_eq_true_2 (Api.UPDATE_REQUIRED_KEYS ⊆ dom request)).
  2: { unfold Api.UPDATE_REQUIRED_KEYS.
       intros x. rewrite !elem_of_union, !elem_of_singleton.
       intros [[->| ->]| ->]; apply elem_of_dom; eauto. }
  cbn [andb negb]. unfold Api.item. rewrite Hid, Hci, Htask, Hkey, Hout.
  rewrite Hupdate. reflexivity.
Qed.

(** The handler leaves the datastore as it was and answers with an error, or
    leaves what the puts of all the entities the pipeline gave write and
    answers that the update is accepted. *)
Lemma BotTaskUpdateHandler_post_all_or_nothing attempts request w :
  let answered := BotTaskUpdateHandler_post attempts request w in
  (Api.store answered.1 = Api.store w /\ is_error answered.2 = true)
  \/ exists update entities,
       bot_update_task update (Api.store w) = inr entities
       /\ answered.2 = Send true
       /\ Api.store answered.1 = Api.put_multi entities (Api.store w).
Proof.
  cbv zeta. unfold Api.BotTaskUpdateHandler_post.
  pose proof (log_unexpected_subset_keys_store show_keys
                Api.UPDATE_ACCEPTED_KEYS Api.UPDATE_REQUIRED_KEYS (dom request)
                "bot" "keys" w) as Hstore.
  destruct (Api.log_unexpected_subset_keys _ _ _ _ _ _ _ _ w) as [msg w1].
  cbn [snd] in Hstore.
  destruct (Api.msg_set msg); [left; split; [exact Hstore|reflexivity]|].
  destruct (Api.item request "id") as [bot_id|];
    [|left; split; [exact Hstore|reflexivity]].
  destruct (Api.item request "command_index") as [command_index|];
    [|left; split; [exact Hstore|reflexivity]].
  destruct (Api.item request "task_id") as [task_id|];
    [|left; split; [exact Hstore|reflexivity]].
  destruct (unpack_run_result_key task_id) as [key|];
    [|left; split; [exact Hstore|reflexivity]].
  destruct (Api.get_output encode_utf8 request) as [output|];
    [|left; split; [exact Hstore|reflexivity]].
  rewrite Hstore.
  destruct (bot_update_task _ (Api.store w)) as [e|entities] eqn:Hupdate;
    [left; split; [exact Hstore|reflexivity]|].
  rewrite ndb_transaction_put_multi.
  destruct (Api.puts_through entities (Api.attempt_at attempts 0));
    [|left; split; reflexivity].
  destruct (Api.commit (Api.attempt_at attempts 0)).
  { right. eexists _, entities. split; [exact Hupdate|]. split; reflexivity. }
  destruct (Api.puts_through entities (Api.attempt_at attempts 1));
    [|left; split; reflexivity].
  destruct (Api.commit (Api.attempt_at attempts 1)).
  { right. eexists _, entities. split; [exact Hupdate|]. split; reflexivity. }
  left. split; reflexivity.
Qed.

(** C2. The entities that one call of [bot_update_task] gives are put together
    in one transaction with one retry. Whatever the datastore does to the
    attempts, a put that raises half way included, the handler either answers
    [{'ok': True}] with all of the entities written, every other key being as
    it was, or answers with an error with the datastore as it was: no part of
    them is written alone. The entities of an update that the pipeline accepts
    are written exactly when the puts and the commit of the first attempt go
    through, or that commit meets contention and the puts and the commit of
    the second attempt go through; otherwise the request ends with status 500
    and nothing is written, and what the datastore would do to a third attempt
    does not matter, none being made. An update that the pipeline rejects is
    answered with status 400, and nothing is written. *)
Theorem update_is_written_in_one_transaction attempts request w :
  let answered := BotTaskUpdateHandler_post attempts request w in
  let first := Api.attempt_at attempts 0 in
  let second := Api.attempt_at attempts 1 in
  ((Api.store answered.1 = Api.store w /\ is_error answered.2 = true)
   \/ exists update entities,
        bot_update_task update (Api.store w) = inr entities
        /\ answered.2 = Send true
        /\ Api.store answered.1 = Api.put_multi entities (Api.store w)
        /\ (forall key, key ∉ Api.key_of <$> entities ->
            Api.get key (Api.store answered.1) = Api.get key (Api.store w))
        /\ (NoDup (Api.key_of <$> entities) ->
            forall e, e ∈ entities ->
              Api.get (Api.key_of e) (Api.store answered.1) = Some e))
  /\ (forall bot_id command_index task_id key output entities,
        dom request ⊆ Api.UPDATE_ACCEPTED_KEYS ->
        request !! "id"%string = Some bot_id ->
        request !! "command_index"%string = Some command_index ->
        request !! "task_id"%string = Some task_id ->
        unpack_run_result_key task_id = Some key ->
        Api.get_output encode_utf8 request = Some output ->
        bot_update_task
          (Api.mkTaskUpdate key bot_id command_index output
             (request !! "output_chunk_start"%string)
             (request !! "exit_code"%string) (request !! "duration"%string))
          (Api.store w) = inr entities ->
        if Api.puts_through entities first
           && (Api.commit first
               || Api.puts_through entities second && Api.commit second)
        then
          answered.2 = Send true
          /\ Api.store answered.1 = Api.put_multi entities (Api.store w)
        else
          (exists e, answered.2 = Abort 500 e)
          /\ Api.store answered.1 = Api.store w)
  /\ (forall bot_id command_index task_id key output e,
        request !! "id"%string = Some bot_id ->
        request !! "command_index"%string = Some command_index ->
        request !! "task_id"%string = Some task_id ->
        unpack_run_result_key task_id = Some key ->
        Api.get_output encode_utf8 request = Some output ->
        bot_update_task
          (Api.mkTaskUpdate key bot_id command_index output
             (request !! "output_chunk_start"%string)
             (request !! "exit_code"%string) (request !! "duration"%string))
          (Api.store w) = inl e ->
        (exists msg, answered.2 = Abort 400 msg)
        /\ Api.store answered.1 = Api.store w).
Proof.
  cbv zeta. split; [|split].
  - destruct (BotTaskUpdateHandler_post_all_or_nothing attempts request w)
      as [Hnone | (update & entities & Hupdate & Hsend & Hstore)].
    + left. exact Hnone.
    + right. exists update, entities.
      split; [exact Hupdate|]. split; [exact Hsend|]. split; [exact Hstore|].
      rewrite Hstore. split.
      * intros key Hkey. apply put_multi_other, Hkey.
      * intros Hnd e He. apply put_multi_holds; assumption.
  - intros bot_id command_index task_id key output entities Hkeys Hid Hci
      Htask Hkey Hout Hupdate.
    rewrite (BotTaskUpdateHandler_post_accepted attempts request w _ _ _ _ _
               _ Hkeys Hid Hci Htask Hkey Hout Hupdate).
    rewrite ndb_transaction_put_multi.
    destruct (Api.puts_through entities (Api.attempt_at attempts 0));
      [|cbn; eauto].
    destruct (Api.commit (Api.attempt_at attempts 0)); [cbn; eauto|].
    destruct (Api.puts_through entities (Api.attempt_at attempts 1));
      [|cbn; eauto].
    destruct (Api.commit (Api.attempt_at attempts 1)); cbn; eauto.
  - intros bot_id command_index task_id key output e Hid Hci Htask Hkey Hout
      Hrej.
    destruct (BotTaskUpdateHandler_post_rejected show_keys
                unpack_run_result_key bot_update_task encode_utf8 attempts
                request w bot_id command_index task_id key output e Hid Hci
                Htask Hkey Hout Hrej) as (w' & msg & -> & Hstore).
    split; [exists msg; reflexivity|exact Hstore].
Qed.

End Updates.

(** bot9 sends output for its task, and the first commit meets contention: the
    second goes through, and the run result and the chunk are both written.
    When the put of the chunk raises instead, [ndb.put_multi] has written the
    run result by then, and the transaction leaves neither. *)
Lemma update_of_bot9_is_written :
  ((SampleUpdate.handler [Api.mkAttempt None false]
      SampleUpdate.update_of_bot9 SampleReport.server1).2 = Send true
   /\ forall e, e ∈ SampleUpdate.entities ->
        Api.get (Api.key_of e)
          (Api.store
             (SampleUpdate.handler [Api.mkAttempt None false]
                SampleUpdate.update_of_bot9 SampleReport.server1).1)
        = Some e)
  /\ Api.get (inl (inl 1))
       (Api.ndb_put_multi (Some 1%nat) SampleUpdate.entities
          (Api.store SampleReport.server1)).1
     = Some (Api.RunResultEntity 1 (Api.mkTaskRunResult RUNNING "bot9" [] 11))
  /\ (exists e,
        (SampleUpdate.handler [Api.mkAttempt (Some 1%nat) true]
           SampleUpdate.update_of_bot9 SampleReport.server1).2 = Abort 500 e)
  /\ Api.store
       (SampleUpdate.handler [Api.mkAttempt (Some 1%nat) true]
          SampleUpdate.update_of_bot9 SampleReport.server1).1
     = Api.store SampleReport.server1.
Proof.
  pose proof (update_is_written_in_one_transaction SampleReport.show_keys
                SampleReport.unpack SampleUpdate.bot_update_task id) as Hone.
  split; [|split; [reflexivity|]].
  - destruct (Hone [Api.mkAttempt None false] SampleUpdate.update_of_bot9
                SampleReport.server1)
      as [[[_ Herr] | (u & entities & Hu & Hsend & _ & _ & Hall)] _].
    + discriminate Herr.
    + injection Hu as <-. split; [exact Hsend|].
      apply Hall. apply NoDup_cons. split.
      * intros H%list_elem_of_singleton. discriminate H.
      * apply NoDup_singleton.
  - destruct (Hone [Api.mkAttempt (Some 1%nat) true]
                SampleUpdate.update_of_bot9 SampleReport.server1)
      as (_ & Haccepted & _).
    apply (Haccepted (PyStr "bot9") (PyInt 0) (PyStr "1") 1 (Some "hi"%string)
             SampleUpdate.entities);
      try reflexivity.
    apply (bool_decide_unpack _). vm_compute. exact I.
Defined.

(** * The bot's quarantine and main loop *)

Section BotProperties.

Import BotMain.

Lemma same_loop_refl p : same_loop p p.
Proof. repeat split. Qed.

Lemma same_loop_trans p p' p'' :
  same_loop p p' -> same_loop p' p'' -> same_loop p p''.
Proof. unfold same_loop. intros (-> & -> & ->) (-> & -> & ->). auto. Qed.

Lemma _set_quarantined_same_loop reason p :
  same_loop p (_set_quarantined reason p).
Proof. repeat split. Qed.

Lemma post_error_same_loop message p : same_loop p (post_error message p).
Proof. repeat split. Qed.

Lemma _call_hook_safe_same_loop name hook p :
  same_loop p (_call_hook_safe name hook p).2.
Proof. destruct hook; repeat split. Qed.

Lemma _get_dimensions_same_loop sources p :
  same_loop p (_get_dimensions sources p).2.
Proof.
  unfold _get_dimensions.
  pose proof (_call_hook_safe_same_loop "get_dimensions"
                (get_dimensions_hook sources) p) as H.
  destruct (_call_hook_safe _ _ p) as [[d|[|repr [|]]|repr] p1];
    cbn [snd] in *; try exact H;
    destruct (os_dimensions sources) as [[e traceback]|out2]; cbn [snd];
    (eapply same_loop_trans; [exact H|apply _set_quarantined_same_loop]).
Qed.

Lemma take_quarantine_same_loop around state p :
  same_loop p (take_quarantine around state p).2.
Proof.
  unfold take_quarantine.
  destruct (negb (truthy _)); [|apply same_loop_refl].
  destruct (negb (base_dir_ok around)); repeat split.
Qed.

Lemma check_free_space_same_loop around state p :
  same_loop p (check_free_space around state p).2.
Proof.
  unfold check_free_space.
  destruct (_ && _); [|apply same_loop_refl].
  pose proof (_call_hook_safe_same_loop "get_settings"
                (get_settings_hook around) p) as H.
  destruct (_call_hook_safe _ _ p) as [x p3].
  repeat case_match; exact H.
Qed.

Lemma _get_state_same_loop around sleep_streak p :
  same_loop p (_get_state around sleep_streak p).2.
Proof.
  unfold _get_state.
  pose proof (_call_hook_safe_same_loop "get_state" (get_state_hook around) p)
    as H.
  destruct (_call_hook_safe _ _ p) as [[d|[|repr [|]]|repr] p1];
    cbn [snd] in *; try exact H.
  pose proof (take_quarantine_same_loop around d p1) as H2.
  destruct (take_quarantine around d p1) as [state p2]. cbn [snd] in H2.
  pose proof (check_free_space_same_loop around
                (<["sleep_streak"%string := PyInt sleep_streak]> state) p2)
    as H3.
  destruct (check_free_space _ _ p2) as [state' p3]. cbn [snd] in *.
  eauto using same_loop_trans.
Qed.

Lemma check_free_space_sleep_streak around state p v state' :
  state !! "sleep_streak"%string = Some v ->
  (check_free_space around state p).1 = inr state' ->
  state' !! "sleep_streak"%string = Some v.
Proof.
  intros H. unfold check_free_space.
  destruct (_ && _); [|intros [= <-]; exact H].
  destruct (_call_hook_safe _ _ p) as [x p3].
  repeat case_match; cbn [fst]; intros [= <-]; try exact H.
  rewrite lookup_insert_ne by discriminate. exact H.
Qed.

(** The state [_get_state] returns carries the sleep streak it was given. *)
Lemma _get_state_sleep_streak around sleep_streak p states :
  (_get_state around sleep_streak p).1 = inr states ->
  states !! "sleep_streak"%string = Some (PyInt sleep_streak).
Proof.
  unfold _get_state.
  destruct (_call_hook_safe _ _ p) as [[d|[|repr [|]]|repr] p1];
    try discriminate.
  destruct (take_quarantine around d p1) as [state p2].
  apply check_free_space_sleep_streak, lookup_insert_eq.
Qed.

(** [_get_state] raises when the hook gives no dictionary. *)
Lemma _get_state_raises around sleep_streak p :
  (forall d, get_state_hook around <> HookReturns (HookDict d)) ->
  exists e, (_get_state around sleep_streak p).1 = inl e.
Proof.
  unfold _get_state, _call_hook_safe. intros H.
  destruct (get_state_hook around) as [[d|[|repr [|]]|repr]|e traceback];
    cbn [fst]; eauto.
  exfalso. exact (H d eq_refl).
Qed.

(** The wait after a failed poll is of 1 to 60 seconds. *)
Lemma poll_error_delay_bounds state delay :
  poll_error_delay state = Some delay -> 1 <= delay <= 60.
Proof.
  unfold poll_error_delay.
  destruct (default _ _) as [|b|n|s|l|d]; intros [= <-]; lia.
Qed.

(** A command other than [sleep] and [terminate] is known exactly when it is
    one of the four the bot carries out. *)
Lemma known_cmds_rest cmd :
  cmd <> "sleep"%string -> cmd <> "terminate"%string ->
  cmd <> "run"%string ->
  bool_decide (cmd ∈ known_cmds)
  = bool_decide (cmd = "update"%string)
    || bool_decide (cmd = "host_reboot"%string)
    || bool_decide (cmd = "restart"%string).
Proof.
  intros Hs Ht Hr. unfold known_cmds.
  destruct (decide (cmd = "update"%string)) as [->|Hu]; [reflexivity|].
  destruct (decide (cmd = "host_reboot"%string)) as [->|Hh]; [reflexivity|].
  destruct (decide (cmd = "restart"%string)) as [->|He]; [reflexivity|].
  rewrite (bool_decide_eq_false_2 _ Hu), (bool_decide_eq_false_2 _ Hh),
    (bool_decide_eq_false_2 _ He).
  apply bool_decide_eq_false_2.
  rewrite !elem_of_cons. intros [|[|[|[|[|[|H]]]]]]; try contradiction.
  inversion H.
Qed.

(** A poll that fails, or a turn that raises, ends with a wait of 1 to 60
    seconds, with [quit_bit] as it was. *)
Lemma _poll_server_failure poll on_bot_idle action p :
  match poll with
  | PollError _ =>
    exists v, botobj_state p !! "sleep_streak"%string = Some (PyInt v)
  | Polled cmd value =>
    cmd <> "sleep"%string /\ cmd <> "terminate"%string
    /\ (if bool_decide (cmd = "run"%string)
        then negb (truthy value) || action_raises action
        else if bool_decide (cmd ∈ known_cmds) then action_raises action
             else true) = true
  end ->
  let ended := _poll_server poll on_bot_idle action p in
  quit_bit ended.2 = quit_bit p
  /\ ((exists e traceback, ended.1 = Raises e traceback)
      /\ waits ended.2 = waits p
      \/ exists delay,
           ended.1 = Returns false
           /\ waits ended.2 = Seconds delay :: waits p
           /\ 1 <= delay <= 60).
Proof.
  unfold _poll_server. destruct poll as [e|cmd value].
  - intros [v Hv]. cbn [note_poll botobj_state].
    destruct (poll_error_delay (botobj_state p)) as [delay|] eqn:Hd.
    + cbn. split; [reflexivity|]. right. exists delay.
      repeat split; eauto using poll_error_delay_bounds;
        apply (poll_error_delay_bounds _ _ Hd).
    + unfold poll_error_delay in Hd. rewrite Hv in Hd. discriminate.
  - intros (Hs & Ht & Hfail).
    rewrite (bool_decide_eq_false_2 _ Hs), (bool_decide_eq_false_2 _ Ht).
    destruct (decide (cmd = "run"%string)) as [->|Hr].
    + cbn [bool_decide decide_rel] in *.
      rewrite bool_decide_eq_true_2 in * by reflexivity.
      destruct (truthy value); cbn [negb orb] in *.
      * destruct action; try discriminate; cbn; split; auto; left; eauto.
      * cbn. split; auto. left. eauto.
    + rewrite (bool_decide_eq_false_2 _ Hr) in *.
      rewrite (known_cmds_rest cmd Hs Ht Hr) in Hfail.
      destruct (_ || _).
      * destruct action; try discriminate; cbn; split; auto; left; eauto.
      * cbn. split; auto. left. eauto.
Qed.

Lemma keeps_quarantine_refl p : keeps_quarantine p p.
Proof. intros _. reflexivity. Qed.

Lemma keeps_quarantine_trans p p' p'' :
  keeps_quarantine p p' -> keeps_quarantine p' p'' -> keeps_quarantine p p''.
Proof.
  unfold keeps_quarantine. intros H1 H2 Hset.
  rewrite H2, H1; auto. rewrite H1; auto.
Qed.

Lemma _set_quarantined_keeps reason p :
  keeps_quarantine p (_set_quarantined reason p).
Proof. intros Hset. cbn. rewrite Hset. reflexivity. Qed.

Lemma _call_hook_safe_keeps name hook p :
  keeps_quarantine p (_call_hook_safe name hook p).2.
Proof.
  destruct hook; cbn [_call_hook_safe snd]; [apply keeps_quarantine_refl|].
  intros Hset. cbn. rewrite Hset. reflexivity.
Qed.

Lemma _get_dimensions_keeps sources p :
  keeps_quarantine p (_get_dimensions sources p).2.
Proof.
  unfold _get_dimensions.
  pose proof (_call_hook_safe_keeps "get_dimensions"
                (get_dimensions_hook sources) p) as H.
  destruct (_call_hook_safe _ _ p) as [[d|[|repr [|]]|repr] p1];
    cbn [snd] in *; try exact H;
    destruct (os_dimensions sources) as [[e traceback]|out2]; cbn [snd];
    (eapply keeps_quarantine_trans; [exact H|apply _set_quarantined_keeps]).
Qed.

Lemma take_quarantine_keeps around state p :
  keeps_quarantine p (take_quarantine around state p).2.
Proof.
  unfold take_quarantine.
  destruct (negb (truthy _)); [|apply keeps_quarantine_refl].
  destruct (negb (base_dir_ok around)); cbn [snd];
    [apply _set_quarantined_keeps|apply keeps_quarantine_refl].
Qed.

Lemma check_free_space_keeps around state p :
  keeps_quarantine p (check_free_space around state p).2.
Proof.
  unfold check_free_space.
  destruct (_ && _); [|apply keeps_quarantine_refl].
  pose proof (_call_hook_safe_keeps "get_settings" (get_settings_hook around)
                p) as H.
  destruct (_call_hook_safe _ _ p) as [x p3].
  repeat case_match; exact H.
Qed.

Lemma _get_state_keeps around sleep_streak p :
  keeps_quarantine p (_get_state around sleep_streak p).2.
Proof.
  unfold _get_state.
  pose proof (_call_hook_safe_keeps "get_state" (get_state_hook around) p)
    as H.
  destruct (_call_hook_safe _ _ p) as [[d|[|repr [|]]|repr] p1];
    cbn [snd] in *; try exact H.
  2, 3: eapply keeps_quarantine_trans; [exact H|apply _set_quarantined_keeps].
  pose proof (take_quarantine_keeps around d p1) as H2.
  destruct (take_quarantine around d p1) as [state p2]. cbn [snd] in H2.
  pose proof (check_free_space_keeps around
                (<["sleep_streak"%string := PyInt sleep_streak]> state) p2)
    as H3.
  destruct (check_free_space _ _ p2) as [state' p3]. cbn [snd] in *.
  eauto using keeps_quarantine_trans.
Qed.

(** The poll sends the state [botobj] holds, once. *)
Lemma _poll_server_polls poll on_bot_idle action p :
  let ended := _poll_server poll on_bot_idle action p in
  polls ended.2 = botobj_state p :: polls p
  /\ keeps_quarantine p ended.2.
Proof.
  unfold _poll_server. destruct poll as [e|cmd value].
  - cbn [note_poll botobj_state].
    destruct (poll_error_delay (botobj_state p)); cbn; split;
      first [reflexivity | intros _; reflexivity].
  - destruct (bool_decide (cmd = "sleep"%string)).
    { pose proof (_call_hook_safe_same_loop "on_bot_idle" on_bot_idle
                    (note_poll p)) as (_ & _ & Hp).
      pose proof (_call_hook_safe_keeps "on_bot_idle" on_bot_idle
                    (note_poll p)) as Hk.
      destruct (_call_hook_safe _ _ (note_poll p)) as [x p2].
      cbn [fst snd] in *. split; [exact Hp|exact Hk]. }
    destruct (bool_decide (cmd = "terminate"%string)).
    { destruct action; cbn; split;
        first [reflexivity | intros _; reflexivity]. }
    destruct (bool_decide (cmd = "run"%string)).
    { destruct (negb (truthy value)); [|destruct action]; cbn; split;
        first [reflexivity | intros _; reflexivity]. }
    destruct (_ || _); [destruct action|]; cbn; split;
      first [reflexivity | intros _; reflexivity].
Qed.

(** A turn in which [_get_dimensions] and [_get_state] return polls the server
    once, with the state [_get_state] returned. *)
Lemma loop_turn_polls t v p dims p1 states p2 :
  _get_dimensions (dimension_sources_of t) p = (dims, p1) ->
  _get_state (surroundings_of t) (consecutive_sleeps v) p1 = (inr states, p2) ->
  polls (loop_turn t v p).2 = states :: polls p.
Proof.
  intros Hdims Hstate. unfold loop_turn, loop_try. rewrite Hdims, Hstate.
  pose proof (_get_dimensions_same_loop (dimension_sources_of t) p)
    as (_ & _ & Hp1).
  pose proof (_get_state_same_loop (surroundings_of t) (consecutive_sleeps v)
                p1) as (_ & _ & Hp2).
  rewrite Hdims in Hp1. rewrite Hstate in Hp2. cbn [snd] in *.
  pose proof (_poll_server_polls (poll_of t) (on_bot_idle_of t) (action_of t)
                (update_attributes dims states p2)) as (Hp3 & _).
  destruct (_poll_server _ _ _ _) as [ended p3]. cbn [fst snd] in *.
  assert (Hpolls : polls p3 = states :: polls p).
  { rewrite Hp3. cbn. rewrite Hp2, Hp1. reflexivity. }
  destruct ended as [[]|e tb|code]; cbn [snd]; destruct (signal_of t);
    exact Hpolls.
Qed.

(** A turn in which [_get_state] raises sends no poll. *)
Lemma loop_turn_no_poll t v p dims p1 e p2 :
  _get_dimensions (dimension_sources_of t) p = (dims, p1) ->
  _get_state (surroundings_of t) (consecutive_sleeps v) p1 = (inl e, p2) ->
  polls (loop_turn t v p).2 = polls p.
Proof.
  intros Hdims Hstate. unfold loop_turn, loop_try. rewrite Hdims, Hstate.
  pose proof (_get_dimensions_same_loop (dimension_sources_of t) p)
    as (_ & _ & Hp1).
  pose proof (_get_state_same_loop (surroundings_of t) (consecutive_sleeps v)
                p1) as (_ & _ & Hp2).
  rewrite Hdims in Hp1. rewrite Hstate in Hp2. cbn [snd] in *.
  destruct (signal_of t); cbn; rewrite Hp2, Hp1; reflexivity.
Qed.

(** A turn that fails ends with a wait of 1 to 60 seconds, the process still
    running with [quit_bit] as it was. *)
Lemma loop_turn_failure t v p :
  turn_fails t = true -> signal_of t = false ->
  exists v' p' delay,
    loop_turn t v p = (None, v', p')
    /\ quit_bit p' = quit_bit p
    /\ waits p' = Seconds delay :: waits p
    /\ 1 <= delay <= 60.
Proof.
  intros Hfail Hsignal. unfold loop_turn, loop_try. rewrite Hsignal.
  pose proof (_get_dimensions_same_loop (dimension_sources_of t) p)
    as (Hq1 & Hw1 & _).
  destruct (_get_dimensions _ p) as [dims p1]. cbn [snd] in *.
  pose proof (_get_state_same_loop (surroundings_of t) (consecutive_sleeps v)
                p1) as (Hq2 & Hw2 & _).
  pose proof (_get_state_sleep_streak (surroundings_of t)
                (consecutive_sleeps v) p1) as Hstreak.
  pose proof (_get_state_raises (surroundings_of t) (consecutive_sleeps v) p1)
    as Hraises.
  destruct (_get_state _ _ p1) as [[e|states] p2]; cbn [fst snd] in *.
  - eexists _, _, 10. split; [reflexivity|]. cbn.
    rewrite Hq2, Hq1, Hw2, Hw1. repeat split; lia.
  - specialize (Hstreak states eq_refl).
    assert (Hpoll :
      match poll_of t with
      | PollError _ =>
        exists n,
          botobj_state (update_attributes dims states p2)
            !! "sleep_streak"%string = Some (PyInt n)
      | Polled cmd value =>
        cmd <> "sleep"%string /\ cmd <> "terminate"%string
        /\ (if bool_decide (cmd = "run"%string)
            then negb (truthy value) || action_raises (action_of t)
            else if bool_decide (cmd ∈ known_cmds)
                 then action_raises (action_of t) else true) = true
      end).
    { unfold turn_fails in Hfail.
      destruct (get_state_hook (surroundings_of t))
        as [[d|items|repr]|e' tb].
      - destruct (poll_of t) as [e'|cmd value]; [eauto|].
        destruct (decide (cmd = "sleep"%string)) as [->|Hs];
          [discriminate|].
        destruct (decide (cmd = "terminate"%string)) as [->|Ht];
          [discriminate|].
        rewrite (bool_decide_eq_false_2 _ Hs), (bool_decide_eq_false_2 _ Ht)
          in Hfail.
        auto.
      - destruct Hraises as [x He]; [intros d|]; discriminate.
      - destruct Hraises as [x He]; [intros d|]; discriminate.
      - destruct Hraises as [x He]; [intros d|]; discriminate. }
    pose proof (_poll_server_failure (poll_of t) (on_bot_idle_of t)
                  (action_of t) (update_attributes dims states p2) Hpoll)
      as (Hq3 & Hended).
    destruct (_poll_server _ _ _ _) as [ended p3]. cbn [fst snd] in *.
    destruct Hended as [[(e & tb & ->) Hw3] | (delay & -> & Hw3 & Hdelay)].
    + eexists _, _, 10. split; [reflexivity|]. cbn.
      rewrite Hq3, Hw3. cbn. rewrite Hq2, Hq1, Hw2, Hw1.
      repeat split; lia.
    + eexists _, _, delay. split; [reflexivity|]. cbn.
      rewrite Hq3, Hw3. cbn. rewrite Hq2, Hq1, Hw2, Hw1.
      repeat split; lia.
Qed.

(** A turn sends one poll at most. *)
Lemma loop_turn_polls_once t v p :
  exists sent,
    polls (loop_turn t v p).2 = sent ++ polls p /\ (length sent <= 1)%nat.
Proof.
  destruct (_get_dimensions (dimension_sources_of t) p) as [dims p1] eqn:Hdims.
  destruct (_get_state (surroundings_of t) (consecutive_sleeps v) p1)
    as [[e|states] p2] eqn:Hstate.
  - exists []. rewrite (loop_turn_no_poll _ _ _ _ _ _ _ Hdims Hstate).
    split; [reflexivity|cbn; lia].
  - exists [states]. rewrite (loop_turn_polls _ _ _ _ _ _ _ Hdims Hstate).
    split; [reflexivity|cbn; lia].
Qed.

(** The loop that is still polling after some turns goes on with the turns
    that follow. *)
Lemma main_loop_app turns more v p v' p' :
  main_loop turns v p = (Polling, v', p') ->
  main_loop (turns ++ more) v p = main_loop more v' p'.
Proof.
  revert v p. induction turns as [|t turns IH]; intros v p.
  - cbn [main_loop app]. destruct (quit_bit p) eqn:Hq; [discriminate|].
    intros [= <- <-]. reflexivity.
  - cbn [main_loop app]. destruct (quit_bit p) eqn:Hq; [discriminate|].
    destruct (loop_turn t v p) as [[[code|] v1] p1]; [discriminate|].
    apply IH.
Qed.

(** C9. Whatever the server answers to a poll, a failure of the poll or an
    exception that a turn of the loop does not expect never ends the loop of
    [_run_bot]: while no stop signal arrives, after any number of such turns
    the bot is still polling, [quit_bit] is not set, and each turn ended with
    one wait, of 1 to 60 seconds, after one poll at most. The loop then goes on
    with the turns that follow, and the next turn, whatever it is, polls the
    server with the state [_get_state] returns, when it returns one. *)
Theorem main_loop_survives_failures turns v p :
  quit_bit p = false ->
  Forall (fun t => turn_fails t = true /\ signal_of t = false) turns ->
  exists v' p' waited sent,
    main_loop turns v p = (Polling, v', p')
    /\ quit_bit p' = false
    /\ waits p' = waited ++ waits p
    /\ length waited = length turns
    /\ Forall (fun d => exists n, d = Seconds n /\ 1 <= n <= 60) waited
    /\ polls p' = sent ++ polls p
    /\ (length sent <= length turns)%nat
    /\ (forall more, main_loop (turns ++ more) v p = main_loop more v' p')
    /\ (forall t dims p1 states p2,
          _get_dimensions (dimension_sources_of t) p' = (dims, p1) ->
          _get_state (surroundings_of t) (consecutive_sleeps v') p1
          = (inr states, p2) ->
          polls (loop_turn t v' p').2 = states :: polls p').
Proof.
  intros Hquit Hturns.
  assert (Hloop : exists v' p' waited sent,
    main_loop turns v p = (Polling, v', p')
    /\ quit_bit p' = false
    /\ waits p' = waited ++ waits p
    /\ length waited = length turns
    /\ Forall (fun d => exists n, d = Seconds n /\ 1 <= n <= 60) waited
    /\ polls p' = sent ++ polls p
    /\ (length sent <= length turns)%nat).
  { revert v p Hquit.
    induction Hturns as [|t turns [Hfail Hsignal] _ IH]; intros v p Hquit.
    - exists v, p, [], []. cbn. rewrite Hquit. repeat split; auto.
    - destruct (loop_turn_failure t v p Hfail Hsignal)
        as (v1 & p1 & delay & Hturn & Hq1 & Hw1 & Hdelay).
      destruct (loop_turn_polls_once t v p) as (sent1 & Hs1 & Hlen1).
      rewrite Hturn in Hs1. cbn [snd] in Hs1.
      destruct (IH v1 p1)
        as (v' & p' & waited & sent & Hloop & Hq' & Hw' & Hlen & Hall & Hs
            & Hlens).
      { rewrite Hq1. exact Hquit. }
      exists v', p', (waited ++ [Seconds delay]), (sent ++ sent1).
      cbn [main_loop]. rewrite Hquit, Hturn, Hloop.
      split; [reflexivity|]. split; [exact Hq'|].
      split; [rewrite Hw', Hw1, <- app_assoc; reflexivity|].
      split; [rewrite length_app, Hlen; cbn; lia|].
      split.
      { apply Forall_app. split; [exact Hall|].
        constructor; [eauto|constructor]. }
      split; [rewrite Hs, Hs1, <- app_assoc; reflexivity|].
      rewrite length_app. cbn [length]. lia. }
  destruct Hloop
    as (v' & p' & waited & sent & Hloop & Hq' & Hw' & Hlen & Hall & Hs & Hlens).
  exists v', p', waited, sent.
  repeat (split; [assumption|]).
  split; [intros more; apply main_loop_app, Hloop|].
  intros t dims p1 states p2. apply loop_turn_polls.
Qed.

Lemma take_quarantine_quarantined around state p :
  truthy (_QUARANTINED p) = true ->
  truthy (get_quarantined (take_quarantine around state p).1) = true.
Proof.
  intros Hset. unfold take_quarantine.
  destruct (truthy (get_quarantined state)) eqn:Hstate; cbn [negb fst];
    [exact Hstate|].
  assert (Hq : truthy
                 (_QUARANTINED
                    (if negb (base_dir_ok around)
                     then _set_quarantined
                            "Can't run from blacklisted directory" p
                     else p)) = true).
  { destruct (negb (base_dir_ok around)); [|exact Hset].
    rewrite (_set_quarantined_keeps _ p Hset). exact Hset. }
  rewrite Hq. unfold get_quarantined. rewrite lookup_insert_eq. exact Hq.
Qed.

(** With the quarantine set, the state [_get_state] returns is quarantined. *)
Lemma _get_state_quarantined around sleep_streak p state :
  truthy (_QUARANTINED p) = true ->
  (_get_state around sleep_streak p).1 = inr state ->
  truthy (get_quarantined state) = true.
Proof.
  intros Hset. unfold _get_state.
  pose proof (_call_hook_safe_keeps "get_state" (get_state_hook around) p Hset)
    as Hk.
  destruct (_call_hook_safe _ _ p) as [[d|[|repr [|]]|repr] p1];
    try discriminate.
  cbn [snd] in Hk.
  assert (Hset1 : truthy (_QUARANTINED p1) = true)
    by (rewrite Hk; exact Hset).
  pose proof (take_quarantine_quarantined around d p1 Hset1) as Hq.
  destruct (take_quarantine around d p1) as [state1 p2]. cbn [fst] in Hq.
  unfold check_free_space.
  assert (Hq' : truthy
                  (get_quarantined
                     (<["sleep_streak"%string := PyInt sleep_streak]> state1))
                = true).
  { unfold get_quarantined in *. rewrite lookup_insert_ne by discriminate.
    exact Hq. }
  rewrite Hq'. cbn [negb andb fst]. intros [= <-]. exact Hq'.
Qed.

(** One turn of the loop keeps the quarantine, and the state it sends to the
    server, when it polls, is quarantined. *)
Lemma loop_turn_quarantined t v p :
  truthy (_QUARANTINED p) = true ->
  let p' := (loop_turn t v p).2 in
  _QUARANTINED p' = _QUARANTINED p
  /\ (polls p' = polls p
      \/ exists state,
           polls p' = state :: polls p
           /\ truthy (get_quarantined state) = true).
Proof.
  intros Hset. unfold loop_turn, loop_try.
  pose proof (_get_dimensions_same_loop (dimension_sources_of t) p)
    as (_ & _ & Hp1).
  pose proof (_get_dimensions_keeps (dimension_sources_of t) p Hset) as Hk1.
  destruct (_get_dimensions _ p) as [dims p1]. cbn [snd] in *.
  assert (Hset1 : truthy (_QUARANTINED p1) = true)
    by (rewrite Hk1; exact Hset).
  pose proof (_get_state_same_loop (surroundings_of t) (consecutive_sleeps v)
                p1) as (_ & _ & Hp2).
  pose proof (_get_state_keeps (surroundings_of t) (consecutive_sleeps v) p1
                Hset1) as Hk2.
  pose proof (_get_state_quarantined (surroundings_of t)
                (consecutive_sleeps v) p1) as Hstate.
  destruct (_get_state _ _ p1) as [[e|states] p2]; cbn [fst snd] in *.
  { destruct (signal_of t); cbn; rewrite Hk2, Hk1, Hp2, Hp1; auto. }
  - specialize (Hstate states Hset1 eq_refl).
    pose proof (_poll_server_polls (poll_of t) (on_bot_idle_of t)
                  (action_of t) (update_attributes dims states p2))
      as (Hp3 & Hk3).
    destruct (_poll_server _ _ _ _) as [ended p3]. cbn [fst snd] in *.
    assert (Hq3 : _QUARANTINED p3 = _QUARANTINED p).
    { rewrite Hk3; cbn; rewrite Hk2, ?Hk1; auto. }
    assert (Hpolls : polls p3 = states :: polls p).
    { rewrite Hp3. cbn. rewrite Hp2, Hp1. reflexivity. }
    destruct ended as [[]|e tb|code]; cbn [snd]; destruct (signal_of t);
      cbn; (split; [exact Hq3|right; exists states; split; assumption]).
Qed.

Lemma run_keeps p o : keeps_quarantine p (run p o).
Proof.
  destruct o; cbn [run].
  - apply _set_quarantined_keeps.
  - apply _call_hook_safe_keeps.
  - apply _get_dimensions_keeps.
  - apply _get_state_keeps.
  - intros Hset. apply (loop_turn_quarantined t v p Hset).
Qed.

Lemma foldl_run_keeps ops p : keeps_quarantine p (foldl run p ops).
Proof.
  revert p. induction ops as [|o ops IH]; intros p; cbn [foldl].
  - apply keeps_quarantine_refl.
  - eapply keeps_quarantine_trans; [apply run_keeps|apply IH].
Qed.

(** However many turns the loop makes, the quarantine stays and every state
    sent to the server is quarantined. *)
Lemma main_loop_quarantined turns v p :
  truthy (_QUARANTINED p) = true ->
  let p' := (main_loop turns v p).2 in
  _QUARANTINED p' = _QUARANTINED p
  /\ exists sent,
       polls p' = sent ++ polls p
       /\ Forall (fun state => truthy (get_quarantined state) = true) sent.
Proof.
  revert v p. induction turns as [|t turns IH]; intros v p Hset; cbn zeta.
  - cbn [main_loop]. destruct (quit_bit p); cbn [snd];
      (split; [reflexivity|exists []; split; [reflexivity|constructor]]).
  - cbn [main_loop]. destruct (quit_bit p); cbn [snd].
    { split; [reflexivity|exists []; split; [reflexivity|constructor]]. }
    pose proof (loop_turn_quarantined t v p Hset) as (Hq & Hpolls).
    destruct (loop_turn t v p) as [[[code|] v1] p1]; cbn [snd] in *.
    + split; [exact Hq|].
      destruct Hpolls as [-> | (state & -> & Hstate)].
      * exists []. split; [reflexivity|constructor].
      * exists [state]. split; [reflexivity|]. repeat constructor. exact Hstate.
    + destruct (IH v1 p1) as (Hq' & sent & Hsent & Hall).
      { rewrite Hq. exact Hset. }
      split; [rewrite Hq', Hq; reflexivity|].
      destruct Hpolls as [Hp | (state & Hp & Hstate)]; rewrite Hsent, Hp.
      * exists sent. split; [reflexivity|exact Hall].
      * exists (sent ++ [state]). split; [rewrite <- app_assoc; reflexivity|].
        apply Forall_app. split; [exact Hall|]. repeat constructor.
        exact Hstate.
Qed.

(** C10, as the code has it. The claim is made for any reason and for every
    state reported afterwards; [_QUARANTINED or reason] makes it true of every
    reason but the empty string, and of the calls of [_get_state] that start
    afterwards. Once [_set_quarantined] has been called with a reason that is
    not empty, the quarantine of the process is set: it is that reason if none
    was set before, and the one set before otherwise. Whatever the process
    does next ([_set_quarantined] again, hooks, [_get_dimensions],
    [_get_state], turns of the main loop), the quarantine stays the same, every
    state that a call of [_get_state] then returns is quarantined, and so is
    every state sent to the server with a poll in the turns of the main loop
    that follow. *)
Theorem quarantine_is_sticky reason p ops turns v :
  reason <> ""%string ->
  let p1 := _set_quarantined reason p in
  let p2 := foldl run p1 ops in
  let p3 := (main_loop turns v p2).2 in
  truthy (_QUARANTINED p1) = true
  /\ (truthy (_QUARANTINED p) = false -> _QUARANTINED p1 = PyStr reason)
  /\ (truthy (_QUARANTINED p) = true -> _QUARANTINED p1 = _QUARANTINED p)
  /\ _QUARANTINED p2 = _QUARANTINED p1
  /\ _QUARANTINED p3 = _QUARANTINED p1
  /\ (forall around sleep_streak state,
        (_get_state around sleep_streak p2).1 = inr state ->
        truthy (get_quarantined state) = true)
  /\ exists sent,
       polls p3 = sent ++ polls p2
       /\ Forall (fun state => truthy (get_quarantined state) = true) sent.
Proof.
  intros Hreason p1 p2 p3.
  assert (H1 : truthy (_QUARANTINED p1) = true).
  { subst p1. cbn. destruct (truthy (_QUARANTINED p)) eqn:Hp; [exact Hp|].
    cbn. rewrite bool_decide_eq_false_2 by exact Hreason. reflexivity. }
  assert (H2 : _QUARANTINED p2 = _QUARANTINED p1)
    by (apply foldl_run_keeps, H1).
  assert (H2' : truthy (_QUARANTINED p2) = true) by (rewrite H2; exact H1).
  destruct (main_loop_quarantined turns v p2 H2') as (H3 & sent & Hsent & Hall).
  split; [exact H1|].
  split; [intros Hp; subst p1; cbn; rewrite Hp; reflexivity|].
  split; [intros Hp; subst p1; cbn; rewrite Hp; reflexivity|].
  split; [exact H2|].
  split; [subst p3; rewrite H3; exact H2|].
  split; [intros around sleep_streak state;
          apply _get_state_quarantined, H2'|].
  exists sent. split; assumption.
Qed.

End BotProperties.

(** Two turns that fail, a poll that does not go through and a command the
    bot does not know: the bot of [SampleBot] is still polling, after two waits
    and two polls, and a third turn, in which the server tells it to sleep,
    polls again with a sleep streak of 0. *)
Lemma fresh_bot_survives_two_failures :
  exists v' p',
    BotMain.main_loop [SampleBot.poll_fails; SampleBot.unknown_command]
      (BotMain.mkLocals 0 0) SampleBot.fresh
    = (BotMain.Polling, v', p')
    /\ BotMain.quit_bit p' = false
    /\ BotMain.waits p' = [BotMain.Seconds 10; BotMain.Seconds 1]
    /\ length (BotMain.polls p') = 2%nat
    /\ BotMain.polls (BotMain.loop_turn SampleBot.settings_fail v' p').2
       = {[ "sleep_streak"%string := PyInt 0 ]} :: BotMain.polls p'.
Proof.
  destruct (main_loop_survives_failures
              [SampleBot.poll_fails; SampleBot.unknown_command]
              (BotMain.mkLocals 0 0) SampleBot.fresh)
    as (v' & p' & waited & sent & Hloop & Hquit & Hwaits & _ & _ & Hpolls & _
        & _ & Hnext).
  - reflexivity.
  - repeat constructor.
  - exists v', p'. split; [exact Hloop|]. split; [exact Hquit|].
    vm_compute in Hloop. injection Hloop as <- <-.
    split; [reflexivity|]. split; [reflexivity|].
    eapply Hnext; vm_compute; reflexivity.
Defined.

(** The claim of C10 fails twice. For the empty reason: after
    [_set_quarantined('')] the quarantine is not set, the state [_get_state]
    returns is not quarantined, and the next reason is the one recorded. And
    for the call of [_get_state] that is under way: when the hook
    [get_settings] raises, [_set_quarantined] is called after the state has
    taken the quarantine of the process, and the poll that follows sends a
    state that is not quarantined. *)
Lemma quarantine_is_not_always_reported :
  (truthy (BotMain._QUARANTINED (BotMain._set_quarantined "" SampleBot.fresh))
   = false
   /\ (exists state,
         (BotMain._get_state SampleBot.quiet 0
            (BotMain._set_quarantined "" SampleBot.fresh)).1 = inr state
         /\ truthy (BotMain.get_quarantined state) = false)
   /\ BotMain._QUARANTINED
        (BotMain._set_quarantined "disk"
           (BotMain._set_quarantined "" SampleBot.fresh))
      = PyStr "disk")
  /\ (truthy
        (BotMain._QUARANTINED
           (BotMain.loop_turn SampleBot.settings_fail (BotMain.mkLocals 0 0)
              SampleBot.fresh).2) = true
      /\ exists state,
           BotMain.polls
             (BotMain.loop_turn SampleBot.settings_fail (BotMain.mkLocals 0 0)
                SampleBot.fresh).2 = [state]
           /\ truthy (BotMain.get_quarantined state) = false).
Proof.
  split.
  - split; [reflexivity|]. split; [|reflexivity].
    eexists. split; reflexivity.
  - split; [reflexivity|]. eexists. split; reflexivity.
Qed.

(** The quarantine set first on the bot of [SampleBot] stays through a second
    call, a call of [_get_state] and two turns of the loop, and the states sent
    with the polls are quarantined. *)
Lemma first_quarantine_of_fresh_bot_stays :
  BotMain._QUARANTINED
    (BotMain.main_loop [SampleBot.poll_fails; SampleBot.unknown_command]
       (BotMain.mkLocals 0 0)
       (foldl BotMain.run (BotMain._set_quarantined "hook" SampleBot.fresh)
          [BotMain.SetQuarantined "disk";
           BotMain.GetState SampleBot.quiet 0])).2
  = PyStr "hook"
  /\ exists sent,
       BotMain.polls
         (BotMain.main_loop [SampleBot.poll_fails; SampleBot.unknown_command]
            (BotMain.mkLocals 0 0)
            (foldl BotMain.run
               (BotMain._set_quarantined "hook" SampleBot.fresh)
               [BotMain.SetQuarantined "disk";
                BotMain.GetState SampleBot.quiet 0])).2
       = sent ++ []
       /\ Forall
            (fun state => truthy (BotMain.get_quarantined state) = true) sent.
Proof.
  destruct (quarantine_is_sticky "hook" SampleBot.fresh
              [BotMain.SetQuarantined "disk";
               BotMain.GetState SampleBot.quiet 0]
              [SampleBot.poll_fails; SampleBot.unknown_command]
              (BotMain.mkLocals 0 0))
    as (_ & Hfirst & _ & _ & Hstays & _ & Hsent); [discriminate|].
  split; [|exact Hsent].
  rewrite Hstays. apply Hfirst. reflexivity.
Defined.

(** * More of handlers_api.py *)

Section ClientTasksProperties.

Variable world : Type.
Variable int : string -> option Z.
Variable sorted : gset string -> list string.
Variable page : Type.
Variable get_tasks :
  string -> list string -> string -> Z -> string -> string -> world
  -> page * world.

Local Abbreviation tasks :=
  (Api.ClientApiTasksHandler_get world int sorted page get_tasks).

(** X7. [ClientApiTasksHandler.get] answers a query only when each of its
    parameters is one of [cursor], [limit], [name], [sort], [state] and [tag]
    and at most one of the filters [name], [tag] and [state] is used; what it
    answers is then the page [task_result.get_tasks] gives for the parameters
    as they were sent. Every other query is aborted, with status 400 or with
    the [ValueError] of a limit that is no number, before [get_tasks] is
    called: the server's state is left as it was. *)
Theorem client_tasks_query_uses_one_filter GET w :
  let name := Api.request_get GET "name" "" in
  let tags := Api.get_all GET "tag" in
  let state := Api.request_get GET "state" "all" in
  match (tasks GET w).2 with
  | Send (data, limit) =>
    (forall k v, (k, v) ∈ GET -> k ∈ Api.TASKS_EXPECTED)
    /\ ((name = ""%string /\ tags = [])
        \/ (name = ""%string /\ state = "all"%string)
        \/ (tags = [] /\ state = "all"%string))
    /\ (data, (tasks GET w).1)
       = get_tasks name tags (Api.request_get GET "cursor" "") limit
           (Api.request_get GET "sort" "created_ts") state w
  | Abort status _ => (tasks GET w).1 = w /\ (status = 400 \/ status = 500)
  end.
Proof.
  cbv zeta. unfold Api.ClientApiTasksHandler_get.
  destruct (decide ((list_to_set GET.*1 : gset string) ∖ Api.TASKS_EXPECTED = ∅))
    as [He|He].
  2: { rewrite bool_decide_eq_true_2 by assumption. cbn. auto. }
  rewrite bool_decide_eq_false_2 by tauto.
  destruct (match Api.get_all GET "limit" with
            | [] => Some 100
            | value :: _ => int value
            end) as [limit|]; [|cbn; auto].
  match goal with
  | |- context [1 <? ?u] => destruct (1 <? u) eqn:Huses
  end; [cbn; auto|].
  destruct (get_tasks _ _ _ _ _ _ w) as [data w'] eqn:Hget. cbn [fst snd].
  split; [|split; [|symmetry; exact Hget]].
  - intros k v Hkv. apply (difference_empty _ _) in He. apply He.
    apply elem_of_list_to_set, list_elem_of_fmap. exists (k, v). auto.
  - apply Z.ltb_ge in Huses. unfold Api.bool_to_int in Huses.
    destruct (bool_decide (Api.request_get GET "name" "" = ""%string)) eqn:Hn;
      destruct (bool_decide (Api.get_all GET "tag" = [])) eqn:Ht;
      destruct (bool_decide (Api.request_get GET "state" "all" = "all"%string))
        eqn:Hs;
      cbn [negb] in Huses; try lia;
      repeat match goal with
             | H : bool_decide _ = true |- _ => apply bool_decide_eq_true in H
             end; tauto.
Qed.

End ClientTasksProperties.

Section ErrorReports.

Variable show_keys : gset string -> string.
Variable str : pyval -> string.
Variable unpack_run_result_key : pyval -> option Z.
Variable bot_kill_task :
  Z -> Api.TaskRunResult -> Api.datastore -> Api.datastore.

Local Abbreviation task_error :=
  (Api.BotTaskErrorHandler_post show_keys str unpack_run_result_key
     bot_kill_task).

Lemma log_unexpected_subset_keys_reports expected minimum actual source name
    w x :
  x ∈ Api.reports w ->
  x ∈ Api.reports
        (Api.log_unexpected_subset_keys Api.server Api.log_request show_keys
           expected minimum actual source name w).2.
Proof.
  intros Hx. unfold Api.log_unexpected_subset_keys.
  destruct (_ || _); cbn; [|exact Hx].
  apply elem_of_app. left. exact Hx.
Qed.

(** X8. [BotTaskErrorHandler.post] reports the bot's message to [ereporter2]
    whatever becomes of the request: the report is kept when the request is
    refused for its keys or for the id of another bot, and when the task is
    killed; the reports the server had are kept as well. *)
Theorem task_error_is_always_reported request w :
  let w' := (task_error request w).1 in
  ("bot"%string, str (default (PyStr "unknown") (request !! "message"%string)))
    ∈ Api.reports w'
  /\ forall x, x ∈ Api.reports w -> x ∈ Api.reports w'.
Proof.
  cbv zeta. unfold Api.BotTaskErrorHandler_post, Api.log_unexpected_keys.
  pose proof (log_unexpected_subset_keys_reports Api.ERROR_EXPECTED_KEYS
                Api.ERROR_EXPECTED_KEYS (dom request) "bot" "keys" w) as Hlog.
  destruct (Api.log_unexpected_subset_keys _ _ _ _ _ _ _ _ w) as [msg w1].
  cbn [fst snd] in *.
  set (m := str (default (PyStr "unknown") (request !! "message"%string))).
  assert (Hin : ("bot"%string, m) ∈ Api.reports (Api.ereporter2_log "bot" m w1)
                /\ forall x, x ∈ Api.reports w ->
                             x ∈ Api.reports (Api.ereporter2_log "bot" m w1)).
  { cbn. split.
    - apply elem_of_app. right. apply list_elem_of_singleton. reflexivity.
    - intros x Hx. apply elem_of_app. left. apply Hlog, Hx. }
  destruct (Api.msg_set msg); [exact Hin|].
  unfold Api.item.
  destruct (request !! "id"%string) as [bot_id|]; [|exact Hin].
  destruct (request !! "task_id"%string) as [task_id|]; [|exact Hin].
  destruct (unpack_run_result_key task_id) as [key|]; [|exact Hin].
  destruct (Api.run_results _ !! key) as [run_result|]; [|exact Hin].
  destruct (py_ne_str _ _); exact Hin.
Qed.

End ErrorReports.

(** * More of bot_main.py *)

Section BotStateProperties.

Import BotMain.


Lemma _set_quarantined_truthy reason p :
  truthy (PyStr reason) = true ->
  truthy (_QUARANTINED (_set_quarantined reason p)) = true.
Proof.
  intros Hr. cbn [_set_quarantined _QUARANTINED].
  destruct (truthy (_QUARANTINED p)) eqn:Hq; [exact Hq|exact Hr].
Qed.




(** X10. A state that the hook [get_state] returns quarantined is reported as
    the hook gave it, with the sleep streak: [_get_state] does not replace the
    bot's own quarantine by the one of the process, nor by a message on disk
    space, it does not call the hook [get_settings], and the process is left
    as it was. *)
Theorem _get_state_keeps_the_quarantine_of_the_hook around sleep_streak p
    state :
  get_state_hook around = HookReturns (HookDict state) ->
  truthy (get_quarantined state) = true ->
  _get_state around sleep_streak p
  = (inr (<["sleep_streak"%string := PyInt sleep_streak]> state), p).
Proof.
  intros Hhook Hq. unfold _get_state, _call_hook_safe. rewrite Hhook.
  unfold take_quarantine. rewrite Hq. cbn [negb].
  unfold check_free_space.
  assert (Hq' : truthy
                  (get_quarantined
                     (<["sleep_streak"%string := PyInt sleep_streak]> state))
                = true).
  { unfold get_quarantined in *.
    rewrite lookup_insert_ne by discriminate. exact Hq. }
  rewrite Hq'. reflexivity.
Qed.

(** The check of the disks reads the entry [disks] of the state, and no
    other. *)
Lemma check_disks_disks around settings state state' :
  state' !! "disks"%string = state !! "disks"%string ->
  check_disks around settings state' = check_disks around settings state.
Proof. intros H. unfold check_disks. rewrite H. reflexivity. Qed.

(** A state that is not quarantined, of a process that is not quarantined, in
    a base directory that is acceptable, goes to the check of the free space
    with its sleep streak. *)
Lemma _get_state_check_free_space around sleep_streak p state :
  get_state_hook around = HookReturns (HookDict state) ->
  truthy (get_quarantined state) = false ->
  base_dir_ok around = true ->
  truthy (_QUARANTINED p) = false ->
  _get_state around sleep_streak p
  = check_free_space around
      (<["sleep_streak"%string := PyInt sleep_streak]> state) p.
Proof.
  intros Hhook Hq Hdir Hp. unfold _get_state, _call_hook_safe. rewrite Hhook.
  unfold take_quarantine. rewrite Hq, Hdir. cbn [negb]. rewrite Hp.
  reflexivity.
Qed.

Lemma insert_mount_elem (x y : string * pyval) l :
  y ∈ insert_mount x l -> y = x \/ y ∈ l.
Proof.
  induction l as [|z l IH]; cbn [insert_mount].
  - rewrite list_elem_of_singleton. auto.
  - destruct (_ <=? _)%nat.
    + rewrite elem_of_cons. auto.
    + rewrite !elem_of_cons. intros [->|H]; [auto|].
      destruct (IH H); auto.
Qed.

(** The mounts that are sorted are those of the disks. *)
Lemma sorted_mounts_elem disks mount infos :
  (mount, infos) ∈ sorted_mounts disks -> disks !! mount = Some infos.
Proof.
  unfold sorted_mounts. intros H. apply elem_of_map_to_list.
  induction (map_to_list disks) as [|x l IH]; cbn [foldr] in H.
  - inversion H.
  - apply insert_mount_elem in H as [->|H]; [left|right; auto].
Qed.

(** X11. The quarantine for lack of disk space is not sticky. The state of the
    hook is not quarantined, the base directory is acceptable, the process is
    not quarantined, the hook [get_settings] returns, and its settings merge
    with the default ones. Then [_get_state] raises what the check of the
    disks raises, returns the state with its sleep streak when no partition is
    short of free space, and the state quarantined with the messages when one
    is; and the process is left as it was in each case: [_QUARANTINED] stays
    unset, so that the quarantine is gone with the next state once space is
    freed. A state with no entry [disks] is never quarantined for its disks,
    and each message is the one of a partition among the disks of the state,
    which is the root partition or one that holds the base directory. *)
Theorem _get_state_disk_quarantine_is_not_sticky around sleep_streak p state
    settings merged free_partition :
  get_state_hook around = HookReturns (HookDict state) ->
  truthy (get_quarantined state) = false ->
  base_dir_ok around = true ->
  truthy (_QUARANTINED p) = false ->
  has_botobj around = true ->
  get_settings_hook around = HookReturns settings ->
  _get_settings (fun z => Value (PyInt z)) FloatOf (hook_settings settings)
  = Some (SettingDict merged) ->
  merged !! "free_partition"%string = Some free_partition ->
  match check_disks around free_partition state with
  | inl e => _get_state around sleep_streak p = (inl e, p)
  | inr [] =>
    _get_state around sleep_streak p
    = (inr (<["sleep_streak"%string := PyInt sleep_streak]> state), p)
  | inr s =>
    _get_state around sleep_streak p
    = (inr (<["quarantined"%string := PyStr (String.concat nl s)]>
              (<["sleep_streak"%string := PyInt sleep_streak]> state)), p)
  end
  /\ (state !! "disks"%string = None ->
      check_disks around free_partition state = inr [])
  /\ (forall disks s,
        state !! "disks"%string = Some (PyDict disks) ->
        check_disks around free_partition state = inr s ->
        Forall (fun message =>
                  exists mount infos,
                    disks !! mount = Some infos
                    /\ (mount = root around
                        \/ holds_base_dir around mount = true)
                    /\ check_for_quarantine around mount infos free_partition
                       = inr (Some message)) s).
Proof.
  intros Hhook Hq Hdir Hp Hbot Hsettings Hmerge Hfree.
  assert (Hq' : truthy
                  (get_quarantined
                     (<["sleep_streak"%string := PyInt sleep_streak]> state))
                = false).
  { unfold get_quarantined in *.
    rewrite lookup_insert_ne by discriminate. exact Hq. }
  split; [|split].
  - rewrite (_get_state_check_free_space _ _ _ _ Hhook Hq Hdir Hp).
    unfold check_free_space, _call_hook_safe.
    rewrite Hq', Hbot, Hsettings. cbn [negb andb]. rewrite Hmerge, Hfree.
    rewrite (check_disks_disks around free_partition state
               (<["sleep_streak"%string := PyInt sleep_streak]> state))
      by (apply lookup_insert_ne; discriminate).
    destruct (check_disks around free_partition state) as [e|[|m s]];
      reflexivity.
  - intros Hdisks. unfold check_disks. rewrite Hdisks. cbn [default].
    rewrite lookup_empty. unfold sorted_mounts. rewrite map_to_list_empty.
    reflexivity.
  - intros disks s Hdisks. unfold check_disks. rewrite Hdisks.
    cbn [default from_option id].
    assert (Hroot : forall s1,
      match disks !! root around with
      | Some infos =>
        check_for_quarantine around (root around) infos free_partition
      | None => inr None
      end = inr s1 ->
      Forall (fun message =>
                exists mount infos,
                  disks !! mount = Some infos
                  /\ (mount = root around
                      \/ holds_base_dir around mount = true)
                  /\ check_for_quarantine around mount infos free_partition
                     = inr (Some message)) (option_list s1)).
    { intros s1. destruct (disks !! root around) as [infos|] eqn:Hr.
      - intros Hc. destruct s1 as [m|]; constructor; [|constructor].
        exists (root around), infos. auto.
      - intros [= <-]. constructor. }
    assert (Hmount : forall s2,
      match find (fun m => holds_base_dir around m.1) (sorted_mounts disks) with
      | Some (mount, infos) =>
        if negb (bool_decide (mount = root around))
        then check_for_quarantine around mount infos free_partition
        else inr None
      | None => inr None
      end = inr s2 ->
      Forall (fun message =>
                exists mount infos,
                  disks !! mount = Some infos
                  /\ (mount = root around
                      \/ holds_base_dir around mount = true)
                  /\ check_for_quarantine around mount infos free_partition
                     = inr (Some message)) (option_list s2)).
    { intros s2.
      destruct (find _ (sorted_mounts disks)) as [[mount infos]|] eqn:Hfind.
      - apply find_some in Hfind as [Hin Hholds]. cbn [fst] in Hholds.
        apply list_elem_of_In, sorted_mounts_elem in Hin.
        destruct (negb _).
        + intros Hc. destruct s2 as [m|]; constructor; [|constructor].
          exists mount, infos. auto.
        + intros [= <-]. constructor.
      - intros [= <-]. constructor. }
    destruct (match disks !! root around with Some _ => _ | None => _ end)
      as [e|s1]; [intros H; discriminate H|].
    destruct (match find _ _ with Some _ => _ | None => _ end)
      as [e|s2]; [intros H; discriminate H|].
    intros [= <-]. apply Forall_app. auto.
Qed.

(** X12. A bot that runs from a base directory it must not run from is
    quarantined for good: when the state of the hook is not quarantined,
    [_get_state] sets the quarantine of the process, which is the message on
    the directory unless an earlier one is kept, and reports it in the
    state. *)
Theorem _get_state_quarantines_bad_base_dir around sleep_streak p state :
  get_state_hook around = HookReturns (HookDict state) ->
  truthy (get_quarantined state) = false ->
  base_dir_ok around = false ->
  let p' := _set_quarantined "Can't run from blacklisted directory" p in
  _get_state around sleep_streak p
  = (inr (<["sleep_streak"%string := PyInt sleep_streak]>
            (<["quarantined"%string := _QUARANTINED p']> state)), p')
  /\ truthy (_QUARANTINED p') = true
  /\ (truthy (_QUARANTINED p) = false ->
      _QUARANTINED p' = PyStr "Can't run from blacklisted directory").
Proof.
  intros Hhook Hq Hdir. cbv zeta.
  assert (Hset : truthy
                   (_QUARANTINED
                      (_set_quarantined "Can't run from blacklisted directory"
                         p)) = true)
    by (apply _set_quarantined_truthy; reflexivity).
  split; [|split; [exact Hset|]].
  - unfold _get_state, _call_hook_safe. rewrite Hhook.
    unfold take_quarantine. rewrite Hq, Hdir. cbn [negb]. rewrite Hset.
    unfold check_free_space.
    assert (Hq' : truthy
                    (get_quarantined
                       (<["sleep_streak"%string := PyInt sleep_streak]>
                          (<["quarantined"%string :=
                               _QUARANTINED
                                 (_set_quarantined
                                    "Can't run from blacklisted directory" p)]>
                             state))) = true).
    { unfold get_quarantined.
      rewrite lookup_insert_ne by discriminate.
      rewrite lookup_insert_eq. exact Hset. }
    rewrite Hq'. reflexivity.
  - intros Hp. cbn [_set_quarantined _QUARANTINED]. rewrite Hp. reflexivity.
Qed.

End BotStateProperties.


(** The hook [get_state] of a fresh bot says the bot is broken, while the root
    partition is short of space: the state reported is the one of the hook. *)
Lemma state_of_broken_bot_is_kept :
  BotMain._get_state
    (BotMain.mkSurroundings (BotMain.HookReturns (BotMain.HookDict
                                                    SampleBot.broken))
       (BotMain.HookReturns (BotMain.HookDict ∅)) true true "linux2"
       "/b/swarming" SampleBot.full_root) 3 SampleBot.fresh
  = (inr (<["sleep_streak"%string := PyInt 3]> SampleBot.broken),
     SampleBot.fresh).
Proof.
  apply (_get_state_keeps_the_quarantine_of_the_hook
           (BotMain.mkSurroundings
              (BotMain.HookReturns (BotMain.HookDict SampleBot.broken))
              (BotMain.HookReturns (BotMain.HookDict ∅)) true true "linux2"
              "/b/swarming" SampleBot.full_root) 3 SampleBot.fresh
           SampleBot.broken);
    reflexivity.
Defined.

(** A fresh bot whose root partition is full reports the quarantine and is not
    quarantined itself. *)
Lemma full_disk_quarantines_one_state :
  BotMain._get_state SampleBot.full 0 SampleBot.fresh
  = (inr (<["quarantined"%string :=
              PyStr "Not enough free disk space on /. 100.0mib < 7000.0mib"]>
            (<["sleep_streak"%string := PyInt 0]> SampleBot.two_disks)),
     SampleBot.fresh).
Proof.
  exact (proj1 (_get_state_disk_quarantine_is_not_sticky SampleBot.full 0
                  SampleBot.fresh SampleBot.two_disks (BotMain.HookDict ∅)
                  SampleBot.default_settings SampleBot.default_free_partition
                  eq_refl eq_refl eq_refl eq_refl eq_refl eq_refl eq_refl
                  eq_refl)).
Defined.

(** A fresh bot that runs from the home directory is quarantined, process and
    state. *)
Lemma bot_in_home_directory_is_quarantined :
  let p' :=
    BotMain._set_quarantined "Can't run from blacklisted directory"
      SampleBot.fresh in
  BotMain._get_state
    (BotMain.mkSurroundings (BotMain.HookReturns (BotMain.HookDict ∅))
       (BotMain.HookReturns (BotMain.HookDict ∅)) true false "linux2" "/home"
       SampleBot.enough_space) 0
    SampleBot.fresh
  = (inr (<["sleep_streak"%string := PyInt 0]>
            (<["quarantined"%string := BotMain._QUARANTINED p']> ∅)), p')
  /\ truthy (BotMain._QUARANTINED p') = true
  /\ (truthy (BotMain._QUARANTINED SampleBot.fresh) = false ->
      BotMain._QUARANTINED p' = PyStr "Can't run from blacklisted directory").
Proof.
  apply (_get_state_quarantines_bad_base_dir
           (BotMain.mkSurroundings (BotMain.HookReturns (BotMain.HookDict ∅))
              (BotMain.HookReturns (BotMain.HookDict ∅)) true false "linux2"
              "/home" SampleBot.enough_space) 0
           SampleBot.fresh ∅); reflexivity.
Defined.

(** ** The loop, when the server says [sleep] or [terminate] *)

Section BotLoopProperties.

Import BotMain.



(** A turn in which the server says [terminate]. *)
Lemma loop_turn_terminate t v p states value :
  (_get_state (surroundings_of t) (consecutive_sleeps v)
     (_get_dimensions (dimension_sources_of t) p).2).1 = inr states ->
  poll_of t = Polled "terminate" value ->
  (forall code, action_of t <> ActionExits code) ->
  exists v' p',
    loop_turn t v p = (None, v', p')
    /\ quit_bit p' = true
    /\ polls p' = states :: polls p.
Proof.
  intros Hstate Hpoll Haction. unfold loop_turn, loop_try.
  pose proof (_get_dimensions_same_loop (dimension_sources_of t) p)
    as (Hq1 & Hw1 & Hp1).
  destruct (_get_dimensions _ p) as [dims p1]. cbn [snd] in *.
  pose proof (_get_state_same_loop (surroundings_of t) (consecutive_sleeps v)
                p1) as (Hq2 & Hw2 & Hp2).
  destruct (_get_state _ _ p1) as [result p2]. cbn [fst snd] in *.
  subst result.
  unfold _poll_server. rewrite Hpoll.
  rewrite bool_decide_eq_false_2 by discriminate.
  rewrite bool_decide_eq_true_2 by reflexivity.
  destruct (action_of t) as [b| |e traceback|code].
  - eexists _, _. split; [reflexivity|].
    destruct (signal_of t); cbn; rewrite Hp2, Hp1; auto.
  - eexists _, _. split; [reflexivity|].
    destruct (signal_of t); cbn; rewrite Hp2, Hp1; auto.
  - eexists _, _. split; [reflexivity|].
    destruct (signal_of t); cbn; rewrite Hp2, Hp1; auto.
  - exfalso. exact (Haction code eq_refl).
Qed.

Lemma main_loop_quit turns v p :
  quit_bit p = true -> main_loop turns v p = (Quitting, v, p).
Proof. intros H. destruct turns; cbn [main_loop]; rewrite H; reflexivity. Qed.

(** X14. The command [terminate] ends the loop. When [_get_state] returns a
    state and the poll that sends it is answered with [terminate], whatever
    the update the bot then posts does short of ending the process, [quit_bit]
    is set and the loop is left at once: whatever turns would follow, the bot
    has polled the server once, with that state, and no more. *)
Theorem terminate_ends_the_main_loop t turns v p states value :
  quit_bit p = false ->
  (_get_state (surroundings_of t) (consecutive_sleeps v)
     (_get_dimensions (dimension_sources_of t) p).2).1 = inr states ->
  poll_of t = Polled "terminate" value ->
  (forall code, action_of t <> ActionExits code) ->
  exists v' p',
    main_loop (t :: turns) v p = (Quitting, v', p')
    /\ quit_bit p' = true
    /\ polls p' = states :: polls p.
Proof.
  intros Hquit Hstate Hpoll Haction.
  destruct (loop_turn_terminate t v p states value Hstate Hpoll Haction)
    as (v' & p' & Hturn & Hq & Hp).
  exists v', p'. cbn [main_loop]. rewrite Hquit, Hturn.
  rewrite (main_loop_quit turns v' p' Hq). auto.
Qed.

End BotLoopProperties.



(** A fresh bot that is told to terminate leaves the loop after one poll,
    though a turn was to follow. *)
Lemma fresh_bot_terminates :
  exists v' p',
    BotMain.main_loop
      [BotMain.mkTurn SampleBot.bot1 SampleBot.quiet
         (BotMain.Polled "terminate" (PyStr "1"))
         (BotMain.HookReturns (BotMain.HookOther "None"))
         BotMain.InternalError 100 false; SampleBot.poll_fails]
      (BotMain.mkLocals 0 0) SampleBot.fresh
    = (BotMain.Quitting, v', p')
    /\ BotMain.quit_bit p' = true
    /\ BotMain.polls p' = [ {[ "sleep_streak"%string := PyInt 0 ]} ].
Proof.
  apply (terminate_ends_the_main_loop
           (BotMain.mkTurn SampleBot.bot1 SampleBot.quiet
              (BotMain.Polled "terminate" (PyStr "1"))
              (BotMain.HookReturns (BotMain.HookOther "None"))
              BotMain.InternalError 100 false) [SampleBot.poll_fails]
           (BotMain.mkLocals 0 0) SampleBot.fresh
           {[ "sleep_streak"%string := PyInt 0 ]} (PyStr "1"));
    try reflexivity.
  intros code. discriminate.
Defined.

(** ** The handshake and the update of the bot *)

Section BotStartProperties.

Import BotMain.

Variable bot_group_cfg : Type.

Local Abbreviation handshake := (_do_handshake bot_group_cfg).
Local Abbreviation handshake_loop := (_do_handshake_loop bot_group_cfg).

Lemma sleep_time_after_succ i :
  Z.min 300 (sleep_time_after i * 2) = sleep_time_after (S i).
Proof.
  unfold sleep_time_after. rewrite Nat2Z.inj_succ, Z.pow_succ_r by lia.
  assert (0 < 2 ^ Z.of_nat i) by (apply Z.pow_pos_nonneg; lia). lia.
Qed.

Lemma sleep_time_after_bounds i : 5 <= sleep_time_after i <= 300.
Proof.
  unfold sleep_time_after.
  assert (0 < 2 ^ Z.of_nat i) by (apply Z.pow_pos_nonneg; lia). lia.
Qed.

Lemma _do_handshake_loop_retries r n rest k p :
  quit_bit p = false ->
  handshake_loop r (replicate n (None, false) ++ rest) (sleep_time_after k) p
  = handshake_loop r rest (sleep_time_after (k + n))
      (waited (reverse ((fun i => Seconds (sleep_time_after i)) <$> seq k n))
         p).
Proof.
  revert k p. induction n as [|n IH]; intros k p Hquit.
  - cbn [replicate app seq fmap list_fmap reverse]. rewrite Nat.add_0_r.
    destruct p. reflexivity.
  - cbn [replicate app _do_handshake_loop]. rewrite Hquit.
    cbn [deliver]. rewrite sleep_time_after_succ, IH by exact Hquit.
    replace (S k + n)%nat with (k + S n)%nat by lia.
    f_equal. unfold waited, wait. cbn [_QUARANTINED posted_errors
      botobj_dimensions botobj_state quit_bit waits polls seq]. f_equal.
    rewrite fmap_cons, reverse_cons, <- app_assoc. reflexivity.
Qed.

(** X15. [_do_handshake] backs off and does not give up. While no stop signal
    arrives, after [n] attempts without a response it has waited 5, 10, 20,
    ... seconds, each wait twice the one before and none above 300, nothing
    else of the process has changed, and it is to try again; the first
    response that then comes connects it, without another wait, whatever is
    answered after. *)
Theorem _do_handshake_backs_off_and_does_not_give_up r n p :
  quit_bit p = false ->
  let delays :=
    reverse ((fun i => Seconds (sleep_time_after i)) <$> seq 0 n) in
  handshake r (replicate n (None, false)) p
  = (Retrying bot_group_cfg (sleep_time_after n), waited delays p)
  /\ Forall (fun d => exists s, d = Seconds s /\ 5 <= s <= 300) delays
  /\ forall resp signal rest,
       exists cfg e p',
         handshake r (replicate n (None, false) ++ (Some resp, signal) :: rest)
           p
         = (Connected bot_group_cfg cfg e, p')
         /\ waits p' = delays ++ waits p
         /\ quit_bit p' = false.
Proof.
  intros Hquit. cbv zeta. unfold _do_handshake.
  change 5 with (sleep_time_after 0).
  split; [|split].
  - rewrite <- (app_nil_r (replicate n _)).
    rewrite _do_handshake_loop_retries by exact Hquit.
    cbn [_do_handshake_loop waited quit_bit Nat.add]. rewrite Hquit.
    reflexivity.
  - apply Forall_reverse, Forall_fmap, Forall_forall. intros i _. cbn.
    eexists. split; [reflexivity|]. apply sleep_time_after_bounds.
  - intros resp signal rest.
    rewrite _do_handshake_loop_retries by exact Hquit.
    cbn [_do_handshake_loop waited quit_bit Nat.add]. rewrite Hquit.
    destruct (truthy (resp_bot_config bot_group_cfg resp)).
    + destruct r; cbn [_register_extra_bot_config];
        eexists _, _, _; (split; [reflexivity|]); cbn;
        split; first [reflexivity | exact Hquit].
    + eexists _, _, _. split; [reflexivity|]. cbn.
      split; [reflexivity|exact Hquit].
Qed.

(** X16. [_update_bot] never touches the code it runs from, nor the archive the
    bot was bootstrapped with: the one archive it downloads, checks and
    starts is [swarming_bot.1.zip] or [swarming_bot.2.zip], and is neither
    [THIS_FILE] nor [swarming_bot.zip]. *)
Theorem _update_bot_spares_the_running_code around version p :
  exists new_zip,
    new_zip ∈ ["swarming_bot.1.zip"; "swarming_bot.2.zip"]%string
    /\ new_zip <> this_file around
    /\ new_zip <> "swarming_bot.zip"%string
    /\ forall s z,
         s ∈ (_update_bot around version p).1.2 -> step_zip s = Some z ->
         z = new_zip.
Proof.
  unfold _update_bot.
  set (new_zip := if bool_decide (this_file around = "swarming_bot.1.zip"%string)
                  then "swarming_bot.2.zip"%string
                  else "swarming_bot.1.zip"%string).
  exists new_zip. split; [|split; [|split]].
  - subst new_zip. destruct (bool_decide _); set_solver.
  - subst new_zip.
    destruct (decide (this_file around = "swarming_bot.1.zip"%string))
      as [H|H].
    + rewrite bool_decide_eq_true_2 by exact H. rewrite H. discriminate.
    + rewrite bool_decide_eq_false_2 by exact H. auto.
  - subst new_zip. destruct (bool_decide _); discriminate.
  - intros s z Hs Hz.
    destruct (get_bot_code around) as [e|]; cbn [fst snd] in Hs.
    { repeat (apply elem_of_cons in Hs as [->|Hs]); cbn in Hz;
        try congruence. inversion Hs. }
    destruct (is_fine around) as [returncode output].
    destruct (negb (returncode =? 0)); cbn [fst snd] in Hs.
    { repeat (apply elem_of_cons in Hs as [->|Hs]); cbn in Hz;
        try congruence. inversion Hs. }
    destruct (bool_decide (exec_python around ∈ _));
      [|destruct (negb (exec_python around =? 0))]; cbn [fst snd] in Hs;
      repeat (apply elem_of_cons in Hs as [->|Hs]); cbn in Hz;
      try congruence; inversion Hs.
Qed.

(** X17. [_update_bot] starts the new code only once it is downloaded and
    proved fine. When the download fails or the new code exits with an error
    on [is_fine], it posts one error, sleeps two seconds and returns, so that
    the bot polls again, and neither releases the singleton nor starts
    anything. Otherwise it ends the process with what the new code returned,
    where the two codes of a shutdown count as 0, and posts an error exactly
    when that exit code is not 0. *)
Theorem _update_bot_starts_only_code_that_is_fine around version p :
  let r := _update_bot around version p in
  let steps := r.1.2 in
  let ret := exec_python around in
  match r.1.1 with
  | Returns _ =>
    (get_bot_code around <> None \/ (is_fine around).1 <> 0)
    /\ (exists message, posted_errors r.2 = posted_errors p ++ [message])
    /\ last steps = Some (Sleep 2)
    /\ (ReleaseSingleton ∉ steps)
    /\ (forall z, ExecPython z ∉ steps)
  | Exits code =>
    get_bot_code around = None /\ (is_fine around).1 = 0
    /\ code = (if bool_decide (ret = 1073807364 \/ ret = -1073741510) then 0
               else ret)
    /\ (code = 0 -> r.2 = p)
    /\ (code <> 0 ->
        r.2 = post_error ("Bot failed to respawn after update: " +:+ pretty ret)
                p)
  | Raises _ _ => False
  end.
Proof.
  cbv zeta. unfold _update_bot.
  destruct (get_bot_code around) as [e|].
  { cbn [fst snd]. split; [left; discriminate|].
    split; [eexists; reflexivity|]. split; [reflexivity|].
    split; [|intros z]; intros H;
      repeat (apply elem_of_cons in H as [H|H]; [discriminate|]);
      inversion H. }
  destruct (is_fine around) as [returncode output]. cbn [fst].
  destruct (returncode =? 0) eqn:Hrc; cbn [negb].
  2: { cbn [fst snd]. apply Z.eqb_neq in Hrc. split; [right; exact Hrc|].
       split; [eexists; reflexivity|]. split; [reflexivity|].
       split; [|intros z]; intros H;
         repeat (apply elem_of_cons in H as [H|H]; [discriminate|]);
         inversion H. }
  apply Z.eqb_eq in Hrc.
  destruct (decide (exec_python around = 1073807364
                    \/ exec_python around = -1073741510)) as [Hs|Hs].
  - rewrite (bool_decide_eq_true_2 (_ ∈ _))
      by (rewrite !elem_of_cons; tauto).
    rewrite (bool_decide_eq_true_2 (_ \/ _)) by exact Hs.
    cbn [fst snd]. repeat split; auto. intros H. exfalso. auto.
  - rewrite (bool_decide_eq_false_2 (_ ∈ _))
      by (rewrite !elem_of_cons, elem_of_nil; tauto).
    rewrite (bool_decide_eq_false_2 (_ \/ _)) by exact Hs.
    destruct (exec_python around =? 0) eqn:Hret; cbn [negb fst snd].
    + apply Z.eqb_eq in Hret. repeat split; auto. intros H. congruence.
    + apply Z.eqb_neq in Hret. repeat split; auto. intros H. congruence.
Qed.

(** X18. [_update_lkgbc] never looks at the size of the files: the size of
    [swarming_bot.zip] is compared with itself. Whatever the two sizes are,
    the outcome is the same; so when [swarming_bot.zip] exists and is not
    older than the running code, it is not copied over and nothing is posted,
    though its size is another. It is copied over when it is missing or
    older, provided the running code is a file and the copy works. *)
Theorem _update_lkgbc_ignores_the_sizes path is_file size mtime golden_size
    golden_mtime copy_fails p :
  let around size golden_size :=
    mkLkgbcSurroundings path is_file (mkStat size mtime)
      (Some (mkStat golden_size golden_mtime)) copy_fails in
  (forall size' golden_size',
     _update_lkgbc (around size' golden_size') p
     = _update_lkgbc (around size golden_size) p)
  /\ (is_file = true -> mtime <= golden_mtime ->
      _update_lkgbc (around size golden_size) p = (false, p))
  /\ (is_file = true -> golden_mtime < mtime -> copy_fails = None ->
      _update_lkgbc (around size golden_size) p = (true, p))
  /\ (is_file = true -> copy_fails = None ->
      _update_lkgbc
        (mkLkgbcSurroundings path is_file (mkStat size mtime) None copy_fails)
        p = (true, p)).
Proof.
  cbv zeta. unfold _update_lkgbc. cbn. rewrite !Z.eqb_refl. cbn [andb].
  split; [intros size' golden_size'; rewrite Z.eqb_refl; reflexivity|].
  split; [|split].
  - intros -> Hle. cbn [negb]. rewrite (proj2 (Z.leb_le _ _) Hle). reflexivity.
  - intros -> Hlt ->. cbn [negb].
    rewrite (proj2 (Z.leb_gt _ _) Hlt). reflexivity.
  - intros -> ->. reflexivity.
Qed.

End BotStartProperties.

(** A fresh bot whose server does not answer three times has waited 5, 10 and
    20 seconds, is to wait 40 next, and is connected by the first answer. *)
Lemma fresh_bot_waits_5_10_20 :
  let delays := [BotMain.Seconds 20; BotMain.Seconds 10; BotMain.Seconds 5] in
  BotMain._do_handshake unit BotMain.Registers
    [(None, false); (None, false); (None, false)] SampleBot.fresh
  = (BotMain.Retrying unit 40, BotMain.waited delays SampleBot.fresh)
  /\ Forall (fun d => exists s, d = BotMain.Seconds s /\ 5 <= s <= 300) delays
  /\ forall resp signal rest,
       exists cfg e p',
         BotMain._do_handshake unit BotMain.Registers
           ([(None, false); (None, false); (None, false)]
            ++ (Some resp, signal) :: rest) SampleBot.fresh
         = (BotMain.Connected unit cfg e, p')
         /\ BotMain.waits p' = delays ++ BotMain.waits SampleBot.fresh
         /\ BotMain.quit_bit p' = false.
Proof.
  apply (_do_handshake_backs_off_and_does_not_give_up unit BotMain.Registers 3
           SampleBot.fresh).
  reflexivity.
Defined.

(** ** The settings *)

Section SettingsProperties.

Import BotMain.

Context {value : Type}.

Implicit Types x y r : setting value.

Lemma _dict_deep_merge_None_r x : _dict_deep_merge x SettingNone = Some x.
Proof. destruct x; reflexivity. Qed.

Lemma setting_at_None path :
  setting_at path (SettingNone : setting value) = SettingNone.
Proof. destruct path; reflexivity. Qed.

Lemma setting_at_Value path v :
  path <> [] -> setting_at path (SettingValue v : setting value) = SettingNone.
Proof. destruct path; [congruence|reflexivity]. Qed.

(** The merge of two dictionaries is a dictionary, which holds under each key
    the merge of what the two hold under it. *)
Lemma _dict_deep_merge_dict (dx dy : gmap string (setting value)) r :
  _dict_deep_merge (SettingDict dx) (SettingDict dy) = Some r ->
  exists dr,
    r = SettingDict dr
    /\ forall k,
         _dict_deep_merge (setting_get dx k) (setting_get dy k)
         = Some (setting_get dr k).
Proof.
  cbn [_dict_deep_merge].
  match goal with
  | |- context [bool_decide (map_Forall ?P ?m)] => set (merged := m)
  end.
  destruct (decide (map_Forall (fun _ v => is_Some v) merged)) as [Hall|Hall].
  2: { rewrite bool_decide_eq_false_2 by exact Hall. discriminate. }
  rewrite bool_decide_eq_true_2 by exact Hall. intros [= <-].
  eexists. split; [reflexivity|]. intros k. unfold setting_get.
  rewrite lookup_omap.
  specialize (Hall k). subst merged.
  rewrite lookup_merge in *.
  destruct (dx !! k) as [vx|], (dy !! k) as [vy|]; cbn in *.
  - destruct (Hall _ eq_refl) as [v Hv]. rewrite Hv. reflexivity.
  - apply _dict_deep_merge_None_r.
  - reflexivity.
  - reflexivity.
Qed.

(** X19. In the dictionary [_dict_deep_merge] returns, the second argument
    takes precedence and the first fills the gaps, at every depth: at the end
    of any path of keys, a value of the second argument that is neither [None]
    nor a dictionary is the value of the merge, and where the second argument
    has nothing, the merge has what the first has. *)
Theorem _dict_deep_merge_overrides_and_fills x y r path :
  _dict_deep_merge x y = Some r ->
  (setting_at path y = SettingNone -> setting_at path r = setting_at path x)
  /\ (forall v,
        setting_at path y = SettingValue v ->
        setting_at path r = SettingValue v).
Proof.
  revert x y r. induction path as [|k path IH]; intros x y r Hmerge.
  - cbn [setting_at]. split.
    + intros ->. rewrite _dict_deep_merge_None_r in Hmerge. congruence.
    + intros v ->. destruct x; cbn in Hmerge; congruence.
  - destruct x as [|vx|dx].
    { cbn in Hmerge. injection Hmerge as <-. split; [|auto].
      intros ->. reflexivity. }
    { destruct y as [|vy|dy]; cbn in Hmerge; try discriminate;
        injection Hmerge as <-; split; auto; discriminate. }
    destruct y as [|vy|dy]; [| discriminate Hmerge |].
    { cbn in Hmerge. injection Hmerge as <-. split; [auto|discriminate]. }
    destruct (_dict_deep_merge_dict dx dy r Hmerge) as (dr & -> & Hk).
    cbn [setting_at]. apply IH, Hk.
Qed.

(** A value of the first argument is met by a value in the merge: by the one
    of the second argument when it has one, by itself otherwise. *)
Lemma _dict_deep_merge_value x y r path v :
  _dict_deep_merge x y = Some r ->
  setting_at path x = SettingValue v ->
  exists v', setting_at path r = SettingValue v'.
Proof.
  revert x y r. induction path as [|k path IH]; intros x y r Hmerge.
  - cbn [setting_at]. intros ->.
    destruct y as [|vy|dy]; cbn in Hmerge; try discriminate;
      injection Hmerge as <-; eauto.
  - destruct x as [|vx|dx]; cbn [setting_at]; try discriminate.
    destruct y as [|vy|dy]; [| discriminate Hmerge |].
    { cbn in Hmerge. injection Hmerge as <-. eauto. }
    destruct (_dict_deep_merge_dict dx dy r Hmerge) as (dr & -> & Hk).
    cbn [setting_at]. apply IH with (y := setting_get dy k), Hk.
Qed.

Variable int_value float_value : Z -> value.

Local Abbreviation DEFAULTS := (DEFAULT_SETTINGS int_value float_value).
Local Abbreviation get_settings := (_get_settings int_value float_value).

(** X20. What [_get_settings] gives, when the hook's dictionary can be merged
    with the defaults, is complete: each of the six default settings (the
    four of [free_partition] and the two of the isolated cache) has a value
    in it, so that reading them raises no [KeyError]; a setting the hook
    leaves out is the default, and a value the hook gives is taken. A hook
    that gives no dictionary leaves the defaults as they are. But a hook
    that gives a plain value where the defaults have a dictionary, as under
    [free_partition], makes the merge fail on its assertion, which
    [_get_settings] does not catch. *)
Theorem _get_settings_completes_the_hook_settings settings :
  (forall r,
     get_settings settings = Some r ->
     (forall path,
        path ∈ [ ["free_partition"; "size"]; ["free_partition"; "max_percent"];
                 ["free_partition"; "min_percent"]; ["free_partition"; "wiggle"];
                 ["caches"; "isolated"; "size"];
                 ["caches"; "isolated"; "items"] ]%string ->
        exists v, setting_at path r = SettingValue v)
     /\ (forall path,
           setting_at path settings = SettingNone ->
           setting_at path r = setting_at path DEFAULTS)
     /\ (forall path v,
           path <> [] ->
           setting_at path settings = SettingValue v ->
           setting_at path r = SettingValue v))
  /\ ((forall d, settings <> SettingDict d) ->
      get_settings settings = Some DEFAULTS)
  /\ (forall d k v,
        settings = SettingDict d ->
        k ∈ ["free_partition"; "caches"]%string ->
        d !! k = Some (SettingValue v) ->
        get_settings settings = None).
Proof.
  split; [|split].
  - intros r Hr.
    assert (Hmerge : _dict_deep_merge DEFAULTS settings = Some r
                     \/ (r = DEFAULTS /\ forall d, settings <> SettingDict d)).
    { destruct settings; cbn in Hr; [right|right|left; exact Hr];
        injection Hr as <-; split; auto; discriminate. }
    destruct Hmerge as [Hmerge|[-> Hnd]].
    + split; [|split].
      * intros path Hpath.
        assert (exists v, setting_at path DEFAULTS = SettingValue v) as [v Hv].
        { repeat (apply elem_of_cons in Hpath as [->|Hpath]);
            [eexists; reflexivity..|inversion Hpath]. }
        exact (_dict_deep_merge_value _ _ _ _ _ Hmerge Hv).
      * intros path.
        apply (_dict_deep_merge_overrides_and_fills _ _ _ path Hmerge).
      * intros path v _.
        apply (_dict_deep_merge_overrides_and_fills _ _ _ path Hmerge).
    + split; [|split].
      * intros path Hpath.
        repeat (apply elem_of_cons in Hpath as [->|Hpath]);
          [eexists; reflexivity..|inversion Hpath].
      * reflexivity.
      * intros path v Hpath Hv. exfalso.
        destruct settings as [|v'|d].
        -- rewrite setting_at_None in Hv. discriminate.
        -- rewrite setting_at_Value in Hv by exact Hpath. discriminate.
        -- exact (Hnd d eq_refl).
  - intros Hnd. destruct settings as [| |d]; [reflexivity..|].
    exfalso. exact (Hnd d eq_refl).
  - intros d k v -> Hk Hd. unfold _get_settings.
    destruct (_dict_deep_merge DEFAULTS (SettingDict d)) as [r|] eqn:Hmerge;
      [|reflexivity].
    exfalso.
    destruct (_dict_deep_merge_dict _ _ _ Hmerge) as (dr & _ & Hkeys).
    specialize (Hkeys k). unfold setting_get at 2 in Hkeys.
    rewrite Hd in Hkeys. cbn [default] in Hkeys.
    repeat (apply elem_of_cons in Hk as [->|Hk]);
      [discriminate Hkeys..|inversion Hk].
Qed.

End SettingsProperties.

(** The defaults of the example merged with the hook's settings: the size is
    the hook's, the wiggle the default. *)
Lemma merge_takes_the_size_and_keeps_the_wiggle :
  BotMain._dict_deep_merge SampleSettings.defaults SampleSettings.of_hook
  = Some SampleSettings.merged
  /\ BotMain.setting_at ["free_partition"; "wiggle"]%string
       SampleSettings.merged
     = BotMain.setting_at ["free_partition"; "wiggle"]%string
         SampleSettings.defaults
  /\ BotMain.setting_at ["free_partition"; "size"]%string SampleSettings.merged
     = BotMain.SettingValue 1.
Proof.
  assert (Hmerge : BotMain._dict_deep_merge SampleSettings.defaults
                     SampleSettings.of_hook = Some SampleSettings.merged)
    by (vm_compute; reflexivity).
  split; [exact Hmerge|]. split.
  - apply (proj1 (_dict_deep_merge_overrides_and_fills SampleSettings.defaults
                    SampleSettings.of_hook SampleSettings.merged
                    ["free_partition"; "wiggle"]%string Hmerge)).
    reflexivity.
  - apply (proj2 (_dict_deep_merge_overrides_and_fills SampleSettings.defaults
                    SampleSettings.of_hook SampleSettings.merged
                    ["free_partition"; "size"]%string Hmerge) 1).
    reflexivity.
Defined.

(** ** The bot's directory *)

Section CleanupProperties.

Import BotMain.

Lemma fnmatch_literal pat name :
  literal pat = true -> (fnmatch name pat = true <-> name = pat).
Proof.
  revert name. induction pat as [|c pat IH]; intros name Hlit.
  - destruct name; cbn; split; congruence.
  - cbn [literal] in Hlit.
    apply andb_true_iff in Hlit as [Hc Hlit].
    apply andb_true_iff in Hc as [Hstar Hany].
    apply negb_true_iff in Hstar, Hany.
    cbn [fnmatch]. rewrite Hstar.
    destruct name as [|d name]; [split; discriminate|].
    rewrite Hany. cbn [orb]. rewrite andb_true_iff, (IH name Hlit).
    rewrite Ascii.eqb_eq. split; [intros [-> ->]; reflexivity|].
    intros [= -> ->]. auto.
Qed.

Lemma fnmatch_star_nil lit :
  fnmatch "" (String "*" lit) = fnmatch "" lit || false.
Proof. reflexivity. Qed.

Lemma fnmatch_star_cons d name lit :
  fnmatch (String d name) (String "*" lit)
  = fnmatch (String d name) lit || fnmatch name (String "*" lit).
Proof. reflexivity. Qed.

Lemma fnmatch_star lit name :
  literal lit = true ->
  (fnmatch name (String "*" lit) = true <-> exists s, name = s +:+ lit).
Proof.
  intros Hlit. induction name as [|d name IH].
  - rewrite fnmatch_star_nil, orb_false_r, (fnmatch_literal lit "" Hlit).
    split.
    + intros <-. exists ""%string. reflexivity.
    + intros [s Hs]. destruct s; cbn in Hs; [exact Hs|discriminate].
  - rewrite fnmatch_star_cons, orb_true_iff, IH,
      (fnmatch_literal lit (String d name) Hlit).
    split.
    + intros [<-|[s ->]].
      * exists ""%string. reflexivity.
      * exists (String d s). reflexivity.
    + intros [s Hs]. destruct s as [|c s]; cbn in Hs.
      * left. exact Hs.
      * right. injection Hs as -> ->. exists s. reflexivity.
Qed.

(** X21. The entries [PASSLIST] spares are those named [c], [cipd_cache],
    [isolated_cache], [logs], [README], [README.md], [swarming.lck],
    [swarming_bot.1.zip], [swarming_bot.2.zip] and [swarming_bot.zip], and those
    whose name ends in [-cacert.pem], and no other: the work directory [w] is
    not among them. *)
Theorem passlisted_names i :
  (passlisted i = true
   <-> (exists s, i = s +:+ "-cacert.pem")
       \/ i ∈ [ "c"; "cipd_cache"; "isolated_cache"; "logs"; "README";
                "README.md"; "swarming.lck"; "swarming_bot.1.zip";
                "swarming_bot.2.zip"; "swarming_bot.zip" ]%string)
  /\ passlisted "w" = false.
Proof.
  split; [|reflexivity].
  unfold passlisted, PASSLIST. cbn [existsb].
  rewrite !orb_true_iff, fnmatch_star by reflexivity.
  rewrite !fnmatch_literal by reflexivity.
  rewrite !elem_of_cons, elem_of_nil. intuition discriminate.
Qed.

Lemma _cleanup_entries_removed entries p i :
  i ∈ (_cleanup_entries entries p).1.1 ->
  passlisted i = false /\ (i, Removed) ∈ entries.
Proof.
  revert p. induction entries as [|[j r] entries IH]; intros p.
  - cbn. intros H. inversion H.
  - cbn [_cleanup_entries].
    destruct (passlisted j) eqn:Hj.
    { intros H. destruct (IH p H). split; [assumption|].
      apply elem_of_cons. auto. }
    destruct r as [|e|e traceback].
    + specialize (IH p).
      destruct (_cleanup_entries entries p) as [[removed e] p'].
      cbn [fst] in *. intros [->|H]%elem_of_cons.
      * split; [exact Hj|]. apply elem_of_cons. auto.
      * destruct (IH H). split; [assumption|]. apply elem_of_cons. auto.
    + intros H. destruct (IH _ H). split; [assumption|].
      apply elem_of_cons. auto.
    + cbn. intros H. inversion H.
Qed.

Lemma _cleanup_entries_returns entries p :
  Forall (fun e => forall x traceback, e.2 <> RemovalRaises x traceback)
    entries ->
  (_cleanup_entries entries p).1.2 = Returns ()
  /\ forall i,
       (i, Removed) ∈ entries -> passlisted i = false ->
       i ∈ (_cleanup_entries entries p).1.1.
Proof.
  intros Hentries. revert p.
  induction Hentries as [|[j r] entries Hr _ IH]; intros p.
  - cbn. split; [reflexivity|]. intros i H. inversion H.
  - cbn [_cleanup_entries].
    destruct (passlisted j) eqn:Hj.
    { destruct (IH p) as [Hend Hin]. split; [exact Hend|].
      intros i H Hi. apply elem_of_cons in H as [H|H]; [|auto].
      inversion H; subst. congruence. }
    destruct r as [|e|e traceback].
    + destruct (IH p) as [Hend Hin].
      destruct (_cleanup_entries entries p) as [[removed e] p'].
      cbn [fst snd] in *. split; [exact Hend|].
      intros i H Hi. apply elem_of_cons.
      apply elem_of_cons in H as [H|H]; [|auto].
      inversion H; subst. auto.
    + destruct (IH (post_error
                      ("Failed to remove " +:+ j +:+ " from bot's directory: "
                       +:+ e) p)) as [Hend Hin].
      split; [exact Hend|].
      intros i H Hi. apply elem_of_cons in H as [H|H]; [|auto].
      inversion H.
    + exfalso. exact (Hr e traceback eq_refl).
Qed.

(** X22. [_cleanup_bot_directory] removes nothing that [PASSLIST] spares, and
    nothing at all when the base directory is not acceptable. Every entry it
    removes is an entry of the directory that the list does not spare; and
    when no removal raises anything but [IOError] or [OSError], it goes
    through the whole directory and returns, having removed every entry that
    the list does not spare and that can be removed. *)
Theorem _cleanup_bot_directory_spares_the_passlist base_dir_ok entries p :
  let r := _cleanup_bot_directory base_dir_ok entries p in
  (forall i,
     i ∈ r.1.1 ->
     base_dir_ok = true /\ passlisted i = false /\ (i, Removed) ∈ entries)
  /\ (base_dir_ok = false -> r = ([], Returns (), p))
  /\ (base_dir_ok = true ->
      Forall (fun e => forall x traceback, e.2 <> RemovalRaises x traceback)
        entries ->
      r.1.2 = Returns ()
      /\ forall i,
           (i, Removed) ∈ entries -> passlisted i = false -> i ∈ r.1.1).
Proof.
  cbv zeta. unfold _cleanup_bot_directory.
  destruct base_dir_ok; cbn [negb].
  - split; [|split; [discriminate|]].
    + intros i Hi. split; [reflexivity|].
      exact (_cleanup_entries_removed entries p i Hi).
    + intros _. apply _cleanup_entries_returns.
  - split; [|split; [reflexivity|discriminate]].
    intros i Hi. inversion Hi.
Qed.

End CleanupProperties.

(** * More of handlers_frontend.py *)

Section WhitelistProperties.

Variable int : string -> option Z.
Variable range_limit : Z.

(** [int] reads back what [str] prints of a byte. *)
Hypothesis int_pretty : forall i, 0 <= i < 256 -> int (pretty i) = Some i.

Local Abbreviation ipv4_to_int := (Frontend.ipv4_to_int int).
Local Abbreviation expand_subnet := (Frontend.expand_subnet int range_limit).

Lemma split_free sep a :
  Frontend.free_of sep a = true -> Frontend.split sep a = [a].
Proof.
  induction a as [|c a IH]; [reflexivity|].
  cbn [Frontend.free_of Frontend.split].
  intros [Hc Ha]%andb_true_iff. apply negb_true_iff in Hc.
  rewrite Hc, (IH Ha). reflexivity.
Qed.

Lemma split_app sep a rest :
  Frontend.free_of sep a = true ->
  Frontend.split sep (a +:+ String sep "" +:+ rest)
  = a :: Frontend.split sep rest.
Proof.
  change (String sep "" +:+ rest) with (String sep rest).
  induction a as [|c a IH].
  - intros _. change ("" +:+ String sep rest) with (String sep rest).
    cbn [Frontend.split]. rewrite Ascii.eqb_refl. reflexivity.
  - cbn [Frontend.free_of].
    intros [Hc Ha]%andb_true_iff. apply negb_true_iff in Hc.
    change (String c a +:+ String sep rest)
      with (String c (a +:+ String sep rest)).
    cbn [Frontend.split]. rewrite Hc, (IH Ha). reflexivity.
Qed.

Lemma pretty_byte_free i :
  0 <= i < 256 -> Frontend.free_of "." (pretty i) = true.
Proof.
  intros Hi.
  assert (Hall : forallb (fun k => Frontend.free_of "." (pretty (Z.of_nat k)))
                   (seq 0 256) = true) by (vm_compute; reflexivity).
  rewrite forallb_forall in Hall.
  specialize (Hall (Z.to_nat i)). rewrite Z2Nat.id in Hall by lia.
  apply Hall, in_seq. lia.
Qed.

(** What [int_to_ipv4] prints: the four low bytes, the highest first. *)
Lemma int_to_ipv4_bytes n :
  Frontend.int_to_ipv4 n
  = String.concat "."
      [ pretty ((((n `div` 256) `div` 256) `div` 256) `mod` 256);
        pretty (((n `div` 256) `div` 256) `mod` 256);
        pretty ((n `div` 256) `mod` 256); pretty (n `mod` 256) ].
Proof. reflexivity. Qed.

(** X23. [ipv4_to_int] reads back what [int_to_ipv4] prints: the text of an
    integer is read as the integer itself when it is below [2 ^ 32] and not
    negative, and as its four low bytes otherwise. *)
Theorem ipv4_to_int_of_int_to_ipv4 n :
  ipv4_to_int (Frontend.int_to_ipv4 n) = Some (n `mod` 2 ^ 32)
  /\ (0 <= n < 2 ^ 32 -> ipv4_to_int (Frontend.int_to_ipv4 n) = Some n).
Proof.
  assert (Hread : ipv4_to_int (Frontend.int_to_ipv4 n) = Some (n `mod` 2 ^ 32)).
  { rewrite int_to_ipv4_bytes. unfold Frontend.ipv4_to_int.
    cbn [String.concat].
    assert (Hb : forall x, 0 <= x `mod` 256 < 256)
      by (intros x; apply Z.mod_pos_bound; lia).
    change (String.append ?a ?b) with (a +:+ b).
    rewrite !split_app, split_free by (apply pretty_byte_free, Hb).
    cbn [mapM]. rewrite !int_pretty by apply Hb. cbn.
    f_equal. change (2 ^ 32) with 4294967296.
    Z.div_mod_to_equations. lia. }
  split; [exact Hread|].
  intros Hn. rewrite Hread, Z.mod_small by exact Hn. reflexivity.
Qed.

Lemma mapM_expand ip n (f : Z -> string) rs :
  ipv4_to_int ip = Some n ->
  mapM (fun r => n ← ipv4_to_int ip; Some (f (n + r))) rs
  = Some ((fun r => f (n + r)) <$> rs).
Proof.
  intros Hip. induction rs as [|r rs IH]; [reflexivity|].
  cbn [mapM]. rewrite IH, Hip. reflexivity.
Qed.

(** X24. [expand_subnet] counts up from the address it is given, not from the
    first address of the subnet. With mask 32 it is the list of the address as
    it was written, unread. With a mask from 0 to 31 and an address that reads
    as [n], where the list is not too long to be built, it is the list of
    [2 ^ (32 - mask)] addresses, all different, of which the one at place [r]
    is the text of [n + r] and reads as [n + r] modulo [2 ^ 32]. *)
Theorem expand_subnet_counts_up_from_the_address ip mask n :
  0 <= mask < 32 ->
  2 ^ (32 - mask) <= range_limit ->
  ipv4_to_int ip = Some n ->
  expand_subnet ip 32 = Some [ip]
  /\ exists ips,
       expand_subnet ip mask = Some ips
       /\ length ips = Z.to_nat (2 ^ (32 - mask))
       /\ (forall r,
             (r < length ips)%nat ->
             ips !! r = Some (Frontend.int_to_ipv4 (n + Z.of_nat r))
             /\ ipv4_to_int (Frontend.int_to_ipv4 (n + Z.of_nat r))
                = Some ((n + Z.of_nat r) `mod` 2 ^ 32))
       /\ NoDup ips.
Proof.
  intros Hmask Hlimit Hip. split; [reflexivity|].
  unfold Frontend.expand_subnet, Frontend.range.
  rewrite (proj2 (Z.eqb_neq mask 32)) by lia.
  rewrite (proj2 (Z.ltb_ge (32 - mask) 0)) by lia.
  rewrite Z.shiftl_1_l, (proj2 (Z.leb_le _ _) Hlimit).
  cbn [mbind option_bind].
  rewrite (mapM_expand ip n Frontend.int_to_ipv4 _ Hip).
  set (count := Z.to_nat (2 ^ (32 - mask))).
  assert (Hcount : Z.of_nat count <= 2 ^ 32).
  { subst count. rewrite Z2Nat.id by (apply Z.pow_nonneg; lia).
    apply Z.pow_le_mono_r; lia. }
  assert (Hlookup : forall r,
            (r < count)%nat ->
            ((fun r => Frontend.int_to_ipv4 (n + r)) <$>
               (Z.of_nat <$> seq 0 count)) !! r
            = Some (Frontend.int_to_ipv4 (n + Z.of_nat r))).
  { intros r Hr. rewrite !list_lookup_fmap, lookup_seq_lt by exact Hr.
    reflexivity. }
  eexists. split; [reflexivity|].
  rewrite !length_fmap, length_seq.
  split; [reflexivity|]. split.
  - intros r Hr. split; [exact (Hlookup r Hr)|].
    apply ipv4_to_int_of_int_to_ipv4.
  - apply NoDup_alt. intros i j a Hi Hj.
    assert (Hli : (i < count)%nat).
    { apply lookup_lt_Some in Hi. rewrite !length_fmap, length_seq in Hi.
      exact Hi. }
    assert (Hlj : (j < count)%nat).
    { apply lookup_lt_Some in Hj. rewrite !length_fmap, length_seq in Hj.
      exact Hj. }
    rewrite (Hlookup i Hli) in Hi. rewrite (Hlookup j Hlj) in Hj.
    assert (Heq : Some ((n + Z.of_nat i) `mod` 2 ^ 32)
                  = Some ((n + Z.of_nat j) `mod` 2 ^ 32)).
    { rewrite <- (proj1 (ipv4_to_int_of_int_to_ipv4 (n + Z.of_nat i))).
      rewrite <- (proj1 (ipv4_to_int_of_int_to_ipv4 (n + Z.of_nat j))).
      congruence. }
    injection Heq as Heq. change (2 ^ 32) with 4294967296 in *.
    Z.div_mod_to_equations. lia.
Qed.

End WhitelistProperties.

(** The [int] of the examples reads back the bytes. *)
Lemma sample_int_pretty i :
  0 <= i < 256 -> SampleNetwork.int (pretty i) = Some i.
Proof.
  intros Hi.
  assert (Hall : forallb
                   (fun k =>
                      bool_decide
                        (SampleNetwork.int (pretty (Z.of_nat k))
                         = Some (Z.of_nat k))) (seq 0 256) = true)
    by (vm_compute; reflexivity).
  rewrite forallb_forall in Hall.
  specialize (Hall (Z.to_nat i)). rewrite Z2Nat.id in Hall by lia.
  apply (bool_decide_eq_true_1 _), Hall, in_seq. lia.
Qed.

(** The address 10.0.0.5, which is the integer 167772165, reads back. *)
Lemma address_10_0_0_5_reads_back :
  Frontend.ipv4_to_int SampleNetwork.int (Frontend.int_to_ipv4 167772165)
  = Some (167772165 `mod` 2 ^ 32)
  /\ (0 <= 167772165 < 2 ^ 32 ->
      Frontend.ipv4_to_int SampleNetwork.int (Frontend.int_to_ipv4 167772165)
      = Some 167772165).
Proof.
  exact (ipv4_to_int_of_int_to_ipv4 SampleNetwork.int sample_int_pretty
           167772165).
Defined.

(** The subnet 10.0.0.5/30 is the four addresses from 10.0.0.5 on. *)
Lemma subnet_10_0_0_5_mask_30_counts_four :
  Frontend.expand_subnet SampleNetwork.int (2 ^ 62) "10.0.0.5" 32
  = Some ["10.0.0.5"%string]
  /\ exists ips,
       Frontend.expand_subnet SampleNetwork.int (2 ^ 62) "10.0.0.5" 30
       = Some ips
       /\ length ips = Z.to_nat (2 ^ (32 - 30))
       /\ (forall r,
             (r < length ips)%nat ->
             ips !! r
             = Some (Frontend.int_to_ipv4 (167772165 + Z.of_nat r))
             /\ Frontend.ipv4_to_int SampleNetwork.int
                  (Frontend.int_to_ipv4 (167772165 + Z.of_nat r))
                = Some ((167772165 + Z.of_nat r) `mod` 2 ^ 32))
       /\ NoDup ips.
Proof.
  apply (expand_subnet_counts_up_from_the_address SampleNetwork.int (2 ^ 62)
           sample_int_pretty "10.0.0.5" 30 167772165).
  - lia.
  - vm_compute. discriminate.
  - vm_compute. reflexivity.
Defined.

Section TasksPageProperties.





End TasksPageProperties.

Section CancelProperties.

Variable unpack_result_summary_key : string -> option Z.

(** X26. [CancelHandler.post] touches the task it is asked to cancel and
    nothing else: the requests, the run results and the stored results are
    left as they were, and so are the [TaskToRun] and the summary of every
    other task. A key that does not unpack is refused with status 400 and
    nothing is written. When the handler answers that the runner is canceled,
    the [TaskToRun] of the task is aborted at the current time, with its
    place in the queue kept. *)
Theorem cancel_touches_only_its_task now r ds :
  let after :=
    (Frontend.CancelHandler_post unpack_result_summary_key now r ds).1 in
  Frontend.requests after = Frontend.requests ds
  /\ Frontend.run_results after = Frontend.run_results ds
  /\ Frontend.results after = Frontend.results ds
  /\ (forall k,
        unpack_result_summary_key r <> Some k ->
        Frontend.to_runs after !! k = Frontend.to_runs ds !! k
        /\ Frontend.summaries after !! k = Frontend.summaries ds !! k)
  /\ (unpack_result_summary_key r = None ->
      Frontend.CancelHandler_post unpack_result_summary_key now r ds
      = (ds, Abort 400 "Unable to cancel runner"))
  /\ (forall key,
        unpack_result_summary_key r = Some key ->
        (Frontend.CancelHandler_post unpack_result_summary_key now r ds).2
        = Send "Runner canceled."%string ->
        exists task,
          Frontend.to_runs ds !! key = Some task
          /\ Frontend.to_runs after !! key
             = Some (Frontend.mkTaskToRun (Frontend.queue_number task)
                       (Some now))).
Proof.
  cbv zeta. unfold Frontend.CancelHandler_post.
  destruct (unpack_result_summary_key r) as [key|].
  2: { cbn. repeat split; auto; discriminate. }
  destruct (Frontend.requests ds !! key) as [request|].
  2: { cbn. repeat split; auto; discriminate. }
  destruct (Frontend.to_runs ds !! key) as [task|] eqn:Htask.
  2: { cbn. repeat split; auto; discriminate. }
  unfold Frontend.abort_task_to_run, Frontend.put_to_run.
  cbn [Frontend.summaries].
  destruct (Frontend.summaries ds !! key) as [summary|];
    cbn [fst snd Frontend.put_summary Frontend.requests Frontend.to_runs
         Frontend.summaries Frontend.run_results Frontend.results].
  - repeat split; try discriminate.
    + rewrite lookup_insert_ne by congruence. reflexivity.
    + rewrite lookup_insert_ne by congruence. reflexivity.
    + intros k [= <-] _. exists task. rewrite Htask, lookup_insert_eq. auto.
  - repeat split; try discriminate.
    rewrite lookup_insert_ne by congruence. reflexivity.
Qed.

End CancelProperties.

(** ** The task *)

Section TaskProperties.

Import BotMain.

Variable str : pyval -> string.

(** The cases of [judge]. *)
Ltac judge_cases returncode task_result :=
  unfold judge;
  destruct (Z.eqb_spec returncode 0) as [Hrc|Hrc];
  destruct task_result as [d|y];
  [ destruct (decide (d = ∅)) as [Hd|Hd];
    [ rewrite (bool_decide_eq_true_2 _ Hd); subst d
    | rewrite (bool_decide_eq_false_2 _ Hd);
      destruct (d !! "must_signal_internal_failure"%string) as [x|] eqn:Hx;
      [destruct (truthy x) eqn:Htx|];
      destruct (truthy (default PyNone (d !! "exit_code"%string))) eqn:He ]
  | destruct (truthy y) eqn:Hy
  | destruct (decide (d = ∅)) as [Hd|Hd];
    [ rewrite (bool_decide_eq_true_2 _ Hd); subst d
    | rewrite (bool_decide_eq_false_2 _ Hd);
      destruct (truthy (default PyNone (d !! "exit_code"%string))) eqn:He ]
  | destruct (truthy y) eqn:Hy ];
  cbn [negb andb returns failure internal_failure msg raised fst snd].

Lemma judge_internal_failure lookup_error returncode task_result :
  let v := judge str lookup_error returncode task_result in
  (internal_failure v = true -> exists message, msg v = Some message)
  /\ (returns v = None ->
      internal_failure v = true
      /\ exists e, msg v = Some ("Internal exception occured: " +:+ e)).
Proof.
  cbv zeta. judge_cases returncode task_result;
    (split; [intros H; try discriminate H; eexists; reflexivity|]);
    intros H; try discriminate H; (split; [reflexivity|eexists; reflexivity]).
Qed.

Lemma judge_success lookup_error returncode task_result :
  let v := judge str lookup_error returncode task_result in
  returns v = Some true ->
  internal_failure v = false
  /\ returncode = 0
  /\ exists d x,
       task_result = inl d
       /\ d !! "must_signal_internal_failure"%string = Some x
       /\ truthy x = false
       /\ truthy (default PyNone (d !! "exit_code"%string)) = false.
Proof.
  cbv zeta. judge_cases returncode task_result; intros H; try discriminate H.
  split; [reflexivity|]. split; [exact Hrc|]. exists d, x. auto.
Qed.

Lemma judge_succeeds lookup_error d x :
  d !! "must_signal_internal_failure"%string = Some x ->
  truthy x = false ->
  truthy (default PyNone (d !! "exit_code"%string)) = false ->
  returns (judge str lookup_error 0 (inl d)) = Some true.
Proof.
  intros Hx Htx He. unfold judge. cbn [Z.eqb negb].
  rewrite bool_decide_eq_false_2, Hx, Htx, He; [reflexivity|].
  intros ->. rewrite lookup_empty in Hx. discriminate.
Qed.

Lemma judge_task_failure lookup_error returncode task_result :
  let v := judge str lookup_error returncode task_result in
  internal_failure v = false -> returns v <> Some true ->
  exists d,
    task_result = inl d /\ d <> ∅
    /\ truthy (default PyNone (d !! "exit_code"%string)) = true.
Proof.
  cbv zeta. judge_cases returncode task_result; intros H H'; try discriminate H;
    try (exfalso; apply H'; reflexivity).
  exists d. auto.
Qed.


Lemma run_task_verdict around p :
  let v := (run_task str around p).1 in
  (internal_failure v = true -> exists message, msg v = Some message)
  /\ (returns v = None ->
      internal_failure v = true
      /\ exists e, msg v = Some ("Internal exception occured: " +:+ e))
  /\ (returns v = Some true <-> task_succeeds around)
  /\ (returns v = Some true -> internal_failure v = false)
  /\ (internal_failure v = false -> returns v <> Some true ->
      exists d,
        task_result_file around = Loaded d
        /\ truthy (default PyNone (d !! "exit_code"%string)) = true).
Proof.
  cbv zeta. unfold run_task.
  destruct (prepare_fails around) as [e|] eqn:Hprepare.
  { cbn. repeat split; intros; try discriminate; eauto.
    destruct H as [H _]. congruence. }
  destruct (_call_hook_safe _ _ p) as [x p1].
  destruct (start_fails around) as [e|] eqn:Hstart.
  { cbn. repeat split; intros; try discriminate; eauto.
    destruct H as (_ & H & _). congruence. }
  destruct (task_runner around) as [|returncode] eqn:Hrunner.
  { cbn. repeat split; intros; try discriminate; eauto.
    destruct H as (_ & _ & H & _). congruence. }
  assert (Hraised : forall e,
            let v := raised e in
            (internal_failure v = true -> exists message, msg v = Some message)
            /\ (returns v = None ->
                internal_failure v = true
                /\ exists e,
                     msg v = Some ("Internal exception occured: " +:+ e))
            /\ (returns v = Some true -> internal_failure v = false)
            /\ (internal_failure v = false -> returns v <> Some true ->
                exists d,
                  task_result_file around = Loaded d
                  /\ truthy (default PyNone (d !! "exit_code"%string)) = true)).
  { intros e. cbn. repeat split; intros; try discriminate; eauto. }
  assert (Hjudge : forall task_result,
            let v := judge str (lookup_error around) returncode task_result in
            (forall d, task_result = inl d -> d <> ∅ ->
                       task_result_file around = Loaded d) ->
            (internal_failure v = true -> exists message, msg v = Some message)
            /\ (returns v = None ->
                internal_failure v = true
                /\ exists e,
                     msg v = Some ("Internal exception occured: " +:+ e))
            /\ (returns v = Some true -> task_succeeds around)
            /\ (returns v = Some true -> internal_failure v = false)
            /\ (internal_failure v = false -> returns v <> Some true ->
                exists d,
                  task_result_file around = Loaded d
                  /\ truthy (default PyNone (d !! "exit_code"%string)) = true)).
  { intros task_result v Hfile. subst v.
    destruct (judge_internal_failure (lookup_error around) returncode
                task_result) as [Hmsg Hnone].
    pose proof (judge_success (lookup_error around) returncode task_result)
      as Hsuccess.
    pose proof (judge_task_failure (lookup_error around) returncode
                  task_result) as Hfailure.
    cbv zeta in *.
    split; [exact Hmsg|]. split; [exact Hnone|]. split; [|split].
    - intros Hr.
      destruct (Hsuccess Hr) as (_ & -> & d & y & -> & Hy & Hty & He).
      repeat split; try assumption. exists d, y. repeat split; try assumption.
      apply Hfile; [reflexivity|]. intros ->.
      rewrite lookup_empty in Hy. discriminate.
    - intros Hr. apply (Hsuccess Hr).
    - intros Hi Hr. destruct (Hfailure Hi Hr) as (d & -> & Hd & He).
      exists d. split; [|exact He]. apply Hfile; [reflexivity|exact Hd]. }
  assert (Hsucceeds : forall d,
            task_result_file around = Loaded d -> task_succeeds around ->
            returns (judge str (lookup_error around) returncode (inl d))
            = Some true).
  { intros d Hd (_ & _ & Hr & d' & y & Hd' & Hy & Hty & He).
    rewrite Hrunner in Hr. injection Hr as ->.
    rewrite Hd in Hd'. injection Hd' as <-.
    apply judge_succeeds with (x := y); assumption. }
  assert (Hfails : forall v : verdict,
            (forall d, task_result_file around <> Loaded d) ->
            (returns v = Some true -> task_succeeds around) ->
            (returns v = Some true <-> task_succeeds around)).
  { intros v Hfile Hv. split; [exact Hv|].
    intros (_ & _ & _ & d & y & Hd & _). exfalso. exact (Hfile d Hd). }
  destruct (task_result_file around) as [|e traceback|d|y]; cbn [fst].
  - destruct (Hjudge (inl ∅)) as (H1 & H2 & H3 & H4 & H5).
    { intros d [= <-] Hd. congruence. }
    repeat (split; [assumption|]). split; [|split; assumption].
    apply Hfails; [discriminate|exact H3].
  - destruct (Hraised (e, traceback)) as (H1 & H2 & H4 & H5).
    repeat (split; [assumption|]). split; [|split; assumption].
    apply Hfails; discriminate.
  - destruct (Hjudge (inl d)) as (H1 & H2 & H3 & H4 & H5).
    { intros d' [= <-] _. reflexivity. }
    repeat (split; [assumption|]). split; [|split; assumption].
    split; [exact H3|]. apply Hsucceeds. reflexivity.
  - destruct (Hjudge (inr y)) as (H1 & H2 & H3 & H4 & H5).
    { intros d [=]. }
    repeat (split; [assumption|]). split; [|split; assumption].
    apply Hfails; [discriminate|exact H3].
Qed.

Lemma run_task_hung around p :
  prepare_fails around = None -> start_fails around = None ->
  task_runner around = RunnerTimedOut ->
  (run_task str around p).1
  = mkVerdict (Some false) false true (Some "task_runner hung"%string).
Proof.
  intros Hprepare Hstart Hrunner. unfold run_task.
  rewrite Hprepare, Hstart, Hrunner.
  destruct (_call_hook_safe _ _ p). reflexivity.
Qed.

(** X27. Once the manifest is read, [_run_manifest] returns, whatever is raised
    while the task runs, and what it posts for the task is the internal
    failure, if there is one, and nothing else: at most one error, under the
    id of the task. It returns [True] exactly when the task succeeded, and
    then it posts nothing. When an exception was caught it returns [None] and
    posts the exception; when [task_runner] hangs it returns [False] and posts
    that. And when it posts nothing though the task did not succeed, the task
    result holds an exit code: the task failed, not the bot. *)
Theorem _run_manifest_reports_internal_failures around manifest read p :
  truthy manifest = true ->
  read_manifest manifest = inr read ->
  exists r errors p',
    _run_manifest str around manifest p = (Returns r, errors, p')
    /\ (errors = []
        \/ exists message, errors = [(manifest_task_id read, message)])
    /\ (r = Some true <-> task_succeeds around)
    /\ (r = Some true -> errors = [])
    /\ (r = None ->
        exists e,
          errors
          = [(manifest_task_id read, "Internal exception occured: " +:+ e)])
    /\ (prepare_fails around = None -> start_fails around = None ->
        task_runner around = RunnerTimedOut ->
        r = Some false
        /\ errors = [(manifest_task_id read, "task_runner hung"%string)])
    /\ (errors = [] -> r <> Some true ->
        exists d,
          task_result_file around = Loaded d
          /\ truthy (default PyNone (d !! "exit_code"%string)) = true).
Proof.
  intros Hmanifest Hread. unfold _run_manifest.
  rewrite Hmanifest, Hread. cbn [negb].
  pose proof (run_task_verdict around p) as (Hmsg & Hnone & Htrue & Hint & Hfail).
  pose proof (run_task_hung around p) as Hhung.
  destruct (run_task str around p) as [v p1]. cbn [fst] in *.
  destruct (_call_hook_safe _ _ p1) as [x p2].
  eexists _, _, _. split; [reflexivity|].
  split.
  { destruct (internal_failure v);
      [right; eexists; reflexivity|left; reflexivity]. }
  split; [exact Htrue|]. split.
  { intros Hr. rewrite (Hint Hr). reflexivity. }
  split.
  { intros Hr. destruct (Hnone Hr) as [-> [e ->]]. exists e. reflexivity. }
  split.
  { intros H1 H2 H3. rewrite (Hhung H1 H2 H3). split; reflexivity. }
  intros Herrors Hr. apply Hfail; [|exact Hr].
  destruct (internal_failure v); [discriminate Herrors|reflexivity].
Qed.



End TaskProperties.

(** The run of the example succeeds: [_run_manifest] returns [True] and posts
    nothing. *)
Lemma clean_run_returns_true :
  exists p',
    BotMain._run_manifest SampleReport.str SampleTask.clean_run
      SampleTask.manifest SampleBot.fresh
    = (BotMain.Returns (Some true), [], p').
Proof.
  destruct (_run_manifest_reports_internal_failures SampleReport.str
              SampleTask.clean_run SampleTask.manifest
              (BotMain.mkTaskManifest (PyStr "1") (PyInt 150) (PyInt 30)
                 (PyDict {[ "os"%string := PyStr "Linux" ]}))
              SampleBot.fresh)
    as (r & errors & p' & Hrun & _ & Htrue & Hnone & _);
    [reflexivity|vm_compute; reflexivity|].
  assert (Hr : r = Some true).
  { apply Htrue. repeat split. eexists _, PyNone. repeat split. }
  exists p'. rewrite Hrun, (Hnone Hr), Hr. reflexivity.
Defined.

(** The manifest that has no dimensions is not run: [_run_manifest] raises
    [KeyError], and nothing is posted. *)
Lemma manifest_without_dimensions_is_not_run :
  BotMain._run_manifest SampleReport.str SampleTask.clean_run
    SampleTask.no_dimensions SampleBot.fresh
  = (BotMain.Raises "KeyError" "", [], SampleBot.fresh).
Proof. vm_compute. reflexivity. Qed.

(** * bot_auth.py *)

Section AuthProperties.

Import BotAuth.

Variable float : Type.
Variable float_truthy : float -> bool.
Variable str_of_value : json float -> string.
Variable repr : string -> string.

Lemma strip_prefix_Some prefix s rest :
  strip_prefix prefix s = Some rest <-> s = prefix +:+ rest.
Proof.
  revert s. induction prefix as [|c prefix IH]; intros s.
  - change ("" +:+ rest) with rest. cbn. split; congruence.
  - change (String c prefix +:+ rest) with (String c (prefix +:+ rest)).
    cbn [strip_prefix]. destruct s as [|d s].
    + split; discriminate.
    + destruct (Ascii.eqb_spec c d) as [->|Hne].
      * rewrite IH. split; [intros ->; reflexivity|].
        intros H. injection H as ->. reflexivity.
      * split; [discriminate|]. intros H. injection H as Hd _. congruence.
Qed.

(** The errors and the token of an account whose service account is
    [service_account]. *)
Lemma generate_token_of_account val params rpc_client account_id :
  process_auth_params_json float float_truthy str_of_value val = Some params ->
  forall service_account,
    (account_id = "task"%string
     /\ service_account = task_service_account params)
    \/ (account_id = "system"%string
        /\ service_account = system_service_account params) ->
    generate_token float float_truthy str_of_value repr (Some val) rpc_client
      account_id
    = if bool_decide (service_account = "none"%string) then
        TokenError 1
          ("The task has no " +:+ repr account_id
           +:+ " account associated with it")
      else if bool_decide (service_account = "bot"%string) then
        _grab_bot_oauth_token params
      else if negb rpc_client then
        RPCError 500 "No RPC client, can't fetch token"
      else TokenError 3 "Not implemented yet".
Proof.
  intros Hparams service_account [[-> ->]|[-> ->]];
    unfold generate_token; rewrite Hparams; reflexivity.
Qed.

(** X29. [generate_token] gives a token only for the account that is the bot's
    own. When it returns a token, the system is running and the file is valid,
    the account asked for is [task] or [system], the service account of that
    account is [bot], the header [Authorization] of the bot is [Bearer]
    followed by the token, and the token expires when the headers do, or in
    four minutes when that is not known. For the service account of a user
    it never returns a token. *)
Theorem generate_token_serves_only_the_bot_account reader rpc_client
    account_id tok exp :
  generate_token float float_truthy str_of_value repr reader rpc_client
    account_id = AccessToken tok exp ->
  exists val params,
    reader = Some val
    /\ process_auth_params_json float float_truthy str_of_value val = Some params
    /\ ((account_id = "task"%string
         /\ task_service_account params = "bot"%string)
        \/ (account_id = "system"%string
            /\ system_service_account params = "bot"%string))
    /\ swarming_http_headers params !! "Authorization"%string
       = Some ("Bearer " +:+ tok)
    /\ exp = (if swarming_http_headers_exp params =? 0 then InFourMinutes
              else At (swarming_http_headers_exp params)).
Proof.
  unfold generate_token.
  destruct reader as [val|]; [|discriminate].
  destruct (process_auth_params_json float float_truthy str_of_value val)
    as [params|] eqn:Hparams; [|discriminate].
  assert (Hserve : forall service_account,
            (if bool_decide (service_account = "none"%string) then
               TokenError 1
                 ("The task has no " +:+ repr account_id
                  +:+ " account associated with it")
             else if bool_decide (service_account = "bot"%string) then
               _grab_bot_oauth_token params
             else if negb rpc_client then
               RPCError 500 "No RPC client, can't fetch token"
             else TokenError 3 "Not implemented yet") = AccessToken tok exp ->
            service_account = "bot"%string
            /\ swarming_http_headers params !! "Authorization"%string
               = Some ("Bearer " +:+ tok)
            /\ exp = (if swarming_http_headers_exp params =? 0
                      then InFourMinutes
                      else At (swarming_http_headers_exp params))).
  { intros service_account.
    destruct (bool_decide (service_account = "none"%string)); [discriminate|].
    destruct (decide (service_account = "bot"%string)) as [->|Hbot].
    2: { rewrite (bool_decide_eq_false_2 _ Hbot).
         destruct (negb rpc_client); discriminate. }
    rewrite bool_decide_eq_true_2 by reflexivity.
    unfold _grab_bot_oauth_token.
    destruct (swarming_http_headers params !! "Authorization"%string)
      as [hdr|] eqn:Hhdr.
    - destruct (strip_prefix "Bearer " hdr) as [rest|] eqn:Hrest;
        [|discriminate].
      intros [= <- <-]. apply strip_prefix_Some in Hrest. subst hdr. auto.
    - cbn. discriminate. }
  destruct (decide (account_id = "task"%string)) as [Htask|Htask].
  { rewrite (bool_decide_eq_true_2 _ Htask). intros H.
    destruct (Hserve _ H) as (Hbot & Hhdr & Hexp).
    exists val, params. auto 10. }
  rewrite (bool_decide_eq_false_2 _ Htask).
  destruct (decide (account_id = "system"%string)) as [Hsystem|Hsystem].
  { rewrite (bool_decide_eq_true_2 _ Hsystem). intros H.
    destruct (Hserve _ H) as (Hbot & Hhdr & Hexp).
    exists val, params. auto 10. }
  rewrite (bool_decide_eq_false_2 _ Hsystem). discriminate.
Qed.


(** X30. [AuthSystem.start] exposes the accounts that are set, and
    [generate_token] knows them. On a file that parses, the local server is
    started exactly when the system or the task account is not [none]; the
    accounts it is given are [system] and [task], each when it is not [none];
    and the default account is [task] when that account is set, and none
    otherwise. For an account that is exposed, [generate_token] raises neither
    the error of an unknown account nor the one of an account that is not
    set; for [task] or [system] when it is not exposed, it raises the
    latter. *)
Theorem start_exposes_the_accounts_that_are_set val params :
  process_auth_params_json float float_truthy str_of_value val = Some params ->
  let exposed (a : string) :=
    (a = "system"%string /\ system_service_account params <> "none"%string)
    \/ (a = "task"%string /\ task_service_account params <> "none"%string) in
  exists started,
    start float float_truthy str_of_value (inr val) = inr started
    /\ (started = None <-> forall a, ~ exposed a)
    /\ (forall auth,
          started = Some auth ->
          (forall a, a ∈ accounts auth <-> exposed a)
          /\ (default_account_id auth = Some "task"%string
              <-> task_service_account params <> "none"%string)
          /\ (default_account_id auth = None
              <-> task_service_account params = "none"%string))
    /\ (forall a rpc_client code message,
          exposed a ->
          generate_token float float_truthy str_of_value repr (Some val)
            rpc_client a = RPCError code message ->
          code = 500)
    /\ (forall a rpc_client code message,
          exposed a ->
          generate_token float float_truthy str_of_value repr (Some val)
            rpc_client a = TokenError code message ->
          code = 2 \/ code = 3)
    /\ (forall a rpc_client,
          a ∈ ["task"; "system"]%string -> ~ exposed a ->
          exists message,
            generate_token float float_truthy str_of_value repr (Some val)
              rpc_client a = TokenError 1 message).
Proof.
  intros Hparams exposed.
  assert (Hset : forall a rpc_client,
            exposed a ->
            exists service_account,
              service_account <> "none"%string
              /\ generate_token float float_truthy str_of_value repr
                   (Some val) rpc_client a
                 = if bool_decide (service_account = "bot"%string) then
                     _grab_bot_oauth_token params
                   else if negb rpc_client then
                     RPCError 500 "No RPC client, can't fetch token"
                   else TokenError 3 "Not implemented yet").
  { intros a rpc_client Ha.
    assert (exists service_account,
              service_account <> "none"%string
              /\ ((a = "task"%string
                   /\ service_account = task_service_account params)
                  \/ (a = "system"%string
                      /\ service_account = system_service_account params)))
      as (service_account & Hnone & Hof).
    { destruct Ha as [[-> H]|[-> H]]; eauto 6. }
    exists service_account. split; [exact Hnone|].
    rewrite (generate_token_of_account _ _ _ _ Hparams _ Hof).
    rewrite (bool_decide_eq_false_2 _ Hnone). reflexivity. }
  assert (Hgrab : forall code message,
            (_grab_bot_oauth_token params = RPCError code message -> False)
            /\ (_grab_bot_oauth_token params = TokenError code message ->
                code = 2)).
  { intros code message. unfold _grab_bot_oauth_token.
    destruct (strip_prefix _ _); split; intros H; try discriminate.
    injection H as <- _. reflexivity. }
  unfold start. rewrite Hparams. cbv zeta.
  destruct (decide (system_service_account params = "none"%string))
    as [Hsystem|Hsystem];
    destruct (decide (task_service_account params = "none"%string))
      as [Htask|Htask];
    rewrite ?(bool_decide_eq_true_2 _ Hsystem),
      ?(bool_decide_eq_false_2 _ Hsystem), ?(bool_decide_eq_true_2 _ Htask),
      ?(bool_decide_eq_false_2 _ Htask);
    cbn [negb app]; (eexists; split; [reflexivity|]).
  all: split;
    [split;
     [intros Hnone a [[_ H]|[_ H]]; (discriminate Hnone || contradiction)
     |intros H;
      first [reflexivity
            |exfalso;
             first [apply (H "system"%string); left; split;
                    [reflexivity|assumption]
                   |apply (H "task"%string); right; split;
                    [reflexivity|assumption]]]]|].
  all: split;
    [intros auth Hauth;
     first [discriminate Hauth
           |injection Hauth as <-; cbn [accounts default_account_id]; split;
            [intros a; rewrite ?elem_of_cons, elem_of_nil; unfold exposed;
             intuition congruence
            |split; split; intros; congruence]]|].
  all: split;
    [intros a rpc_client code message Ha;
     destruct (Hset a rpc_client Ha) as (service_account & _ & ->);
     destruct (bool_decide (service_account = "bot"%string));
     [intros H; destruct (proj1 (Hgrab code message) H)
     |destruct (negb rpc_client); intros H; [injection H as <- _|];
      congruence]|].
  all: split;
    [intros a rpc_client code message Ha;
     destruct (Hset a rpc_client Ha) as (service_account & _ & ->);
     destruct (bool_decide (service_account = "bot"%string));
     [intros H; left; exact (proj2 (Hgrab code message) H)
     |destruct (negb rpc_client); intros H; [discriminate H|];
      injection H as <- _; right; reflexivity]|].
  all: intros a rpc_client Ha Hno; eexists;
    rewrite !elem_of_cons, elem_of_nil in Ha;
    destruct Ha as [->|[->|[]]];
    [rewrite (generate_token_of_account _ _ rpc_client _ Hparams
                (task_service_account params)) by auto
    |rewrite (generate_token_of_account _ _ rpc_client _ Hparams
                (system_service_account params)) by auto];
    (rewrite bool_decide_eq_true_2; [reflexivity|]);
    first [assumption|exfalso; apply Hno; unfold exposed; auto].
Qed.

End AuthProperties.

Lemma task_account_of_the_bot_gets_the_bearer :
  BotAuth.generate_token SampleAuth.float SampleAuth.float_truthy
    SampleAuth.str_of_value SampleAuth.repr (Some SampleAuth.file) false
    "task"
  = BotAuth.AccessToken "abc" (BotAuth.At 1500000000)
  /\ exists val params,
       Some SampleAuth.file = Some val
       /\ BotAuth.process_auth_params_json SampleAuth.float
            SampleAuth.float_truthy SampleAuth.str_of_value val
          = Some params
       /\ BotAuth.task_service_account params = "bot"%string.
Proof.
  assert (H : BotAuth.generate_token SampleAuth.float SampleAuth.float_truthy
                SampleAuth.str_of_value SampleAuth.repr (Some SampleAuth.file)
                false "task"
              = BotAuth.AccessToken "abc" (BotAuth.At 1500000000))
    by (vm_compute; reflexivity).
  split; [exact H|].
  destruct (generate_token_serves_only_the_bot_account _ _ _ _ _ _ _ _ _ H)
    as (val & params & Hval & Hparams & [[_ Hbot]|[Hsystem _]] & _);
    [|discriminate Hsystem].
  exists val, params. auto.
Defined.

Lemma sample_file_exposes_the_task_account_only :
  BotAuth.process_auth_params_json SampleAuth.float SampleAuth.float_truthy
    SampleAuth.str_of_value SampleAuth.file
  = Some SampleAuth.params
  /\ (exists auth,
        BotAuth.start SampleAuth.float SampleAuth.float_truthy
          SampleAuth.str_of_value (inr SampleAuth.file)
        = inr (Some auth)
        /\ forall a, a ∈ BotAuth.accounts auth -> a = "task"%string)
  /\ forall rpc_client,
       exists message,
         BotAuth.generate_token SampleAuth.float SampleAuth.float_truthy
           SampleAuth.str_of_value SampleAuth.repr (Some SampleAuth.file)
           rpc_client "system"
         = BotAuth.TokenError 1 message.
Proof.
  assert (Hparams : BotAuth.process_auth_params_json SampleAuth.float
                      SampleAuth.float_truthy SampleAuth.str_of_value
                      SampleAuth.file
                    = Some SampleAuth.params)
    by (vm_compute; reflexivity).
  split; [exact Hparams|].
  destruct (start_exposes_the_accounts_that_are_set SampleAuth.float
              SampleAuth.float_truthy SampleAuth.str_of_value SampleAuth.repr
              SampleAuth.file SampleAuth.params Hparams)
    as (started & Hstart & Hnone & Hsome & _ & _ & Hunset).
  split.
  - destruct started as [auth|].
    + exists auth. split; [exact Hstart|].
      intros a Ha. apply (Hsome auth eq_refl) in Ha as [[_ H]|[-> _]];
        [destruct H|]; reflexivity.
    + exfalso. apply (proj1 Hnone eq_refl "task"%string). right.
      split; [reflexivity|discriminate].
  - intros rpc_client. apply Hunset.
    + rewrite !elem_of_cons. auto.
    + intros [[_ H]|[H _]]; [apply H; reflexivity|discriminate H].
Defined.
